(** * snapd-seed-glue: a shallow embedding of the seed reconciliation code

    The Go sources are embedded function by function.  Go strings are byte
    strings ([string]), Go [int] values are [Z], Go maps are stdpp [gmap]s,
    and package-level variables are threaded explicitly as state. *)

From Stdlib Require Import ZArith String Ascii List Bool Lia DecimalString.
From Stdlib Require Import Floats Uint63.
From stdpp Require Import gmap strings.
Import ListNotations.
Local Open Scope Z_scope.

(** ** The parts of Go's [strings], [strconv] and [fmt] packages the code uses *)

Module GoStrings.

(** [strings.HasPrefix(s, p)] *)
Definition HasPrefix (s p : string) : bool := String.prefix p s.

Fixpoint drop (n : nat) (s : string) : string :=
  match n, s with
  | O, _ => s
  | S _, EmptyString => EmptyString
  | S k, String _ t => drop k t
  end.

Definition take (n : nat) (s : string) : string := String.substring 0 n s.

(** [strings.HasSuffix(s, suf)] *)
Definition HasSuffix (s suf : string) : bool :=
  (String.length suf <=? String.length s)%nat
  && String.eqb (drop (String.length s - String.length suf) s) suf.

(** [strings.TrimSuffix(s, suf)] *)
Definition TrimSuffix (s suf : string) : string :=
  if HasSuffix s suf then take (String.length s - String.length suf) s else s.

(** [strings.Contains(s, sub)] *)
Fixpoint Contains (s sub : string) : bool :=
  if String.prefix sub s then true
  else match s with
       | EmptyString => false
       | String _ t => Contains t sub
       end.

Fixpoint lastIndexFrom (sub s : string) (i acc : Z) : Z :=
  let acc' := if String.prefix sub s then i else acc in
  match s with
  | EmptyString => acc'
  | String _ t => lastIndexFrom sub t (i + 1) acc'
  end.

(** [strings.LastIndex(s, sub)]: the byte offset of the last occurrence,
    or [-1]. *)
Definition LastIndex (s sub : string) : Z := lastIndexFrom sub s 0 (-1).

(** The slice expression [s[i:]] for [0 <= i <= len(s)]. *)
Definition sliceFrom (s : string) (i : Z) : string := drop (Z.to_nat i) s.

(** [strings.Cut(s, sep)] *)
Fixpoint Cut (s sep : string) : string * string * bool :=
  if String.prefix sep s then (EmptyString, drop (String.length sep) s, true)
  else match s with
       | EmptyString => (EmptyString, EmptyString, false)
       | String c t => let '(b, a, f) := Cut t sep in (String c b, a, f)
       end.

Fixpoint splitFuel (fuel : nat) (s sep : string) : list string :=
  match fuel with
  | O => [s]
  | S k => let '(b, a, f) := Cut s sep in
           if f then b :: splitFuel k a sep else [s]
  end.

(** [strings.Split(s, sep)] for a non-empty separator (the only use in
    the sources). *)
Definition Split (s sep : string) : list string :=
  splitFuel (String.length s) s sep.

(** [strings.Replace(s, old, new, 1)] for a non-empty [old]. *)
Definition ReplaceFirst (s old new : string) : string :=
  let '(b, a, f) := Cut s old in if f then b +:+ new +:+ a else s.

(** [strings.SplitN(s, sep, 2)] for a non-empty separator. *)
Definition SplitN2 (s sep : string) : list string :=
  let '(b, a, f) := Cut s sep in if f then [b; a] else [s].

Fixpoint replaceSkip (old new s : string) (skip : nat) : string :=
  match s with
  | EmptyString => EmptyString
  | String c t =>
      match skip with
      | S k => replaceSkip old new t k
      | O => if String.prefix old s
             then new +:+ replaceSkip old new t (String.length old - 1)
             else String c (replaceSkip old new t 0)
      end
  end.

(** [strings.ReplaceAll(s, old, new)], also [strings.Replace(s, old, new, -1)],
    for a non-empty [old] (the only use in the sources): every
    non-overlapping occurrence, scanning from the left. *)
Definition ReplaceAll (s old new : string) : string := replaceSkip old new s 0.

Definition bytes (l : list nat) : string :=
  fold_right (fun n s => String (ascii_of_nat n) s) EmptyString l.

(** The encodings of the code points for which [unicode.IsSpace] holds. *)
Definition spaceSeqs : list string :=
  map bytes
    [ [9%nat]; [10%nat]; [11%nat]; [12%nat]; [13%nat]; [32%nat];
      [194; 133]%nat; [194; 160]%nat; [225; 154; 128]%nat;
      [226; 128; 128]%nat; [226; 128; 129]%nat; [226; 128; 130]%nat;
      [226; 128; 131]%nat; [226; 128; 132]%nat; [226; 128; 133]%nat;
      [226; 128; 134]%nat; [226; 128; 135]%nat; [226; 128; 136]%nat;
      [226; 128; 137]%nat; [226; 128; 138]%nat; [226; 128; 168]%nat;
      [226; 128; 169]%nat; [226; 128; 175]%nat; [226; 129; 159]%nat;
      [227; 128; 128]%nat ].

Definition leadingSpace (s : string) : option string :=
  List.find (fun w => HasPrefix s w) spaceSeqs.

Definition trailingSpace (s : string) : option string :=
  List.find (fun w => HasSuffix s w) spaceSeqs.

Fixpoint trimLeftFuel (fuel : nat) (s : string) : string :=
  match fuel with
  | O => s
  | S k => match leadingSpace s with
           | Some w => trimLeftFuel k (drop (String.length w) s)
           | None => s
           end
  end.

Fixpoint trimRightFuel (fuel : nat) (s : string) : string :=
  match fuel with
  | O => s
  | S k => match trailingSpace s with
           | Some w => trimRightFuel k (take (String.length s - String.length w) s)
           | None => s
           end
  end.

(** [strings.TrimSpace(s)] *)
Definition TrimSpace (s : string) : string :=
  let t := trimLeftFuel (String.length s) s in
  trimRightFuel (String.length t) t.

Definition digitVal (c : ascii) : option Z :=
  let n := Z.of_nat (nat_of_ascii c) in
  if (48 <=? n) && (n <=? 57) then Some (n - 48) else None.

Fixpoint parseDigits (s : string) (acc : Z) : option Z :=
  match s with
  | EmptyString => Some acc
  | String c t => match digitVal c with
                  | Some d => parseDigits t (10 * acc + d)
                  | None => None
                  end
  end.

Definition parseUnsigned (s : string) : option Z :=
  match s with
  | EmptyString => None
  | _ => parseDigits s 0
  end.

Definition maxInt : Z := 9223372036854775807.
Definition minInt : Z := -9223372036854775808.

(** [strconv.Atoi(s)] on a 64-bit platform; [None] stands for a non-nil
    error (syntax or range). *)
Definition Atoi (s : string) : option Z :=
  let signed :=
    match s with
    | String "-"%char t => option_map Z.opp (parseUnsigned t)
    | String "+"%char t => parseUnsigned t
    | _ => parseUnsigned s
    end in
  match signed with
  | Some n => if (minInt <=? n) && (n <=? maxInt) then Some n else None
  | None => None
  end.

(** The [%d] verb of [fmt] on an [int]. *)
Definition Itoa (n : Z) : string := NilZero.string_of_int (Z.to_int n).

End GoStrings.

(** ** Data of [github.com/snapcore/snapd] the code handles *)

(** [snap.Revision] *)
Record Revision := mkRevision { N : Z }.

(** The fields of [store.CurrentSnap] the code reads or writes; the field
    [Revision] is [Rev] here, the name being that of its type. *)
Record CurrentSnap := mkCurrentSnap {
  InstanceName : string;
  SnapID : string;
  Rev : Revision;
  TrackingChannel : string
}.

Definition Revision_eqb (a b : Revision) : bool := N a =? N b.

(** ** utils.go *)

Module Utils.
Import GoStrings.

Definition extractRevisionFromFile (fileName : string) : string :=
  let lastUnderscore := LastIndex fileName "_" in
  if lastUnderscore =? -1 then ""
  else
    let revisionWithSuffix := sliceFrom fileName (lastUnderscore + 1) in
    if HasSuffix revisionWithSuffix ".snap" then
      TrimSuffix revisionWithSuffix ".snap"
    else if HasSuffix revisionWithSuffix ".assert" then
      TrimSuffix revisionWithSuffix ".assert"
    else revisionWithSuffix.

(** [isSnapInCurrentSnaps]; the second component is [snap.Revision{}]
    when the name is not found. *)
Fixpoint isSnapInCurrentSnaps (currentSnaps : list CurrentSnap)
         (snapName : string) : bool * Revision :=
  match currentSnaps with
  | [] => (false, mkRevision 0)
  | snap :: rest =>
      if String.eqb (InstanceName snap) snapName then (true, Rev snap)
      else isSnapInCurrentSnaps rest snapName
  end.

(** [removeSnapFromCurrentSnaps]: the loop over the indices of the
    package-level slice, as a recursion over its elements; the result is
    the new value of [currentSnaps]. *)
Fixpoint removeSnapFromCurrentSnaps (currentSnaps : list CurrentSnap)
         (snapName : string) (revision : Revision) : list CurrentSnap :=
  match currentSnaps with
  | [] => []
  | snap :: rest =>
      if Revision_eqb (Rev snap) revision then rest
      else snap :: removeSnapFromCurrentSnaps rest snapName revision
  end.

End Utils.

(** ** Outcomes of calls that can fail *)

(** A Go [(T, error)] result; the error is kept as its message
    ([err.Error()]), which is all the code inspects. *)
Inductive result (A : Type) : Type :=
| Ok (a : A)
| Err (msg : string).
Arguments Ok {A} a.
Arguments Err {A} msg.

(** The line feed byte, written ["\n"] in the Go sources. *)
Definition LF : string := String (ascii_of_nat 10) EmptyString.

(** The double quote byte. *)
Definition DQ : string := String (ascii_of_nat 34) EmptyString.

(** [filepath.Join(dir, name)] for the directory and file names the tool
    builds (no [.], [..] or doubled separators to clean). *)
Definition filepath_Join (dir name : string) : string := dir +:+ "/" +:+ name.

(** ** assertions.go *)

(** A header value of an [asserts.Assertion]: a string, a list or a map
    (Go's [interface{}] holding [string], [[]interface{}] or
    [map[string]interface{}]). *)
#[warnings="-register-all"]
Inductive hvalue : Type :=
| HString (s : string)
| HList (l : list hvalue)
| HMap (m : list (string * hvalue)).

(** What the code reads from an [asserts.Assertion]: [Headers()], [Body()]
    and the second component of [Signature()]. *)
Record Assertion := mkAssertion {
  Headers : gmap string hvalue;
  Body : string;
  Signature : string
}.

(** The fields of [snap.Info] the code reads; [SnapID] and [Revision] are
    [InfoSnapID] and [InfoRevision] here, and [Publisher.ID] is
    [PublisherID]. *)
Record Info := mkInfo {
  SuggestedName : string;
  InfoSnapID : string;
  InfoRevision : Revision;
  Base : string;
  Sha3_384 : string;
  PublisherID : string;
  Size : Z
}.

(** One write to the assertions file.  Writes made for a header inside the
    field loop carry the key they are made for, so that the text of a body
    or of a signature can never be mistaken for a header line. *)
Inductive fwrite : Type :=
| WHeader (key text : string)
| WNested (text : string)
| WText (text : string).



(** The keys of the header lines of a file, in the order they were written. *)
Fixpoint headerKeys (f : list fwrite) : list string :=
  match f with
  | [] => []
  | WHeader k _ :: r => k :: headerKeys r
  | _ :: r => headerKeys r
  end.

(** [encoding/hex] and [encoding/base64] *)
Module GoEncoding.

Definition hexVal (c : ascii) : option nat :=
  let n := nat_of_ascii c in
  if ((48 <=? n) && (n <=? 57))%nat then Some (n - 48)%nat
  else if ((97 <=? n) && (n <=? 102))%nat then Some (n - 87)%nat
  else if ((65 <=? n) && (n <=? 70))%nat then Some (n - 55)%nat
  else None.

(** [hex.DecodeString]; [None] stands for a non-nil error. *)
Fixpoint hex_DecodeString (s : string) : option string :=
  match s with
  | EmptyString => Some EmptyString
  | String _ EmptyString => None
  | String a (String b t) =>
      match hexVal a, hexVal b, hex_DecodeString t with
      | Some x, Some y, Some r => Some (String (ascii_of_nat (16 * x + y)) r)
      | _, _, _ => None
      end
  end.

Definition urlAlphabet : string :=
  "ABCDEFGHIJKLMNOPQRSTUVWXYZabcdefghijklmnopqrstuvwxyz0123456789-_".

Definition urlChar (n : nat) : string :=
  match String.get n urlAlphabet with
  | Some c => String c EmptyString
  | None => EmptyString
  end.

(** [base64.RawURLEncoding.EncodeToString] *)
Fixpoint base64_RawURLEncode (s : string) : string :=
  match s with
  | EmptyString => EmptyString
  | String a EmptyString =>
      let x := nat_of_ascii a in
      urlChar (x / 4) +:+ urlChar ((x mod 4) * 16)
  | String a (String b EmptyString) =>
      let x := nat_of_ascii a in
      let y := nat_of_ascii b in
      urlChar (x / 4) +:+ urlChar ((x mod 4) * 16 + y / 16)
      +:+ urlChar ((y mod 16) * 4)
  | String a (String b (String c t)) =>
      let x := nat_of_ascii a in
      let y := nat_of_ascii b in
      let z := nat_of_ascii c in
      urlChar (x / 4) +:+ urlChar ((x mod 4) * 16 + y / 16)
      +:+ urlChar ((y mod 16) * 4 + z / 64) +:+ urlChar (z mod 64)
      +:+ base64_RawURLEncode t
  end.

End GoEncoding.

Module Assertions.
Import GoStrings GoEncoding.

(** An instant, in nanoseconds since the Unix epoch. *)
Definition Time := Z.

(** [time.Date(2023, time.December, 9, 0, 0, 0, 0, time.UTC)] *)
Definition thresholdTime : Time := 1702080000 * 1000000000.

(** The zero [time.Time] (January 1, year 1, 00:00:00 UTC), which
    [time.Parse] returns together with its error. *)
Definition zeroTime : Time := -62135596800 * 1000000000.

(** The [fieldOrder] table of [writeAssertion]; a type that is not a key
    of the Go map yields the nil slice. *)
Definition fieldOrder (assertionType : string) : list string :=
  if String.eqb assertionType "account-key" then
    [ "type"; "authority-id"; "revision"; "public-key-sha3-384";
      "account-id"; "name"; "since"; "body-length"; "sign-key-sha3-384" ]
  else if String.eqb assertionType "account" then
    [ "type"; "authority-id"; "revision"; "account-id"; "display-name";
      "timestamp"; "username"; "validation"; "sign-key-sha3-384" ]
  else if String.eqb assertionType "snap-declaration" then
    [ "type"; "format"; "authority-id"; "revision"; "series"; "snap-id";
      "aliases"; "auto-aliases"; "plugs"; "publisher-id"; "slots";
      "snap-name"; "timestamp"; "sign-key-sha3-384" ]
  else if String.eqb assertionType "snap-revision" then
    [ "type"; "authority-id"; "snap-sha3-384"; "developer-id";
      "provenance"; "snap-id"; "snap-revision"; "snap-size";
      "timestamp"; "sign-key-sha3-384" ]
  else [].


Definition isComplexField (key : string) : bool :=
  String.eqb key "aliases" || String.eqb key "auto-aliases"
  || String.eqb key "plugs" || String.eqb key "slots"
  || String.eqb key "allow-installation" || String.eqb key "allow-connection".

(** The comparison [value == s] of an [interface{}] with a string. *)
Definition isString (value : hvalue) (s : string) : bool :=
  match value with
  | HString v => String.eqb v s
  | _ => false
  end.

(** A header the field loop does not skip: present, and not the empty
    string. *)
Definition headerShown (headers : gmap string hvalue) (key : string) : bool :=
  match headers !! key with
  | Some value => negb (isString value "")
  | None => false
  end.

Section Writer.

(** The YAML text [gopkg.in/yaml.v3] encodes a value to, with indent 2. *)
Variable yamlEncode : hvalue -> string.

(** What the [%s] verb of [fmt] prints for a value that is not a string. *)
Variable fmtValue : hvalue -> string.

(** [time.Parse(time.RFC3339, s)]; [None] stands for a non-nil error. *)
Variable time_Parse : string -> option Time.

Definition sprintValue (value : hvalue) : string :=
  match value with
  | HString s => s
  | _ => fmtValue value
  end.

(** The body of the loop over the lines in [serializeComplexField]. *)
Definition serializeLine (line0 : string) : list fwrite :=
  if String.eqb line0 "" then []
  else
    let line := ReplaceAll line0 (DQ +:+ "true" +:+ DQ) "true" in
    let line := ReplaceAll line (DQ +:+ "false" +:+ DQ) "false" in
    let line := ReplaceAll line "'*'" "*" in
    if HasPrefix (TrimSpace line) "-" && Contains line ":" then
      let '(before, after, found) := Cut line "- " in
      if found then
        WNested ("  " +:+ before +:+ "-" +:+ LF)
        :: (if negb (String.eqb after "")
            then [WNested ("    " +:+ before +:+ after +:+ LF)] else [])
      else [WNested ("  " +:+ line +:+ "-" +:+ LF)]
    else if negb (String.eqb (TrimSpace line) "") then
      [WNested ("  " +:+ line +:+ LF)]
    else [].

Definition serializeComplexField (value : hvalue) : list fwrite :=
  flat_map serializeLine (Split (yamlEncode value) LF).

(** The body of the loop over [fieldOrder[assertionType]] in
    [writeAssertion]: the writes made for one key. *)
Definition writeHeader (assertionType : string) (bodyLength : Z)
           (headers : gmap string hvalue) (key : string) : list fwrite :=
  match headers !! key with
  | None => []
  | Some value =>
      if isString value "" then []
      else if String.eqb key "type" then
        [WHeader key (key +:+ ": " +:+ assertionType +:+ LF)]
      else if String.eqb key "body-length" && (0 <? bodyLength) then
        [WHeader key ("body-length: " +:+ Itoa bodyLength +:+ LF)]
      else if isComplexField key then
        WHeader key (key +:+ ":" +:+ LF) :: serializeComplexField value
      else
        [WHeader key (key +:+ ": " +:+ sprintValue value +:+ LF)]
  end.

(** The account assertion of Canonical, which [writeAssertion] leaves out. *)
Definition isCanonicalAccount (assertionType : string)
           (headers : gmap string hvalue) : bool :=
  String.eqb assertionType "account"
  && match headers !! "username" with
     | Some value => isString value "canonical"
     | None => false
     end.

(** The instant the code compares with the threshold: [time.Parse]'s first
    result, its error being dropped. *)
Definition parsedTime (timestamp : string) : Time :=
  match time_Parse timestamp with
  | Some t => t
  | None => zeroTime
  end.

(** The [headers] map as the field loop of [writeAssertion] finds it;
    [None] stands for the panic of the type assertion
    [timestamp.(string)]. *)
Definition headersToWrite (assertionType : string)
           (headers : gmap string hvalue) : option (gmap string hvalue) :=
  match headers !! "timestamp" with
  | Some timestamp =>
      if String.eqb assertionType "snap-revision" then
        match timestamp with
        | HString ts =>
            let t := parsedTime ts in
            if (t <? thresholdTime) || (t =? thresholdTime)
            then Some (delete "provenance" headers)
            else Some headers
        | _ => None
        end
      else Some headers
  | None => Some headers
  end.

(** [writeAssertion]: the file after the call, [None] when it panics. *)
Definition writeAssertion (assertionType : string) (assertion : Assertion)
           (file : list fwrite) : option (list fwrite) :=
  let body := Body assertion in
  let bodyLength := Z.of_nat (String.length body) in
  let headers := Headers assertion in
  if isCanonicalAccount assertionType headers then Some file
  else
    match headersToWrite assertionType headers with
    | None => None
    | Some headers =>
        let file :=
          fold_left
            (fun file key =>
               file ++ writeHeader assertionType bodyLength headers key)
            (fieldOrder assertionType) file in
        let file := file ++ [WText LF] in
        let file :=
          if 0 <? bodyLength
          then file ++ [WText body] ++ [WText (LF +:+ LF)]
          else file in
        let file := file ++ [WText (Signature assertion)] in
        if negb (String.eqb assertionType "snap-revision")
        then Some (file ++ [WText LF])
        else Some file
    end.

(** The writes of a call of [writeAssertion] that reaches the field loop
    with the header map [headers], in closed form. *)
Definition assertionBlock (assertionType : string) (assertion : Assertion)
           (headers : gmap string hvalue) : list fwrite :=
  let bodyLength := Z.of_nat (String.length (Body assertion)) in
  flat_map (writeHeader assertionType bodyLength headers)
           (fieldOrder assertionType)
  ++ [WText LF]
  ++ (if 0 <? bodyLength
      then [WText (Body assertion); WText (LF +:+ LF)] else [])
  ++ [WText (Signature assertion)]
  ++ (if negb (String.eqb assertionType "snap-revision")
      then [WText LF] else []).

(** [storeClient.Assertion(assertType, primaryKey, nil)], by the name of
    the assertion type. *)
Variable storeAssertion : string -> list string -> result Assertion.

(** [os.Create(path)], the file itself left out. *)
Variable osCreate : string -> result unit.

(** How a call of [downloadAssertions] ends: it returns nil, having
    written the file, it returns an error, or it panics. *)
Inductive outcome : Type :=
| Written (path : string) (file : list fwrite)
| Failed (msg : string)
| Panicked.

(** The value of [snapDecl.Header("sign-key-sha3-384").(string)] with the
    test [!ok || signKey == ""] applied: [None] when the test holds. *)
Definition signKeyOf (snapDecl : Assertion) : option string :=
  match Headers snapDecl !! "sign-key-sha3-384" with
  | Some (HString signKey) =>
      if String.eqb signKey "" then None else Some signKey
  | _ => None
  end.

Definition downloadAssertions (snapInfo : Info) (downloadDir : string)
  : outcome :=
  let assertionsPath :=
    filepath_Join downloadDir
      (SuggestedName snapInfo +:+ "_" +:+ Itoa (N (InfoRevision snapInfo))
       +:+ ".assert") in
  let snapSHA := Sha3_384 snapInfo in
  let snapID := InfoSnapID snapInfo in
  let publisherID := PublisherID snapInfo in
  let series := "16" in
  match osCreate assertionsPath with
  | Err err => Failed ("failed to create assertions file: " +:+ err)
  | Ok _ =>
  let assertionsFile : list fwrite := [] in
  match storeAssertion "snap-declaration" [series; snapID] with
  | Err err =>
      Failed ("failed to fetch snap-declaration assertion for snap "
              +:+ SuggestedName snapInfo +:+ ": " +:+ err)
  | Ok snapDecl =>
  match signKeyOf snapDecl with
  | None =>
      Failed ("snap-declaration assertion missing 'sign-key-sha3-384' header for snap "
              +:+ SuggestedName snapInfo)
  | Some signKey =>
  match storeAssertion "account-key" [signKey] with
  | Err err =>
      Failed ("failed to fetch account-key assertion for snap "
              +:+ SuggestedName snapInfo +:+ ": " +:+ err)
  | Ok accountKeyAssertion =>
  match storeAssertion "account" [publisherID] with
  | Err err =>
      Failed ("failed to fetch account assertion for snap "
              +:+ SuggestedName snapInfo +:+ ": " +:+ err)
  | Ok accountAssertion =>
  match hex_DecodeString snapSHA with
  | None =>
      (* the text of the error of encoding/hex is left out *)
      Failed ("error decoding SHA3-384 hex string for snap "
              +:+ SuggestedName snapInfo)
  | Some snapSHA384Bytes =>
  let snapSHA384Base64 := base64_RawURLEncode snapSHA384Bytes in
  let revisionKey := snapSHA384Base64 +:+ "/" in
  let snapRevisionAssertion :=
    match storeAssertion "snap-revision" [revisionKey] with
    | Ok a => Some a
    | Err _ => None
    end in
  match writeAssertion "account-key" accountKeyAssertion assertionsFile with
  | None => Panicked
  | Some assertionsFile =>
  match writeAssertion "account" accountAssertion assertionsFile with
  | None => Panicked
  | Some assertionsFile =>
  match writeAssertion "snap-declaration" snapDecl assertionsFile with
  | None => Panicked
  | Some assertionsFile =>
  match snapRevisionAssertion with
  | Some a =>
      match writeAssertion "snap-revision" a assertionsFile with
      | None => Panicked
      | Some assertionsFile => Written assertionsPath assertionsFile
      end
  | None => Written assertionsPath assertionsFile
  end end end end end end end end end end.

End Writer.
End Assertions.

(** ** The dependency resolver (the file of [collectSnapDependencies]) *)

(** [snap.DeltaInfo] *)
Record DeltaInfo := mkDeltaInfo {
  FromRevision : Z;
  ToRevision : Z;
  DeltaSize : Z
}.

(** [store.SnapActionResult]; the embedded [*snap.Info] is the field
    [ResInfo], a pointer that may be nil. *)
Record SnapActionResult := mkSnapActionResult {
  ResInfo : option Info;
  Deltas : list DeltaInfo
}.

(** [store.SnapAction]; [SnapID] and [InstanceName] are [ActionSnapID] and
    [ActionInstanceName] here. *)
Record SnapAction := mkSnapAction {
  Action : string;
  ActionSnapID : string;
  ActionInstanceName : string;
  Channel : string
}.

(** [SnapDetails], its fields with the prefix [Det]. *)
Record SnapDetails := mkSnapDetails {
  DetInstanceName : string;
  DetChannel : string;
  DetCurrentSnap : CurrentSnap;
  DetResult : SnapActionResult
}.

(** The package-level variables the resolver reads and writes. *)
Record Globals := mkGlobals {
  currentSnaps : list CurrentSnap;
  requiredSnaps : gmap string bool;
  processedSnaps : gmap string bool
}.

(** The index expression [m[k]] on a [map[string]bool]. *)
Definition mapBool (m : gmap string bool) (k : string) : bool :=
  default false (m !! k).

(** How a call of the resolver ends; [OutOfFuel] is not an outcome of the
    Go code but of the bound on the recursion depth. *)
Inductive run (A : Type) : Type :=
| Done (a : A) (g : Globals)
| Fail (msg : string)
| OutOfFuel.
Arguments Done {A} a g.
Arguments Fail {A} msg.
Arguments OutOfFuel {A}.

Module Resolver.
Import GoStrings Utils.

Definition noUpdateMsg : string := "snap has no updates available".
Definition channelMissMsg : string := "no snap revision available as specified".

Section Env.

(** [storeClient.SnapAction(ctx, includeSnap, actions, nil, nil, nil)]:
    its first and third result. *)
Variable storeSnapAction :
  list CurrentSnap -> list SnapAction -> result (list SnapActionResult).

(** [os.ReadDir(dir)]: the names of the entries, sorted by name. *)
Variable readDir : string -> result (list string).

(** The lines a [bufio.Scanner] yields on the file at a path; an [Err]
    when [os.Open] fails. *)
Variable scanLines : string -> result (list string).

(** The keys of [tracker.MissingProviderContentTags(info, nil)], in the
    order the [range] loop visits them. *)
Variable missingProviders : Info -> list string.

Variables snapsDir assertionsDir : string.

(** The element [1] of [strings.SplitN(line, ":", 2)]; the lines it is
    applied to contain a colon. *)
Definition afterColon (line : string) : string :=
  match SplitN2 line ":" with
  | [_; v] => v
  | _ => ""
  end.

(** The body of the scanner loop of [parseSnapInfo]. *)
Definition parseLine (currentSnap : CurrentSnap) (text : string) : CurrentSnap :=
  let line := TrimSpace text in
  let currentSnap :=
    if HasPrefix line "snap-id:" then
      mkCurrentSnap (InstanceName currentSnap) (TrimSpace (afterColon line))
                    (Rev currentSnap) (TrackingChannel currentSnap)
    else currentSnap in
  if HasPrefix line "snap-revision:" then
    let revisionStr := TrimSpace (afterColon line) in
    match Atoi revisionStr with
    | None => currentSnap
    | Some revision =>
        mkCurrentSnap (InstanceName currentSnap) (SnapID currentSnap)
                      (mkRevision revision) (TrackingChannel currentSnap)
    end
  else currentSnap.

Definition parseSnapInfo (assertFilePath snapName : string) : CurrentSnap :=
  let currentSnap := mkCurrentSnap snapName "" (mkRevision 0) "" in
  match scanLines assertFilePath with
  | Err _ => currentSnap
  | Ok lines => fold_left parseLine lines currentSnap
  end.

(** The body of the loop over the directory entries of
    [findPreviousSnap], on the triple of [latestRevision],
    [latestSnapPath] and [currentSnap]. *)
Definition scanFile (downloadDir assertDir snapName : string)
           (acc : Z * string * CurrentSnap) (fileName : string)
  : Z * string * CurrentSnap :=
  let '(latestRevision, latestSnapPath, currentSnap) := acc in
  if HasPrefix fileName (snapName +:+ "_") && HasSuffix fileName ".snap" then
    let revisionStr := extractRevisionFromFile fileName in
    if String.eqb revisionStr "" then acc
    else match Atoi revisionStr with
         | None => acc
         | Some revision =>
             if latestRevision <? revision then
               let assertFilePath :=
                 filepath_Join assertDir
                   (ReplaceFirst fileName ".snap" ".assert") in
               let parsed := parseSnapInfo assertFilePath snapName in
               (revision,
                filepath_Join downloadDir fileName,
                mkCurrentSnap (InstanceName parsed) (SnapID parsed)
                              (mkRevision revision) (TrackingChannel parsed))
             else acc
         end
  else acc.

Definition findPreviousSnap (downloadDir assertDir snapName : string)
  : string * option CurrentSnap :=
  match readDir downloadDir with
  | Err _ => ("", None)
  | Ok files =>
      let '(_, latestSnapPath, currentSnap) :=
        fold_left (scanFile downloadDir assertDir snapName) files
                  (0, "", mkCurrentSnap "" "" (mkRevision 0) "") in
      if negb (String.eqb latestSnapPath "")
      then (latestSnapPath, Some currentSnap)
      else ("", None)
  end.

Definition fetchOrRefreshSnapInfo (snapName : string)
           (currentSnap : option CurrentSnap) (channel : string)
  : result SnapActionResult :=
  let '(actions, includeSnap) :=
    match currentSnap with
    | Some cs =>
        ([mkSnapAction "refresh" (SnapID cs) snapName channel], [cs])
    | None =>
        ([mkSnapAction "install" "" snapName channel], [])
    end in
  match storeSnapAction includeSnap actions with
  | Err err =>
      if Contains err noUpdateMsg
         && match currentSnap with Some _ => true | None => false end
      then Err err
      else Err ("snap action failed for " +:+ snapName +:+ ": " +:+ err)
  | Ok results =>
      match results with
      | [] => Err ("no snap info returned for snap " +:+ snapName)
      | result :: _ =>
          match ResInfo result with
          | None => Err ("no snap info returned for snap " +:+ snapName)
          | Some info =>
              if String.eqb (InfoSnapID info) "" || (N (InfoRevision info) =? 0)
              then Err ("invalid snap information for " +:+ snapName
                        +:+ ": SnapID or Revision is missing")
              else Ok result
          end
      end
  end.

(** The test that selects the install branch of [collectSnapDependencies]. *)
Definition noValidOld (oldSnap : option CurrentSnap) : bool :=
  match oldSnap with
  | None => true
  | Some o => String.eqb (SnapID o) "" || (N (Rev o) =? 0)
  end.

(** The block "Fetch or refresh snap information" of
    [collectSnapDependencies]: the values of [result] and [err] after it,
    an [Err] where the Go code returns [nil, err]. *)
Definition fetchWithFallback (snapName : string) (oldSnap : option CurrentSnap)
           (channel fallbackChannel : string) : result SnapActionResult :=
  if noValidOld oldSnap then
    match fetchOrRefreshSnapInfo snapName None channel with
    | Ok result => Ok result
    | Err err =>
        if Contains err channelMissMsg then
          fetchOrRefreshSnapInfo snapName None fallbackChannel
        else Err err
    end
  else
    match fetchOrRefreshSnapInfo snapName oldSnap channel with
    | Ok result => Ok result
    | Err err =>
        if Contains err noUpdateMsg then
          fetchOrRefreshSnapInfo snapName None channel
        else if Contains err channelMissMsg then
          match fetchOrRefreshSnapInfo snapName oldSnap fallbackChannel with
          | Ok result => Ok result
          | Err err =>
              if Contains err noUpdateMsg then
                fetchOrRefreshSnapInfo snapName None fallbackChannel
              else Err err
          end
        else Err err
    end.

(** The loop over [missingPrereqs] in [collectSnapDependencies]; [recurse]
    is the recursive call with the channels and directories fixed. *)
Fixpoint collectPrereqs (recurse : string -> Globals -> run (list SnapDetails))
         (snapName : string) (prereqs : list string) (g : Globals)
         (snapDetailsList : list SnapDetails) : run (list SnapDetails) :=
  match prereqs with
  | [] => Done snapDetailsList g
  | prereq :: rest =>
      if negb (mapBool (processedSnaps g) prereq) then
        match recurse prereq g with
        | Done prereqDetails g =>
            collectPrereqs recurse snapName rest g
                           (snapDetailsList ++ prereqDetails)
        | Fail err =>
            Fail ("failed to collect dependencies for prerequisite "
                  +:+ prereq +:+ " for snap " +:+ snapName +:+ ": " +:+ err)
        | OutOfFuel => OutOfFuel
        end
      else collectPrereqs recurse snapName rest g snapDetailsList
  end.

(** The test [needsUpdate] of [collectSnapDependencies]. *)
Definition needsUpdate (oldSnapPath : string) (oldSnap : option CurrentSnap)
           (info : Info) : bool :=
  String.eqb oldSnapPath ""
  || match oldSnap with
     | Some o => N (Rev o) <? N (InfoRevision info)
     | None => false
     end.

(** [collectSnapDependencies]; [fuel] bounds the depth of the recursion. *)
Fixpoint collectSnapDependencies (fuel : nat)
         (snapName channel fallbackChannel : string) (g : Globals)
  : run (list SnapDetails) :=
  match fuel with
  | O => OutOfFuel
  | S fuel' =>
  if mapBool (processedSnaps g) snapName then Done [] g
  else
  let '(oldSnapPath, oldSnap) :=
    findPreviousSnap snapsDir assertionsDir snapName in
  match fetchWithFallback snapName oldSnap channel fallbackChannel with
  | Err err => Fail err
  | Ok result =>
  match ResInfo result with
  | None =>
      Fail ("invalid snap information returned for " +:+ snapName
            +:+ ": SnapID or Revision is missing")
  | Some info =>
  if String.eqb (InfoSnapID info) "" || (N (InfoRevision info) =? 0) then
    Fail ("invalid snap information returned for " +:+ snapName
          +:+ ": SnapID or Revision is missing")
  else
  let newSnap :=
    mkCurrentSnap snapName (InfoSnapID info)
                  (mkRevision (N (InfoRevision info))) "" in
  let '(snapInCurrentSnaps, oldRevision) :=
    isSnapInCurrentSnaps (currentSnaps g) snapName in
  let current :=
    if snapInCurrentSnaps
    then removeSnapFromCurrentSnaps (currentSnaps g) snapName oldRevision
    else currentSnaps g in
  let current := current ++ [newSnap] in
  let processed := <[snapName := true]> (processedSnaps g) in
  let '(snapDetailsList, required) :=
    if needsUpdate oldSnapPath oldSnap info
    then ([mkSnapDetails snapName channel newSnap result], requiredSnaps g)
    else ([], <[snapName := true]> (requiredSnaps g)) in
  let g := mkGlobals current required processed in
  match collectPrereqs
          (fun name g =>
             collectSnapDependencies fuel' name channel fallbackChannel g)
          snapName (missingProviders info) g snapDetailsList with
  | Fail err => Fail err
  | OutOfFuel => OutOfFuel
  | Done snapDetailsList g =>
      if negb (String.eqb (Base info) "")
         && negb (mapBool (processedSnaps g) (Base info)) then
        match collectSnapDependencies fuel' (Base info) channel
                                      fallbackChannel g with
        | Done baseDetails g => Done (snapDetailsList ++ baseDetails) g
        | Fail err =>
            Fail ("failed to collect dependencies for base snap "
                  +:+ Base info +:+ " for snap " +:+ snapName +:+ ": " +:+ err)
        | OutOfFuel => OutOfFuel
        end
      else Done snapDetailsList g
  end
  end
  end
  end.

End Env.

(** The revision [findPreviousSnap] reads from a directory entry it takes
    for a file of the snap: the name starts with the snap's name and an
    underscore, ends in [.snap], and the part between the last underscore
    and the suffix is a positive number. *)
Definition candidateRevision (snapName fileName : string) : option Z :=
  if HasPrefix fileName (snapName +:+ "_") && HasSuffix fileName ".snap" then
    let revisionStr := extractRevisionFromFile fileName in
    if String.eqb revisionStr EmptyString then None
    else match Atoi revisionStr with
         | Some revision => if 0 <? revision then Some revision else None
         | None => None
         end
  else None.

(** The two maps only gain names from [g] to [g']. *)
Definition grows (g g' : Globals) : Prop :=
  (forall name, mapBool (processedSnaps g) name = true ->
                mapBool (processedSnaps g') name = true)
  /\ (forall name, mapBool (requiredSnaps g) name = true ->
                   mapBool (requiredSnaps g') name = true).

(** Every work item of [l] is for a snap that [g] has not processed. *)
Definition freshItems (g : Globals) (l : list SnapDetails) : Prop :=
  forall d, In d l -> mapBool (processedSnaps g) (DetInstanceName d) = false.

End Resolver.

(** ** The seed manifest (the file of [updateSeedYaml]) *)

Module SeedYaml.
Import GoStrings.

(** An element of [seed.Snaps]. *)
Record SeedSnap := mkSeedSnap {
  Name : string;
  SeedChannel : string;
  File : string
}.

(** The value [snapData] built in the loop of [updateSeedYaml]. *)
Definition snapData (snapInfo : CurrentSnap) : SeedSnap :=
  let snapFileName :=
    InstanceName snapInfo +:+ "_" +:+ Itoa (N (Rev snapInfo)) +:+ ".snap" in
  mkSeedSnap (InstanceName snapInfo)
             (ReplaceAll (TrackingChannel snapInfo) "latest/" "")
             snapFileName.


Section Env.

(** [ioutil.ReadFile(seedYaml)] *)
Variable readSeedYaml : result string.

(** [yaml.Unmarshal(file, &seedData)]: the [Snaps] field it fills. *)
Variable yamlUnmarshal : string -> result (list SeedSnap).

(** [yaml.Marshal(&seedData)] *)
Variable yamlMarshal : list SeedSnap -> result string.

(** [ioutil.WriteFile(seedYaml, data, 0644)] *)
Variable writeSeedYaml : string -> result unit.

(** [updateSeedYaml]: on success, the [Snaps] list that was marshalled and
    the bytes that were written to [seed.yaml]. *)
Definition updateSeedYaml (currentSnaps : list CurrentSnap)
  : result (list SeedSnap * string) :=
  match readSeedYaml with
  | Err err => Err ("failed to read seed.yaml: " +:+ err)
  | Ok file =>
  match yamlUnmarshal file with
  | Err err => Err ("failed to parse seed.yaml: " +:+ err)
  | Ok _ =>
  let snaps :=
    fold_left (fun snaps snapInfo => snaps ++ [snapData snapInfo])
              currentSnaps [] in
  match yamlMarshal snaps with
  | Err err => Err ("failed to marshal updated seed data: " +:+ err)
  | Ok updatedYAML =>
  match writeSeedYaml updatedYAML with
  | Err err => Err ("failed to write updated seed.yaml: " +:+ err)
  | Ok _ => Ok (snaps, updatedYAML)
  end end end end.

End Env.
End SeedYaml.

(** ** progress.go *)

Module Progress.
Import GoStrings.

(** The conversion [float64(n)] of an [int]. *)
Definition float_of_int (n : Z) : float :=
  if n =? minInt then
    PrimFloat.opp
      (PrimFloat.mul (PrimFloat.of_uint63 (Uint63.of_Z (2 ^ 62)))
                     (PrimFloat.of_uint63 (Uint63.of_Z 2)))
  else if n <? 0 then PrimFloat.opp (PrimFloat.of_uint63 (Uint63.of_Z (- n)))
  else PrimFloat.of_uint63 (Uint63.of_Z n).

(** The conversion [int(f)] of a [float64]: the fraction is discarded; a
    value that does not fit, an infinity and a NaN give the result of
    amd64, the least [int]. *)
Definition int_of_float (f : float) : Z :=
  match Prim2SF f with
  | S754_zero _ => 0
  | S754_finite s m e =>
      let v := if 0 <=? e then Z.pos m * 2 ^ e else Z.pos m / 2 ^ (- e) in
      let v := if s then - v else v in
      if (minInt <=? v) && (v <=? maxInt) then v else minInt
  | _ => minInt
  end.

Record ProgressMeter := mkProgressMeter {
  currentBytes : float;
  isDelta : bool;
  snapName : string;
  snapVersion : string;
  totalSize : float
}.

Record WeightedStep := mkWeightedStep {
  Weight : Z;
  StepProgress : float;
  Status : string
}.

Record ProgressTracker := mkProgressTracker {
  totalWeight : Z;
  completedWeight : float;
  steps : list WeightedStep;
  currentStep : Z
}.

(** The package-level variables of progress.go and the two of the main
    file it reads, with the lines the reporter has printed so far (the
    percentage and the status of each, oldest first). *)
Record Globals := mkGlobals {
  progressTracker : ProgressTracker;
  globalDownloaded : float;
  lastReported : Z;
  snapSizeMap : gmap string float;
  totalSnapSize : float;
  printed : list (Z * string)
}.

Definition setTracker (g : Globals) (pt : ProgressTracker) : Globals :=
  mkGlobals pt (globalDownloaded g) (lastReported g) (snapSizeMap g)
            (totalSnapSize g) (printed g).

Definition setGlobalDownloaded (g : Globals) (d : float) : Globals :=
  mkGlobals (progressTracker g) d (lastReported g) (snapSizeMap g)
            (totalSnapSize g) (printed g).

Definition setLastReported (g : Globals) (p : Z) : Globals :=
  mkGlobals (progressTracker g) (globalDownloaded g) p (snapSizeMap g)
            (totalSnapSize g) (printed g).

(** The two assignments [snapSizeMap[name] = snapSize] and
    [totalSnapSize += snapSize] of [collectSnapsToProcess]. *)
Definition addSnapSize (g : Globals) (name : string) (snapSize : float)
  : Globals :=
  mkGlobals (progressTracker g) (globalDownloaded g) (lastReported g)
            (<[name := snapSize]> (snapSizeMap g))
            (PrimFloat.add (totalSnapSize g) snapSize) (printed g).

(** [VerboseProgressReporter.Report] *)
Definition Report (g : Globals) (percentage : Z) (status : string) : Globals :=
  mkGlobals (progressTracker g) (globalDownloaded g) (lastReported g)
            (snapSizeMap g) (totalSnapSize g)
            (printed g ++ [(percentage, status)]).

Definition NewProgressMeter (g : Globals) (name version : string)
           (delta : bool) : ProgressMeter :=
  mkProgressMeter 0%float delta name version
                  (default 0%float (snapSizeMap g !! name)).

Definition reportGlobalProgress (g : Globals) (name version : string)
           (delta : bool) : Globals :=
  if PrimFloat.eqb (totalSnapSize g) 0%float then g
  else
    let percentage :=
      int_of_float
        (PrimFloat.mul (PrimFloat.div (globalDownloaded g) (totalSnapSize g))
                       80%float) + 10 in
    if negb (percentage =? lastReported g) then
      let g := setLastReported g percentage in
      if delta then
        Report g percentage
               ("Downloading delta for snap " +:+ name +:+ " " +:+ version)
      else
        Report g percentage
               ("Downloading snap " +:+ name +:+ " " +:+ version)
    else g.

(** [ProgressMeter.Start] *)
Definition Start (pm : ProgressMeter) (total : float) : ProgressMeter :=
  mkProgressMeter (currentBytes pm) (isDelta pm) (snapName pm)
                  (snapVersion pm) total.

(** [ProgressMeter.SetTotal] *)
Definition SetTotal (pm : ProgressMeter) (total : float) : ProgressMeter :=
  mkProgressMeter (currentBytes pm) (isDelta pm) (snapName pm)
                  (snapVersion pm) total.

Definition setCurrentBytes (pm : ProgressMeter) (b : float) : ProgressMeter :=
  mkProgressMeter b (isDelta pm) (snapName pm) (snapVersion pm) (totalSize pm).

(** [ProgressMeter.Set] *)
Definition MeterSet (pm : ProgressMeter) (g : Globals) (value : float)
  : ProgressMeter * Globals :=
  let delta := PrimFloat.sub value (currentBytes pm) in
  let pm := setCurrentBytes pm value in
  let g := setGlobalDownloaded g (PrimFloat.add (globalDownloaded g) delta) in
  (pm, reportGlobalProgress g (snapName pm) (snapVersion pm) (isDelta pm)).

(** [ProgressMeter.Finished] *)
Definition Finished (pm : ProgressMeter) (g : Globals)
  : ProgressMeter * Globals :=
  let delta := PrimFloat.sub (totalSize pm) (currentBytes pm) in
  let pm := setCurrentBytes pm (totalSize pm) in
  let g := setGlobalDownloaded g (PrimFloat.add (globalDownloaded g) delta) in
  (pm, reportGlobalProgress g (snapName pm) (snapVersion pm) (isDelta pm)).

(** [ProgressMeter.Write], on the length of the byte slice. *)
Definition Write (pm : ProgressMeter) (g : Globals) (len_p : Z)
  : ProgressMeter * Globals :=
  let delta := float_of_int len_p in
  let pm := setCurrentBytes pm (PrimFloat.add (currentBytes pm) delta) in
  let g := setGlobalDownloaded g (PrimFloat.add (globalDownloaded g) delta) in
  (pm, reportGlobalProgress g (snapName pm) (snapVersion pm) (isDelta pm)).

(** [ProgressTracker.calculatePercentage] *)
Definition calculatePercentage (pt : ProgressTracker) : Z :=
  if totalWeight pt =? 0 then 0
  else
    let percentage :=
      int_of_float
        (PrimFloat.mul
           (PrimFloat.div (completedWeight pt) (float_of_int (totalWeight pt)))
           100%float) in
    if 99 <? percentage then 99 else percentage.

(** [ProgressTracker.reportProgress]; [None] stands for the panic of the
    index expression [pt.steps[pt.currentStep]]. *)
Definition reportProgress (g : Globals) : option Globals :=
  let pt := progressTracker g in
  let percentage := calculatePercentage pt in
  match steps pt !! Z.to_nat (currentStep pt) with
  | None => None
  | Some step =>
      if (0 <=? currentStep pt) then
        if negb (percentage =? lastReported g)
        then Some (setLastReported (Report g percentage (Status step)) percentage)
        else Some g
      else None
  end.

(** The assignment [pt.steps[i].Progress = p] through the step pointer. *)
Definition setStepProgress (pt : ProgressTracker) (i : Z) (p : float)
  : ProgressTracker :=
  mkProgressTracker (totalWeight pt) (completedWeight pt)
    (alter (fun s => mkWeightedStep (Weight s) p (Status s))
           (Z.to_nat i) (steps pt))
    (currentStep pt).

Definition setCurrentStep (pt : ProgressTracker) (i : Z) : ProgressTracker :=
  mkProgressTracker (totalWeight pt) (completedWeight pt) (steps pt) i.

Definition setCompletedWeight (pt : ProgressTracker) (w : float)
  : ProgressTracker :=
  mkProgressTracker (totalWeight pt) w (steps pt) (currentStep pt).

(** [NewProgressTracker] *)
Definition NewProgressTracker : ProgressTracker :=
  mkProgressTracker 0 0%float [] 0.

(** [ProgressTracker.AddStep] *)
Definition AddStep (pt : ProgressTracker) (weight : Z) (status : string)
  : ProgressTracker :=
  mkProgressTracker (totalWeight pt + weight) (completedWeight pt)
                    (steps pt ++ [mkWeightedStep weight 0%float status])
                    (currentStep pt).

(** [ProgressTracker.Start] *)
Definition TrackerStart (g : Globals) : option Globals :=
  let pt := progressTracker g in
  if (0 <? Z.of_nat (length (steps pt))) then
    let pt := setCurrentStep pt 0 in
    let pt := setStepProgress pt 0 0%float in
    reportProgress (setTracker g pt)
  else Some g.

(** The tail shared by [Finish] and [NextStep]: the move to the next
    step, when there is one. *)
Definition advance (g : Globals) : option Globals :=
  let pt := progressTracker g in
  if currentStep pt <? Z.of_nat (length (steps pt)) - 1 then
    let pt := setCurrentStep pt (currentStep pt + 1) in
    let pt := setStepProgress pt (currentStep pt) 0%float in
    reportProgress (setTracker g pt)
  else Some g.

(** [ProgressTracker.NextStep] *)
Definition NextStep (g : Globals) : option Globals := advance g.

(** [ProgressTracker.UpdateStepProgress] *)
Definition UpdateStepProgress (g : Globals) (progress : float) : Globals :=
  let pt := progressTracker g in
  if Z.of_nat (length (steps pt)) <=? currentStep pt then g
  else
    match steps pt !! Z.to_nat (currentStep pt) with
    | None => g
    | Some step =>
        let update progress :=
          let delta := PrimFloat.sub progress (StepProgress step) in
          let pt :=
            setCompletedWeight pt (PrimFloat.add (completedWeight pt) delta) in
          setTracker g (setStepProgress pt (currentStep pt) progress) in
        if PrimFloat.ltb progress 0%float then
          update
            (float_of_int
               (int_of_float
                  (PrimFloat.mul
                     (PrimFloat.div (globalDownloaded g) (totalSnapSize g))
                     (float_of_int (Weight step)))))
        else if PrimFloat.ltb progress (StepProgress step) then g
        else update progress
    end.

(** [ProgressTracker.Finish] *)
Definition Finish (g : Globals) (status : string) : option Globals :=
  let pt := progressTracker g in
  if (Z.of_nat (length (steps pt)) =? 0)
     || (Z.of_nat (length (steps pt)) <=? currentStep pt) then Some g
  else
    match steps pt !! Z.to_nat (currentStep pt) with
    | None => None
    | Some step =>
        let pt :=
          if PrimFloat.ltb (StepProgress step) 100%float then
            let remainingProgress := PrimFloat.sub 100%float (StepProgress step) in
            let delta :=
              PrimFloat.div
                (PrimFloat.mul remainingProgress (float_of_int (Weight step)))
                100%float in
            let pt :=
              setCompletedWeight pt (PrimFloat.add (completedWeight pt) delta) in
            setStepProgress pt (currentStep pt) 100%float
          else pt in
        let percentage := calculatePercentage pt in
        let g := Report (setTracker g pt) percentage status in
        advance g
    end.

(** [InitProgress], with the values the other package-level variables
    have at program start. *)
Definition InitProgress : option Globals :=
  let pt := NewProgressTracker in
  let pt := AddStep pt 10 "Initialization" in
  let pt := AddStep pt 80 "Downloading snaps" in
  let pt := AddStep pt 10 "Verifying snaps" in
  TrackerStart (mkGlobals pt 0%float 0 ∅ 0%float []).

End Progress.

From Stdlib Require DecimalPos DecimalZ.

(** * More of the code: predicates on the resolver's results *)

Module ResolverSpec.

(** The work item [collectSnapDependencies] builds for a snap from the
    answer of the store, on the channel it was asked for. *)
Definition itemFor (channel : string) (d : SnapDetails) : Prop :=
  exists info,
    ResInfo (DetResult d) = Some info
    /\ InfoSnapID info <> EmptyString
    /\ N (InfoRevision info) <> 0
    /\ DetChannel d = channel
    /\ DetCurrentSnap d
       = mkCurrentSnap (DetInstanceName d) (InfoSnapID info)
                       (mkRevision (N (InfoRevision info))) EmptyString.

(** Every snap with a work item in [l] is processed in [g]. *)
Definition itemsProcessed (g : Globals) (l : list SnapDetails) : Prop :=
  forall d, In d l -> mapBool (processedSnaps g) (DetInstanceName d) = true.

(** What a run that went from [g] to [g'] and returned [l] has done. *)
Definition walked (channel : string) (g : Globals) (l : list SnapDetails)
           (g' : Globals) : Prop :=
  Resolver.grows g g' /\ Resolver.freshItems g l /\ itemsProcessed g' l
  /\ List.NoDup (map DetInstanceName l) /\ Forall (itemFor channel) l.

(** The names among [universe] that [g] has not processed. *)
Definition unprocessed (universe : list string) (g : Globals) : list string :=
  List.filter (fun name => negb (mapBool (processedSnaps g) name)) universe.

End ResolverSpec.

(** * More of the code: what the resolver leaves in [currentSnaps] *)

Module ResolverLedger.

(** An entry of [currentSnaps] that a run from [g] to [g'] with the work
    list [l] has appended for a snap it has resolved. *)
Definition resolvedEntry (g : Globals) (l : list SnapDetails) (g' : Globals)
           (e : CurrentSnap) : Prop :=
  mapBool (processedSnaps g) (InstanceName e) = false
  /\ mapBool (processedSnaps g') (InstanceName e) = true
  /\ SnapID e <> EmptyString
  /\ N (Rev e) <> 0
  /\ TrackingChannel e = EmptyString
  /\ (mapBool (requiredSnaps g') (InstanceName e) = true
      \/ exists d, In d l /\ DetCurrentSnap d = e).

(** From [g] to [g'], [currentSnaps] has lost some of the entries [old]
    it held for snaps not yet processed, has kept the entries [new] of
    the snaps processed before, and has gained one entry for each snap
    processed since. *)
Definition ledger (g : Globals) (l : list SnapDetails) (g' : Globals) : Prop :=
  forall old new,
    currentSnaps g = old ++ new ->
    (forall e, In e new ->
               mapBool (processedSnaps g) (InstanceName e) = true) ->
    exists old' new',
      currentSnaps g' = old' ++ new ++ new'
      /\ incl old' old
      /\ List.NoDup (map InstanceName new')
      /\ (forall e, In e new' -> resolvedEntry g l g' e)
      /\ (forall name,
            mapBool (processedSnaps g) name = false ->
            mapBool (processedSnaps g') name = true ->
            exists e, In e new' /\ InstanceName e = name)
      /\ (forall d, In d l -> In (DetCurrentSnap d) new').

(** An entry of [currentSnaps] that a run from [g] to [g'] on [channel]
    with the work list [l] has appended for a snap it has resolved, built
    from what the store has answered for that snap: [answer name] stands
    for the result of the fetch the resolver makes for [name]. *)
Definition storeEntry (answer : string -> result SnapActionResult)
           (channel : string) (g : Globals) (l : list SnapDetails)
           (g' : Globals) (e : CurrentSnap) : Prop :=
  mapBool (processedSnaps g) (InstanceName e) = false
  /\ mapBool (processedSnaps g') (InstanceName e) = true
  /\ exists actionResult info,
       answer (InstanceName e) = Ok actionResult
       /\ ResInfo actionResult = Some info
       /\ InfoSnapID info <> EmptyString
       /\ N (InfoRevision info) <> 0
       /\ e = mkCurrentSnap (InstanceName e) (InfoSnapID info)
                            (mkRevision (N (InfoRevision info))) EmptyString
       /\ (mapBool (requiredSnaps g') (InstanceName e) = true
           \/ In (mkSnapDetails (InstanceName e) channel e actionResult) l).

(** [ledger], with every entry gained tied to the answer of the store. *)
Definition storeLedger (answer : string -> result SnapActionResult)
           (channel : string) (g : Globals) (l : list SnapDetails)
           (g' : Globals) : Prop :=
  forall old new,
    currentSnaps g = old ++ new ->
    (forall e, In e new ->
               mapBool (processedSnaps g) (InstanceName e) = true) ->
    exists old' new',
      currentSnaps g' = old' ++ new ++ new'
      /\ incl old' old
      /\ List.NoDup (map InstanceName new')
      /\ (forall e, In e new' -> storeEntry answer channel g l g' e)
      /\ (forall name,
            mapBool (processedSnaps g) name = false ->
            mapBool (processedSnaps g') name = true ->
            exists e, In e new' /\ InstanceName e = name)
      /\ (forall d, In d l -> In (DetCurrentSnap d) new').

End ResolverLedger.

(** * More of the code: file names *)

(** The names the tool gives to the files of a snap; [fmt.Sprintf] with
    the formats ["%s_%d.snap"], ["%s_%d.assert"] and ["%s_%d_to_%d.delta"]. *)
Module FileNames.
Import GoStrings.

Definition snapFileName (name : string) (revision : Z) : string :=
  name +:+ "_" +:+ Itoa revision +:+ ".snap".

Definition assertFileName (name : string) (revision : Z) : string :=
  name +:+ "_" +:+ Itoa revision +:+ ".assert".

Definition deltaFileName (name : string) (fromRevision toRevision : Z) : string :=
  name +:+ "_" +:+ Itoa fromRevision +:+ "_to_" +:+ Itoa toRevision +:+ ".delta".

End FileNames.

(** * More of the code: cleanup.go *)

Module Cleanup.
Import GoStrings Utils SeedYaml FileNames.

(** The regular files of the directories the tool works in: for a
    directory, the names [os.ReadDir] lists; a directory that is not a key
    cannot be read.  A path is kept as the directory and the name that
    [filepath.Join] puts together. *)
Abbreviation FS := (gmap string (list string)).

Definition entries (fs : FS) (dir : string) : list string :=
  default [] (fs !! dir).

Definition hasName (name : string) (l : list string) : bool :=
  existsb (String.eqb name) l.

Definition withoutName (name : string) (l : list string) : list string :=
  List.filter (fun n => negb (String.eqb n name)) l.

Section Env.

(** Whether [os.Remove] fails on the path of a file that exists. *)
Variable removeFails : string -> bool.

(** [fileExists(filepath.Join(dir, name))] of utils.go *)
Definition fileExists (fs : FS) (dir name : string) : bool :=
  hasName name (entries fs dir).

(** [os.Remove(filepath.Join(dir, name))] *)
Definition osRemove (fs : FS) (dir name : string) : result FS :=
  if negb (fileExists fs dir name) then Err "no such file or directory"
  else if removeFails (filepath_Join dir name) then Err "operation not permitted"
  else Ok (<[dir := withoutName name (entries fs dir)]> fs).

(** A call of [os.Remove] whose error is only logged: the files after it. *)
Definition removeLogged (fs : FS) (dir name : string) : FS :=
  match osRemove fs dir name with
  | Ok fs' => fs'
  | Err _ => fs
  end.

(** The body of the first loop of [cleanUpFiles], on the pair of
    [validSnaps] and [validAssertions]. *)
Definition addValid (valid : gmap string bool * gmap string bool)
           (snap : SeedSnap) : gmap string bool * gmap string bool :=
  let '(validSnaps, validAssertions) := valid in
  let revision := extractRevisionFromFile (File snap) in
  if String.eqb revision EmptyString then valid
  else
    let snapFileName := Name snap +:+ "_" +:+ revision +:+ ".snap" in
    let assertionFileName := Name snap +:+ "_" +:+ revision +:+ ".assert" in
    (<[snapFileName := true]> validSnaps,
     <[assertionFileName := true]> validAssertions).

(** The body of the loop over the entries of the snaps directory. *)
Definition cleanSnapsEntry (validSnaps : gmap string bool) (snapsDir : string)
           (fs : FS) (name : string) : FS :=
  if HasSuffix name ".partial" || HasSuffix name ".delta" then
    removeLogged fs snapsDir name
  else if HasSuffix name ".snap" then
    if negb (mapBool validSnaps name) then removeLogged fs snapsDir name
    else fs
  else fs.

(** The body of the loop over the entries of the assertions directory. *)
Definition cleanAssertionsEntry (validAssertions : gmap string bool)
           (assertionsDir : string) (fs : FS) (name : string) : FS :=
  if HasSuffix name ".assert" then
    if negb (mapBool validAssertions name)
    then removeLogged fs assertionsDir name
    else fs
  else fs.

(** [cleanUpFiles], given the [Snaps] that [loadSeedData] has read from
    seed.yaml; each directory is listed once, before its loop. *)
Definition cleanUpFiles (seedSnaps : list SeedSnap)
           (snapsDir assertionsDir : string) (fs : FS) : FS :=
  let '(validSnaps, validAssertions) := fold_left addValid seedSnaps (∅, ∅) in
  let fs :=
    match fs !! snapsDir with
    | None => fs
    | Some files => fold_left (cleanSnapsEntry validSnaps snapsDir) files fs
    end in
  match fs !! assertionsDir with
  | None => fs
  | Some files =>
      fold_left (cleanAssertionsEntry validAssertions assertionsDir) files fs
  end.

(** [removeOrphanedFiles] *)
Definition removeOrphanedFiles (snapName : string) (revision : Z)
           (assertionsDir snapsDir : string) (fs : FS) : FS :=
  let assertionFile := assertFileName snapName revision in
  let snapFile := snapFileName snapName revision in
  let fs :=
    if fileExists fs assertionsDir assertionFile
    then removeLogged fs assertionsDir assertionFile
    else fs in
  if fileExists fs snapsDir snapFile
  then removeLogged fs snapsDir snapFile
  else fs.

(** The body of the loop of [cleanUpCurrentSnaps], on the pair of
    [filteredSnaps] and the files. *)
Definition cleanUpSnap (required : gmap string bool)
           (assertionsDir snapsDir : string)
           (acc : list CurrentSnap * FS) (snap : CurrentSnap)
  : list CurrentSnap * FS :=
  let '(filteredSnaps, fs) := acc in
  if mapBool required (InstanceName snap) then (filteredSnaps ++ [snap], fs)
  else (filteredSnaps,
        removeOrphanedFiles (InstanceName snap) (N (Rev snap))
                            assertionsDir snapsDir fs).

(** [cleanUpCurrentSnaps]: the package-level variables and the files
    after it. *)
Definition cleanUpCurrentSnaps (assertionsDir snapsDir : string)
           (g : Globals) (fs : FS) : Globals * FS :=
  let '(filteredSnaps, fs) :=
    fold_left (cleanUpSnap (requiredSnaps g) assertionsDir snapsDir)
              (currentSnaps g) ([], fs) in
  (mkGlobals filteredSnaps (requiredSnaps g) (processedSnaps g), fs).

End Env.

(** What the two loops of [cleanUpFiles] take for a file to remove. *)
Definition staleSnapsEntry (validSnaps : gmap string bool) (name : string)
  : bool :=
  HasSuffix name ".partial" || HasSuffix name ".delta"
  || (HasSuffix name ".snap" && negb (mapBool validSnaps name)).

Definition staleAssertionsEntry (validAssertions : gmap string bool)
           (name : string) : bool :=
  HasSuffix name ".assert" && negb (mapBool validAssertions name).

Definition validSnaps (seedSnaps : list SeedSnap) : gmap string bool :=
  fst (fold_left addValid seedSnaps (∅, ∅)).

Definition validAssertions (seedSnaps : list SeedSnap) : gmap string bool :=
  snd (fold_left addValid seedSnaps (∅, ∅)).

End Cleanup.

(** * More of the code: the download file *)

Module Download.
Import GoStrings FileNames.

(** The calls the download code makes outside itself, in the order it
    makes them, each with its answer: [storeClient.Download] (the meter it
    is given is for a delta or not), [pbar.Finished],
    [progressTracker.UpdateStepProgress], [time.Sleep], [fileExists], the
    command [xdelta3] and [downloadAssertions]. *)
Inductive event : Type :=
| Download (snapID path : string) (isDelta : bool) (err : option string)
| Finished (isDelta : bool)
| UpdateStepProgress (progress : Z)
| Sleep (nanoseconds : Z)
| FileExists (path : string) (found : bool)
| Xdelta3 (oldSnapPath deltaPath newSnapPath : string)
          (err : option (string * string))
| DownloadAssertions (snapInfo : Info) (assertionsDir : string)
                     (err : option string).

(** [time.Second], a [time.Duration] in nanoseconds. *)
Definition second : Z := 1000000000.

(** The value of an [int64] expression. *)
Definition wrap64 (n : Z) : Z := (n + 2 ^ 63) mod 2 ^ 64 - 2 ^ 63.

(** A computation that makes calls: from the calls made so far to its
    result and the calls made after it. *)
Definition M (A : Type) : Type := list event -> A * list event.

Definition ret {A : Type} (a : A) : M A := fun t => (a, t).

Definition bind {A B : Type} (m : M A) (k : A -> M B) : M B :=
  fun t => let '(a, t) := m t in k a t.

Definition log (e : event) : M unit := fun t => (tt, t ++ [e]).

#[local] Notation "x <- m ;; k" := (bind m (fun x => k))
  (at level 64, m at next level, right associativity).
#[local] Notation "m ;;; k" := (bind m (fun _ => k))
  (at level 64, right associativity).

Section Env.

(** The flag [-verbose]. *)
Variable verbose : bool.

(** The error of [storeClient.Download] for a snap id and a target path,
    after the calls made so far; [None] for nil. *)
Variable storeDownload : list event -> string -> string -> bool -> option string.

(** [fileExists] of utils.go on a path, after the calls made so far. *)
Variable fileExists : list event -> string -> bool.

(** The command [xdelta3 -d -s old delta new]: [None] when it succeeds,
    else the error and the combined output. *)
Variable xdelta3 :
  list event -> string -> string -> string -> option (string * string).

(** The error of [downloadAssertions] of assertions.go. *)
Variable downloadAssertions : list event -> Info -> string -> option string.

Definition callDownload (snapID path : string) (isDelta : bool)
  : M (option string) :=
  fun t => let err := storeDownload t snapID path isDelta in
           (err, t ++ [Download snapID path isDelta err]).

Definition callFileExists (path : string) : M bool :=
  fun t => let found := fileExists t path in
           (found, t ++ [FileExists path found]).

Definition callXdelta3 (oldSnapPath deltaPath newSnapPath : string)
  : M (option (string * string)) :=
  fun t => let err := xdelta3 t oldSnapPath deltaPath newSnapPath in
           (err, t ++ [Xdelta3 oldSnapPath deltaPath newSnapPath err]).

Definition callDownloadAssertions (snapInfo : Info) (assertionsDir : string)
  : M (option string) :=
  fun t => let err := downloadAssertions t snapInfo assertionsDir in
           (err, t ++ [DownloadAssertions snapInfo assertionsDir err]).

(** The loop of [downloadSnap] over the values of [attempts]; the result
    of the whole function, [None] for nil. *)
Fixpoint downloadSnapLoop (attemptNumbers : list Z) (snapInfo : Info)
         (downloadPath : string) : M (option string) :=
  match attemptNumbers with
  | [] => ret (Some "snap download failed after 5 attempts")
  | attempts :: rest =>
      err <- callDownload (InfoSnapID snapInfo) downloadPath false ;;
      match err with
      | None => log (Finished false) ;;; ret None
      | Some err =>
          (if verbose then ret tt else log (UpdateStepProgress 0)) ;;;
          if attempts =? 5
          then ret (Some ("snap download failed after 5 attempts: " +:+ err))
          else downloadSnapLoop rest snapInfo downloadPath
      end
  end.

(** [downloadSnap]; [progressTracker] is not nil, [InitProgress] having
    set it before anything else in [main]. *)
Definition downloadSnap (snapInfo : Info) (downloadPath : string)
  : M (option string) :=
  log (UpdateStepProgress 0) ;;;
  downloadSnapLoop [1; 2; 3; 4; 5] snapInfo downloadPath.

(** [downloadSnapDelta], given the [Info] of the result. *)
Definition downloadSnapDelta (delta : DeltaInfo) (snapInfo : Info)
           (deltaPath : string) : M (option string) :=
  log (UpdateStepProgress 0) ;;;
  err <- callDownload (InfoSnapID snapInfo) deltaPath true ;;
  match err with
  | Some err =>
      log (UpdateStepProgress 0) ;;;
      ret (Some ("delta download failed: " +:+ err))
  | None => log (Finished true) ;;; ret None
  end.

(** The [%v] verb on an [error]. *)
Definition fmtError (err : option string) : string :=
  match err with
  | Some err => err
  | None => "<nil>"
  end.

(** The loop of [downloadSnapDeltaWithRetries] over the values of
    [attempts], on [lastErr] and [backoff]. *)
Fixpoint deltaRetryLoop (attemptNumbers : list Z) (lastErr : option string)
         (backoff : Z) (delta : DeltaInfo) (snapInfo : Info)
         (deltaPath : string) (maxRetries : Z) : M (option string) :=
  match attemptNumbers with
  | [] =>
      ret (Some ("delta download failed after " +:+ Itoa maxRetries
                 +:+ " attempts: " +:+ fmtError lastErr))
  | _ :: rest =>
      err <- downloadSnapDelta delta snapInfo deltaPath ;;
      match err with
      | None => ret None
      | Some err =>
          log (Sleep backoff) ;;;
          deltaRetryLoop rest (Some err) (wrap64 (backoff * 2))
                         delta snapInfo deltaPath maxRetries
      end
  end.

(** The values [attempts] takes in [for attempts := 1; attempts <=
    maxRetries; attempts++]. *)
Definition attemptNumbers (maxRetries : Z) : list Z :=
  map Z.of_nat (seq 1 (Z.to_nat maxRetries)).

Definition downloadSnapDeltaWithRetries (delta : DeltaInfo) (snapInfo : Info)
           (deltaPath : string) (maxRetries : Z) : M (option string) :=
  deltaRetryLoop (attemptNumbers maxRetries) None second
                 delta snapInfo deltaPath maxRetries.

(** [applyDelta] *)
Definition applyDelta (oldSnapPath deltaPath newSnapPath : string)
  : M (option string) :=
  err <- callXdelta3 oldSnapPath deltaPath newSnapPath ;;
  match err with
  | Some (err, output) =>
      ret (Some ("failed to apply delta: " +:+ err +:+ " - " +:+ output))
  | None => ret None
  end.

(** The loop of [downloadAndApplySnap] over the deltas: [Some] for a
    [return] inside the loop, [None] when the loop ends. *)
Fixpoint tryDeltas (deltas : list DeltaInfo) (snapInfo : Info)
         (snapsDir assertionsDir downloadPath : string)
  : M (option (result Info)) :=
  match deltas with
  | [] => ret None
  | delta :: rest =>
      let deltaPath :=
        filepath_Join snapsDir
          (deltaFileName (SuggestedName snapInfo)
                         (FromRevision delta) (ToRevision delta)) in
      err <- downloadSnapDeltaWithRetries delta snapInfo deltaPath 5 ;;
      match err with
      | None =>
          let oldSnapPath :=
            filepath_Join snapsDir
              (snapFileName (SuggestedName snapInfo) (FromRevision delta)) in
          found <- callFileExists oldSnapPath ;;
          if found then
            err <- applyDelta oldSnapPath deltaPath downloadPath ;;
            match err with
            | None =>
                err <- callDownloadAssertions snapInfo assertionsDir ;;
                match err with
                | Some err =>
                    ret (Some (Err ("failed to download assertions for snap "
                                    +:+ SuggestedName snapInfo +:+ ": "
                                    +:+ err)))
                | None => ret (Some (Ok snapInfo))
                end
            | Some _ =>
                tryDeltas rest snapInfo snapsDir assertionsDir downloadPath
            end
          else tryDeltas rest snapInfo snapsDir assertionsDir downloadPath
      | Some _ => tryDeltas rest snapInfo snapsDir assertionsDir downloadPath
      end
  end.

(** [downloadAndApplySnap]; the two results are [Ok None] for
    [nil, nil], [Ok (Some info)] for [info, nil] and [Err] for
    [nil, err]. *)
Definition downloadAndApplySnap (actionResult : option SnapActionResult)
           (snapsDir assertionsDir : string) (currentSnap : option CurrentSnap)
  : M (result (option Info)) :=
  match actionResult with
  | None => ret (Ok None)
  | Some result =>
  match ResInfo result with
  | None => ret (Ok None)
  | Some snapInfo =>
      let downloadPath :=
        filepath_Join snapsDir
          (snapFileName (SuggestedName snapInfo) (N (InfoRevision snapInfo))) in
      returned <-
        (match currentSnap with
         | Some _ =>
             if (0 <? length (Deltas result))%nat
             then tryDeltas (Deltas result) snapInfo snapsDir assertionsDir
                            downloadPath
             else ret None
         | None => ret None
         end) ;;
      match returned with
      | Some (Ok snapInfo) => ret (Ok (Some snapInfo))
      | Some (Err err) => ret (Err err)
      | None =>
          err <- downloadSnap snapInfo downloadPath ;;
          match err with
          | Some err =>
              ret (Err ("failed to download snap " +:+ SuggestedName snapInfo
                        +:+ ": " +:+ err))
          | None =>
              err <- callDownloadAssertions snapInfo assertionsDir ;;
              match err with
              | Some err =>
                  ret (Err ("failed to download assertions for snap "
                            +:+ SuggestedName snapInfo +:+ ": " +:+ err))
              | None => ret (Ok (Some snapInfo))
              end
          end
      end
  end
  end.

(** How [processSnap] ends: it returns with the new [requiredSnaps], it
    returns an error, or it stops the program on a nil [snapInfo]. *)
Inductive processed : Type :=
| Required (requiredSnaps : gmap string bool)
| ProcessError (err : string)
| NilInfo.

(** [processSnap], on [requiredSnaps]. *)
Definition processSnap (snapDetails : SnapDetails)
           (snapsDir assertionsDir : string) (requiredSnaps : gmap string bool)
  : M processed :=
  r <- downloadAndApplySnap (Some (DetResult snapDetails)) snapsDir
                            assertionsDir (Some (DetCurrentSnap snapDetails)) ;;
  match r with
  | Err err =>
      ret (ProcessError ("failed to download snap "
                         +:+ DetInstanceName snapDetails +:+ ": " +:+ err))
  | Ok None => ret NilInfo
  | Ok (Some _) =>
      ret (Required (<[DetInstanceName snapDetails := true]> requiredSnaps))
  end.

End Env.

(** The calls of an attempt of [downloadSnap] that fails with [err]. *)
Definition failedAttempt (verbose : bool) (snapID path : string)
           (err : string) : list event :=
  Download snapID path false (Some err)
  :: if verbose then [] else [UpdateStepProgress 0].

(** The calls of the [i]-th attempt, from 0, of
    [downloadSnapDeltaWithRetries] when it fails with [err]. *)
Definition failedRound (snapID path : string) (i : nat) (err : string)
  : list event :=
  [UpdateStepProgress 0; Download snapID path true (Some err);
   UpdateStepProgress 0; Sleep (2 ^ Z.of_nat i * second)].

Fixpoint failedRounds (snapID path : string) (i : nat) (errs : list string)
  : list event :=
  match errs with
  | [] => []
  | err :: rest =>
      failedRound snapID path i err ++ failedRounds snapID path (S i) rest
  end.

(** The time slept in a list of calls. *)
Definition slept (t : list event) : Z :=
  fold_right (fun e total => match e with
                             | Sleep d => d + total
                             | _ => total
                             end) 0 t.

Definition isDownloadAssertions (e : event) : bool :=
  match e with
  | DownloadAssertions _ _ _ => true
  | _ => false
  end.

(** The two results of [downloadAndApplySnap] once the snap file is made
    and [downloadAssertions] has returned [err]. *)
Definition afterAssertions (snapInfo : Info) (err : option string)
  : result Info :=
  match err with
  | None => Ok snapInfo
  | Some err =>
      Err ("failed to download assertions for snap "
           +:+ SuggestedName snapInfo +:+ ": " +:+ err)
  end.

(** A computation that makes calls, none of them to
    [downloadAssertions]. *)
Definition quiet {A : Type} (m : M A) : Prop :=
  forall t, exists evs,
    snd (m t) = t ++ evs
    /\ Forall (fun e => isDownloadAssertions e = false) evs.

(** Calls that end with the snap file at [downloadPath] made: by
    [xdelta3] from a delta, or by a download of the whole snap. *)
Definition produced (snapID downloadPath : string) (evs : list event) : Prop :=
  exists before,
    (exists oldSnapPath deltaPath,
        evs = before ++ [Xdelta3 oldSnapPath deltaPath downloadPath None])
    \/ evs = before ++ [Download snapID downloadPath false None;
                         Finished false].

End Download.

(** * More of the code: the main file and the rest of utils.go *)

Module Main.
Import GoStrings Utils Resolver FileNames Download.

#[local] Notation "x <- m ;; k" := (bind m (fun x => k))
  (at level 64, m at next level, right associativity).
#[local] Notation "m ;;; k" := (bind m (fun _ => k))
  (at level 64, right associativity).

(** [strings.TrimLeft] and [strings.TrimRight] for a cutset of one byte. *)
Fixpoint trimLeftByte (c : ascii) (s : string) : string :=
  match s with
  | EmptyString => EmptyString
  | String x t => if Ascii.eqb x c then trimLeftByte c t else s
  end.

Fixpoint trimRightByte (c : ascii) (s : string) : string :=
  match s with
  | EmptyString => EmptyString
  | String x t =>
      match trimRightByte c t with
      | EmptyString => if Ascii.eqb x c then EmptyString
                       else String x EmptyString
      | t' => String x t'
      end
  end.

(** [strings.Trim(s, cutset)] for a cutset of one byte. *)
Definition TrimByte (s : string) (c : ascii) : string :=
  trimRightByte c (trimLeftByte c s).

(** The loop of [getVersionID] over the lines of the file. *)
Fixpoint scanVersionID (lines : list string) : option string :=
  match lines with
  | [] => None
  | line :: rest =>
      if HasPrefix line "VERSION_ID=" then
        match SplitN2 line "=" with
        | [_; value] => Some (TrimByte value (ascii_of_nat 34))
        | _ => Some EmptyString
        end
      else scanVersionID rest
  end.

(** How a call of [collectSnapsToProcess] ends: with the list, the
    package-level variables and those of progress.go, with an error, on a
    result without [snap.Info], or at the bound of the recursion depth of
    the resolver. *)
Inductive collected : Type :=
| Collected (snapsToProcess : list SnapDetails) (g : Globals)
            (pg : Progress.Globals)
| CollectError (err : string)
| CollectNilInfo
| CollectOutOfFuel.

Section Env.

Variable storeSnapAction :
  list CurrentSnap -> list SnapAction -> result (list SnapActionResult).
Variable readDir : string -> result (list string).
Variable scanLines : string -> result (list string).
Variable missingProviders : Info -> list string.
Variables snapsDir assertionsDir : string.

(** [filepath.Glob(pattern)]: its two results. *)
Variable glob : string -> result (list string).

(** The lines a [bufio.Scanner] yields on /etc/os-release, with the
    result of [scanner.Err()] after them; an [Err] when [os.Open] fails. *)
Variable osRelease : result (list string * option string).

Variable verbose : bool.
Variable storeDownload : list event -> string -> string -> bool -> option string.
Variable fileExists : list event -> string -> bool.
Variable xdelta3 :
  list event -> string -> string -> string -> option (string * string).
Variable downloadAssertions : list event -> Info -> string -> option string.

(** [getCurrentSnapInfo] of utils.go *)
Definition getCurrentSnapInfo (snapName : string) : result CurrentSnap :=
  let notFound := Err ("no assertion file found for snap: " +:+ snapName) in
  match glob (filepath_Join assertionsDir (snapName +:+ "_*.assert")) with
  | Err _ => notFound
  | Ok [] => notFound
  | Ok (assertionFile :: _) =>
      let currentSnap := parseSnapInfo scanLines assertionFile snapName in
      if String.eqb (SnapID currentSnap) EmptyString
         || (N (Rev currentSnap) =? 0)
      then Err ("incomplete snap info in assertion file for snap: "
                +:+ snapName)
      else Ok currentSnap
  end.

(** [getVersionID] of utils.go *)
Definition getVersionID : result string :=
  match osRelease with
  | Err err => Err ("failed to open /etc/os-release: " +:+ err)
  | Ok (lines, scanErr) =>
      match scanVersionID lines with
      | Some versionID => Ok versionID
      | None =>
          match scanErr with
          | Some err => Err ("error reading /etc/os-release: " +:+ err)
          | None => Err "VERSION_ID not found in /etc/os-release"
          end
      end
  end.

(** The loop of [main] that fills [currentSnaps]; [existing] holds the
    keys of [existingSnapsInYaml] in the order the [range] visits them. *)
Definition loadCurrentSnaps (existing : list string)
           (currentSnaps : list CurrentSnap) : list CurrentSnap :=
  fold_left (fun currentSnaps snapName =>
               match getCurrentSnapInfo snapName with
               | Err _ => currentSnaps
               | Ok snapInfo => currentSnaps ++ [snapInfo]
               end) existing currentSnaps.

(** [requiredSnaps] as [main] sets it from the arguments. *)
Definition initialRequired (args : list string) : gmap string bool :=
  fold_left (fun requiredSnaps arg => <[arg := true]> requiredSnaps) args
            (<["bare" := true]> (<["snapd" := true]> ∅)).

(** The body of the inner loop of [collectSnapsToProcess] on the
    variables of progress.go; [None] on a result without [snap.Info]. *)
Definition addSizes (pg : Progress.Globals) (snapDetails : SnapDetails)
  : option Progress.Globals :=
  match Deltas (DetResult snapDetails), ResInfo (DetResult snapDetails) with
  | _, None => None
  | [], Some info =>
      Some (Progress.addSnapSize pg (SuggestedName info)
                                 (Progress.float_of_int (Size info)))
  | deltas, Some info =>
      Some (fold_left
              (fun pg delta =>
                 Progress.addSnapSize pg (SuggestedName info)
                                      (Progress.float_of_int (DeltaSize delta)))
              deltas pg)
  end.

Fixpoint appendWithSizes (snapList : list SnapDetails) (pg : Progress.Globals)
         (snapsToProcess : list SnapDetails)
  : option (Progress.Globals * list SnapDetails) :=
  match snapList with
  | [] => Some (pg, snapsToProcess)
  | snapDetails :: rest =>
      match addSizes pg snapDetails with
      | None => None
      | Some pg => appendWithSizes rest pg (snapsToProcess ++ [snapDetails])
      end
  end.

(** The channel and the name [collectSnapsToProcess] reads from an entry
    [name] or [name=channel] of [requiredSnaps]. *)
Definition entryChannel (defaultChannel snapEntry : string) : string :=
  match SplitN2 snapEntry "=" with
  | [_; channel] => channel
  | _ => defaultChannel
  end.

Definition entryName (snapEntry : string) : string :=
  hd EmptyString (SplitN2 snapEntry "=").

(** The outer loop of [collectSnapsToProcess] over the entries [visited],
    the keys of [requiredSnaps] in the order the [range] visits them. *)
Fixpoint collectEntries (fuel : nat) (visited : list string)
         (defaultChannel : string) (g : Globals) (pg : Progress.Globals)
         (snapsToProcess : list SnapDetails) : collected :=
  match visited with
  | [] => Collected snapsToProcess g pg
  | snapEntry :: rest =>
      let channel := entryChannel defaultChannel snapEntry in
      let snapName := entryName snapEntry in
      match collectSnapDependencies storeSnapAction readDir scanLines
                                    missingProviders snapsDir assertionsDir
                                    fuel snapName channel "latest/stable" g with
      | Fail err => CollectError err
      | OutOfFuel => CollectOutOfFuel
      | Done snapList g =>
          match appendWithSizes snapList pg snapsToProcess with
          | None => CollectNilInfo
          | Some (pg, snapsToProcess) =>
              collectEntries fuel rest defaultChannel g pg snapsToProcess
          end
      end
  end.

(** [collectSnapsToProcess] *)
Definition collectSnapsToProcess (fuel : nat) (visited : list string)
           (g : Globals) (pg : Progress.Globals) : collected :=
  match getVersionID with
  | Err err => CollectError err
  | Ok versionID =>
      collectEntries fuel visited ("latest/stable/ubuntu-" +:+ versionID)
                     g pg []
  end.

(** The loop of [main] over [snapsToProcess], on [requiredSnaps]; an
    error of [processSnap] ends the program. *)
Fixpoint processAll (snapsToProcess : list SnapDetails)
         (requiredSnaps : gmap string bool) : M processed :=
  match snapsToProcess with
  | [] => ret (Required requiredSnaps)
  | snapDetails :: rest =>
      r <- processSnap verbose storeDownload fileExists xdelta3
                       downloadAssertions snapDetails snapsDir assertionsDir
                       requiredSnaps ;;
      match r with
      | Required requiredSnaps =>
          log (UpdateStepProgress (-1)) ;;; processAll rest requiredSnaps
      | ProcessError err =>
          ret (ProcessError ("Failed to process snap "
                             +:+ DetInstanceName snapDetails +:+ ": " +:+ err))
      | NilInfo => ret NilInfo
      end
  end.

End Env.
End Main.

(** Predicates on what [collectSnapsToProcess] returns. *)
Module MainSpec.
Import ResolverSpec ResolverLedger.

(** A work item the resolver has built, on whatever channel. *)
Definition workItem (d : SnapDetails) : Prop :=
  exists channel, itemFor channel d.

(** From [g] to [g'] the resolver has run on some entries and returned
    the work items [l] in all. *)
Definition resolved (g : Globals) (l : list SnapDetails) (g' : Globals) : Prop :=
  Resolver.grows g g' /\ Resolver.freshItems g l /\ itemsProcessed g' l
  /\ List.NoDup (map DetInstanceName l) /\ Forall workItem l
  /\ ledger g l g'.

(** Current snaps without a tracking channel. *)
Definition untracked (l : list CurrentSnap) : Prop :=
  Forall (fun cs => TrackingChannel cs = EmptyString) l.

End MainSpec.

(** * Sample worlds

    Concrete stores, directories and files on which the functions above
    are evaluated. *)

Module Samples.

(** A [seed.yaml] that reads and parses, and a marshaller that prints the
    three fields of each entry. *)
Definition seedRead : result string := Ok ("snaps:" +:+ LF).

Definition seedUnmarshal (_ : string) : result (list SeedYaml.SeedSnap) :=
  Ok [].

Definition seedMarshal (snaps : list SeedYaml.SeedSnap) : result string :=
  Ok (fold_right
        (fun e s =>
           "    - name: " +:+ SeedYaml.Name e +:+ LF
           +:+ "      channel: " +:+ SeedYaml.SeedChannel e +:+ LF
           +:+ "      file: " +:+ SeedYaml.File e +:+ LF +:+ s)
        EmptyString snaps).

Definition seedWrite (_ : string) : result unit := Ok tt.




(** A YAML encoder for strings, lists of strings and maps of strings. *)
Definition yamlScalar (v : hvalue) : string :=
  match v with
  | HString s => s
  | _ => "{}"
  end.

Definition yamlEncode (v : hvalue) : string :=
  match v with
  | HString s => s +:+ LF
  | HList l =>
      fold_right (fun x s => "- " +:+ yamlScalar x +:+ LF +:+ s) EmptyString l
  | HMap m =>
      fold_right
        (fun kv s => fst kv +:+ ": " +:+ yamlScalar (snd kv) +:+ LF +:+ s)
        EmptyString m
  end.

Definition fmtValue (_ : hvalue) : string := "map[]".

(** A parser that knows four timestamps. *)
Definition time_Parse (s : string) : option Assertions.Time :=
  if String.eqb s "2023-12-09T00:00:00Z" then Some (1702080000 * 1000000000)
  else if String.eqb s "2023-12-09T00:00:01Z" then Some (1702080001 * 1000000000)
  else if String.eqb s "2024-05-01T10:00:00Z" then Some (1714557600 * 1000000000)
  else if String.eqb s "2020-01-01T00:00:00Z" then Some (1577836800 * 1000000000)
  else None.

Definition headersOf (l : list (string * hvalue)) : gmap string hvalue :=
  list_to_map l.

Definition accountKeyA : Assertion :=
  mkAssertion
    (headersOf [ ("type", HString "account-key");
                 ("authority-id", HString "canonical");
                 ("public-key-sha3-384", HString "KEY");
                 ("account-id", HString "canonical");
                 ("name", HString "store");
                 ("since", HString "2016-04-01T00:00:00.0Z");
                 ("body-length", HString "3");
                 ("sign-key-sha3-384", HString "ROOT") ])
    "PUB" "SIG-AK".

Definition accountA : Assertion :=
  mkAssertion
    (headersOf [ ("type", HString "account");
                 ("authority-id", HString "canonical");
                 ("account-id", HString "pubH");
                 ("display-name", HString "Hello Dev");
                 ("timestamp", HString "2020-01-01T00:00:00Z");
                 ("username", HString "hellodev");
                 ("validation", HString "unproven");
                 ("sign-key-sha3-384", HString "KEY") ])
    EmptyString "SIG-ACC".

Definition canonicalAccountA : Assertion :=
  mkAssertion
    (headersOf [ ("type", HString "account");
                 ("authority-id", HString "canonical");
                 ("account-id", HString "canonical");
                 ("display-name", HString "Canonical");
                 ("timestamp", HString "2020-01-01T00:00:00Z");
                 ("username", HString "canonical");
                 ("validation", HString "verified");
                 ("sign-key-sha3-384", HString "KEY") ])
    EmptyString "SIG-CAN".

Definition snapDeclA : Assertion :=
  mkAssertion
    (headersOf [ ("type", HString "snap-declaration");
                 ("authority-id", HString "canonical");
                 ("series", HString "16");
                 ("snap-id", HString "idH");
                 ("plugs", HMap [("home", HString "true")]);
                 ("publisher-id", HString "pubH");
                 ("snap-name", HString "hello");
                 ("timestamp", HString "2020-01-01T00:00:00Z");
                 ("sign-key-sha3-384", HString "KEY") ])
    EmptyString "SIG-DECL".

(** A snap-declaration with no [sign-key-sha3-384] header. *)
Definition snapDeclNoKey : Assertion :=
  mkAssertion
    (headersOf [ ("type", HString "snap-declaration");
                 ("authority-id", HString "canonical");
                 ("series", HString "16");
                 ("snap-id", HString "idH");
                 ("publisher-id", HString "pubH");
                 ("snap-name", HString "hello");
                 ("timestamp", HString "2020-01-01T00:00:00Z") ])
    EmptyString "SIG-DECL".

Definition snapRevisionAt (timestamp : string) : Assertion :=
  mkAssertion
    (headersOf [ ("type", HString "snap-revision");
                 ("authority-id", HString "canonical");
                 ("snap-sha3-384", HString "AP8Q");
                 ("developer-id", HString "pubH");
                 ("provenance", HString "global-upload");
                 ("snap-id", HString "idH");
                 ("snap-revision", HString "42");
                 ("snap-size", HString "1000");
                 ("timestamp", HString timestamp);
                 ("sign-key-sha3-384", HString "KEY") ])
    EmptyString "SIG-REV".

Definition snapRevNew : Assertion := snapRevisionAt "2024-05-01T10:00:00Z".
Definition snapRevOld : Assertion := snapRevisionAt "2020-01-01T00:00:00Z".

(** Snap revisions published at the instant the code compares with and
    one second later, and one whose timestamp is not in the layout of
    RFC 3339 (a space for the [T], no zone). *)
Definition snapRevAtThreshold : Assertion :=
  snapRevisionAt "2023-12-09T00:00:00Z".
Definition snapRevJustAfter : Assertion :=
  snapRevisionAt "2023-12-09T00:00:01Z".
Definition snapRevBadTime : Assertion := snapRevisionAt "2024-05-01 10:00:00".

(** A store that serves the given snap-declaration, account and
    snap-revision, and one account-key under every key. *)
Definition assertionStore (snapDecl account : Assertion)
           (snapRevision : result Assertion)
           (assertType : string) (_ : list string) : result Assertion :=
  if String.eqb assertType "snap-declaration" then Ok snapDecl
  else if String.eqb assertType "account-key" then Ok accountKeyA
  else if String.eqb assertType "account" then Ok account
  else if String.eqb assertType "snap-revision" then snapRevision
  else Err "unknown assertion type".

Definition osCreate (_ : string) : result unit := Ok tt.

Definition helloInfo : Info :=
  mkInfo "hello" "idH" (mkRevision 42) "core22" "00ff10" "pubH" 1000.

(** [downloadAssertions] for [hello] against a store. *)
Definition helloRun (snapDecl account : Assertion)
           (snapRevision : result Assertion) : Assertions.outcome :=
  Assertions.downloadAssertions yamlEncode fmtValue time_Parse
    (assertionStore snapDecl account snapRevision) osCreate
    helloInfo "/seed/assertions".


Definition helloPath : string := "/seed/assertions/hello_42.assert".

(** A seed directory with [core22] at revision 100 and [hello] at 41. *)
Definition readDir (dir : string) : result (list string) :=
  if String.eqb dir "/seed/snaps"
  then Ok ["core22_100.snap"; "hello_41.snap"]
  else Err "no such directory".

Definition scanLines (path : string) : result (list string) :=
  if String.eqb path "/seed/assertions/hello_41.assert" then
    Ok ["type: snap-revision"; "snap-id: idH"; "snap-revision: 41"]
  else if String.eqb path "/seed/assertions/core22_100.assert" then
    Ok ["type: snap-revision"; "snap-id: idC"; "snap-revision: 100"]
  else Err "no such file".

Definition defaultChannel : string := "latest/stable/ubuntu-25.04".
Definition fallbackChannel : string := "latest/stable".

Definition helloResult : SnapActionResult :=
  mkSnapActionResult (Some helloInfo) [].

Definition core22Result : SnapActionResult :=
  mkSnapActionResult
    (Some (mkInfo "core22" "idC" (mkRevision 100) EmptyString "aa" "canonical"
                  5000))
    [].

(** A store where [hello] is published on the fallback channel only, at
    revision 42, and [core22] is at revision 100. *)
Definition storeSnapAction (_ : list CurrentSnap) (actions : list SnapAction)
  : result (list SnapActionResult) :=
  match actions with
  | [a] =>
      if String.eqb (ActionInstanceName a) "hello" then
        if String.eqb (Channel a) fallbackChannel then Ok [helloResult]
        else Err "cannot refresh snap hello: no snap revision available as specified"
      else if String.eqb (ActionInstanceName a) "core22" then
        if String.eqb (Action a) "refresh"
        then Err "snap has no updates available"
        else Ok [core22Result]
      else Err "snap not found"
  | _ => Err "snap not found"
  end.

Definition missingProviders (_ : Info) : list string := [].

Definition emptyGlobals : Globals := mkGlobals [] ∅ ∅.

Definition oldHello : CurrentSnap :=
  mkCurrentSnap "hello" "idH" (mkRevision 41) EmptyString.

(** The resolver on [hello] in that world. *)
Definition resolveHello : run (list SnapDetails) :=
  Resolver.collectSnapDependencies storeSnapAction readDir scanLines
    missingProviders "/seed/snaps" "/seed/assertions"
    3 "hello" defaultChannel fallbackChannel emptyGlobals.

Definition itemsOf (r : run (list SnapDetails)) : list SnapDetails :=
  match r with
  | Done l _ => l
  | _ => []
  end.

Definition globalsOf (r : run (list SnapDetails)) : Globals :=
  match r with
  | Done _ g => g
  | _ => emptyGlobals
  end.

(** A run in which the store offers one delta of 1000 bytes for [hello]:
    the delta is downloaded, it cannot be applied, and the whole snap of
    5000 bytes is downloaded instead.  The calls are those of [main],
    [downloadSnapDelta] and [downloadSnap], with the calls the store's
    [Download] makes on the meter ([Start], then [Write]). *)
Definition deltaThenFullDownload : list (Z * string) :=
  match Progress.InitProgress with
  | None => []
  | Some g =>
      let g := Progress.addSnapSize g "hello" 1000%float in
      match Progress.Finish g "Finished collecting snap info" with
      | None => []
      | Some g =>
          let g := Progress.UpdateStepProgress g 0%float in
          let pbar := Progress.NewProgressMeter g "hello" "2.10" true in
          let g := Progress.UpdateStepProgress g 0%float in
          let pbar := Progress.Start pbar 1000%float in
          let '(pbar, g) := Progress.Write pbar g 1000 in
          let '(pbar, g) := Progress.Finished pbar g in
          let pbar := Progress.NewProgressMeter g "hello" "2.10" false in
          let g := Progress.UpdateStepProgress g 0%float in
          let pbar := Progress.Start pbar 5000%float in
          let '(pbar, g) := Progress.Write pbar g 5000 in
          Progress.printed g
      end
  end.

End Samples.

(** * More sample worlds *)

Module CyclicSamples.

(** Two snaps that name each other as base, [ping] also asking for [pong]
    as the provider of a content plug. *)
Definition pingInfo : Info :=
  mkInfo "ping" "idPing" (mkRevision 7) "pong" "0a" "pubP" 100.

Definition pongInfo : Info :=
  mkInfo "pong" "idPong" (mkRevision 9) "ping" "0b" "pubP" 200.

Definition storeSnapAction (_ : list CurrentSnap) (actions : list SnapAction)
  : result (list SnapActionResult) :=
  match actions with
  | [a] =>
      if String.eqb (ActionInstanceName a) "ping"
      then Ok [mkSnapActionResult (Some pingInfo) []]
      else if String.eqb (ActionInstanceName a) "pong"
      then Ok [mkSnapActionResult (Some pongInfo) []]
      else Err "snap not found"
  | _ => Err "snap not found"
  end.

Definition missingProviders (info : Info) : list string :=
  if String.eqb (SuggestedName info) "ping" then ["pong"] else [].

(** An empty seed directory. *)
Definition readDir (_ : string) : result (list string) := Ok [].
Definition scanLines (_ : string) : result (list string) := Err "no such file".

Definition universe : list string := ["ping"; "pong"].

Definition resolvePing (fuel : nat) : run (list SnapDetails) :=
  Resolver.collectSnapDependencies storeSnapAction readDir scanLines
    missingProviders "/seed/snaps" "/seed/assertions"
    fuel "ping" "latest/stable" "latest/stable" (mkGlobals [] ∅ ∅).

End CyclicSamples.

(** A whole run on a seed directory that holds [hello] at revision 41 and
    [core22] at revision 100, with [hello] asked for on the command
    line. *)
Module RunSamples.
Import Samples.

Definition snapdResult : SnapActionResult :=
  mkSnapActionResult
    (Some (mkInfo "snapd" "idS" (mkRevision 200) EmptyString "bb" "canonical"
                  3000))
    [].

Definition bareResult : SnapActionResult :=
  mkSnapActionResult
    (Some (mkInfo "bare" "idB" (mkRevision 5) EmptyString "cc" "canonical" 10))
    [].

(** The store of [Samples], which also knows [snapd] and [bare]. *)
Definition storeSnapAction (current : list CurrentSnap)
           (actions : list SnapAction) : result (list SnapActionResult) :=
  match actions with
  | [a] =>
      if String.eqb (ActionInstanceName a) "snapd" then Ok [snapdResult]
      else if String.eqb (ActionInstanceName a) "bare" then Ok [bareResult]
      else Samples.storeSnapAction current actions
  | _ => Samples.storeSnapAction current actions
  end.

Definition glob (pattern : string) : result (list string) :=
  if String.eqb pattern "/seed/assertions/hello_*.assert"
  then Ok ["/seed/assertions/hello_41.assert"]
  else if String.eqb pattern "/seed/assertions/core22_*.assert"
  then Ok ["/seed/assertions/core22_100.assert"]
  else Ok [].

Definition osRelease : result (list string * option string) :=
  Ok (["PRETTY_NAME=" +:+ DQ +:+ "Ubuntu 25.04" +:+ DQ;
       "NAME=" +:+ DQ +:+ "Ubuntu" +:+ DQ;
       "VERSION_ID=" +:+ DQ +:+ "25.04" +:+ DQ;
       "ID=ubuntu"],
      None).

Definition startProgress : Progress.Globals :=
  Progress.mkGlobals Progress.NewProgressTracker 0%float 0 ∅ 0%float [].

Definition startGlobals : Globals :=
  mkGlobals
    (Main.loadCurrentSnaps scanLines "/seed/assertions" glob
                           ["hello"; "core22"] [])
    (Main.initialRequired ["hello"]) ∅.

Definition collectedRun : Main.collected :=
  Main.collectSnapsToProcess
    storeSnapAction readDir scanLines missingProviders
    "/seed/snaps" "/seed/assertions" osRelease
    3 ["snapd"; "bare"; "hello"] startGlobals startProgress.

Definition itemsOfRun (c : Main.collected) : list SnapDetails :=
  match c with
  | Main.Collected l _ _ => l
  | _ => []
  end.

Definition globalsOfRun (c : Main.collected) : Globals :=
  match c with
  | Main.Collected _ g _ => g
  | _ => startGlobals
  end.

Definition progressOfRun (c : Main.collected) : Progress.Globals :=
  match c with
  | Main.Collected _ _ pg => pg
  | _ => startProgress
  end.

(** A store from which every download succeeds, with [xdelta3] and the
    assertions at hand. *)
Definition storeDownload (_ : list Download.event) (_ _ : string) (_ : bool)
  : option string := None.

Definition fileExists (_ : list Download.event) (_ : string) : bool := true.

Definition xdelta3 (_ : list Download.event) (_ _ _ : string)
  : option (string * string) := None.

Definition downloadAssertions (_ : list Download.event) (_ : Info)
           (_ : string) : option string := None.

(** A store that is down. *)
Definition storeDown (_ : list Download.event) (_ _ : string) (_ : bool)
  : option string := Some "connection refused".

Definition processedRun : Download.processed * list Download.event :=
  Main.processAll "/seed/snaps" "/seed/assertions" false storeDownload
                  fileExists xdelta3 downloadAssertions
                  (itemsOfRun collectedRun)
                  (requiredSnaps (globalsOfRun collectedRun)) [].

Definition requiredOfRun (p : Download.processed) : gmap string bool :=
  match p with
  | Download.Required required => required
  | _ => ∅
  end.

Definition neverFails (_ : string) : bool := false.

(** The two directories before the cleanup. *)
Definition snapsEntries : list string :=
  ["bare_5.snap"; "core22_100.snap"; "hello_41.snap"; "hello_41_to_42.delta";
   "hello_42.snap"; "hello_42.snap.partial"; "notes.txt"; "old_7.snap";
   "snapd_200.snap"].

Definition assertionsEntries : list string :=
  ["bare_5.assert"; "core22_100.assert"; "hello_41.assert"; "hello_42.assert";
   "model"; "old_7.assert"; "snapd_200.assert"].

Definition seedFiles : Cleanup.FS :=
  <["/seed/snaps" := snapsEntries]>
    (<["/seed/assertions" := assertionsEntries]> ∅).

Definition cleanedRun : Globals * Cleanup.FS :=
  Cleanup.cleanUpCurrentSnaps
    neverFails "/seed/assertions" "/seed/snaps"
    (mkGlobals (currentSnaps (globalsOfRun collectedRun))
               (requiredOfRun (fst processedRun))
               (processedSnaps (globalsOfRun collectedRun)))
    seedFiles.

Definition seedOfRun : result (list SeedYaml.SeedSnap * string) :=
  SeedYaml.updateSeedYaml seedRead seedUnmarshal seedMarshal seedWrite
                          (currentSnaps (fst cleanedRun)).

Definition snapsOf (r : result (list SeedYaml.SeedSnap * string))
  : list SeedYaml.SeedSnap :=
  match r with
  | Ok (snaps, _) => snaps
  | Err _ => []
  end.

Definition textOf (r : result (list SeedYaml.SeedSnap * string)) : string :=
  match r with
  | Ok (_, text) => text
  | Err _ => EmptyString
  end.

Definition helloDelta : DeltaInfo := mkDeltaInfo 41 42 1000.

(** An answer of the store for [hello] that offers a delta from the
    revision at hand. *)
Definition helloDeltaResult : SnapActionResult :=
  mkSnapActionResult (Some helloInfo) [helloDelta].

(** The work item of the resolver of [Samples] for [hello]. *)
Definition helloItem : SnapDetails :=
  mkSnapDetails "hello" defaultChannel
                (mkCurrentSnap "hello" "idH" (mkRevision 42) EmptyString)
                helloResult.

(** A snap that is no longer wanted, beside [hello]. *)
Definition staleGlobals : Globals :=
  mkGlobals [mkCurrentSnap "old" "idO" (mkRevision 7) EmptyString;
             mkCurrentSnap "hello" "idH" (mkRevision 42) EmptyString]
            (<["hello" := true]> ∅) ∅.

(** The tracker as [InitProgress] builds it, before [Start]; the state
    after [InitProgress]; and the state after the [Finish] that [main]
    calls once the snaps are collected. *)
Definition trackerOfMain : Progress.Globals :=
  Progress.mkGlobals
    (Progress.AddStep
       (Progress.AddStep
          (Progress.AddStep Progress.NewProgressTracker 10 "Initialization")
          80 "Downloading snaps")
       10 "Verifying snaps")
    0%float 0 ∅ 0%float [].

Definition initialProgress : Progress.Globals :=
  default trackerOfMain Progress.InitProgress.

Definition collectedProgress : Progress.Globals :=
  default initialProgress
          (Progress.Finish initialProgress "Finished collecting snap info").

End RunSamples.

(** * Properties *)

(** ** Facts on the string functions *)

Section StringFacts.
Import GoStrings.

Lemma append_nil (s : string) : EmptyString +:+ s = s.
Proof. reflexivity. Qed.

Lemma append_cons (c : ascii) (a b : string) :
  String c a +:+ b = String c (a +:+ b).
Proof. reflexivity. Qed.

Lemma prefix_nil (s : string) : String.prefix EmptyString s = true.
Proof. destruct s; reflexivity. Qed.

Lemma drop_append (p s : string) : drop (String.length p) (p +:+ s) = s.
Proof.
  induction p as [|c p IH]; [reflexivity|].
  rewrite append_cons. simpl. exact IH.
Qed.

Lemma drop_drop (a b : nat) (s : string) : drop (a + b) s = drop b (drop a s).
Proof.
  revert s; induction a as [|a IH]; intros s; simpl; auto.
  destruct s; simpl; auto. destruct b; reflexivity.
Qed.

Lemma take_append (p s : string) : take (String.length p) (p +:+ s) = p.
Proof.
  unfold take. induction p as [|c p IH].
  - rewrite append_nil. destruct s; reflexivity.
  - rewrite append_cons. simpl. now rewrite IH.
Qed.

Lemma length_append (p s : string) :
  String.length (p +:+ s) = (String.length p + String.length s)%nat.
Proof.
  induction p as [|c p IH]; [reflexivity|].
  rewrite append_cons. simpl. now rewrite IH.
Qed.

Lemma HasSuffix_append (r suf : string) : HasSuffix (r +:+ suf) suf = true.
Proof.
  unfold HasSuffix. rewrite length_append.
  replace (String.length r + String.length suf - String.length suf)%nat
    with (String.length r) by lia.
  rewrite drop_append, String.eqb_refl, andb_true_r.
  apply Nat.leb_le. lia.
Qed.

Lemma TrimSuffix_append (r suf : string) : TrimSuffix (r +:+ suf) suf = r.
Proof.
  unfold TrimSuffix. rewrite HasSuffix_append, length_append.
  replace (String.length r + String.length suf - String.length suf)%nat
    with (String.length r) by lia.
  apply take_append.
Qed.

(** A string that ends in [.assert] does not end in [.snap]. *)
Lemma HasSuffix_assert_not_snap (r : string) :
  HasSuffix (r +:+ ".assert") ".snap" = false.
Proof.
  unfold HasSuffix. rewrite length_append. simpl String.length.
  replace (String.length r + 7 - 5)%nat with (String.length r + 2)%nat by lia.
  rewrite drop_drop, drop_append. simpl. apply andb_false_r.
Qed.

Lemma Contains_cons_false (c : ascii) (t sub : string) :
  Contains (String c t) sub = false ->
  String.prefix sub (String c t) = false /\ Contains t sub = false.
Proof.
  intros H. change (Contains (String c t) sub)
    with (if String.prefix sub (String c t) then true else Contains t sub) in H.
  destruct (String.prefix sub (String c t)); [discriminate | auto].
Qed.

Lemma lastIndexFrom_absent (sub s : string) (i acc : Z) :
  Contains s sub = false -> lastIndexFrom sub s i acc = acc.
Proof.
  revert i acc; induction s as [|c t IH]; intros i acc H.
  - simpl in *. destruct sub; [discriminate | reflexivity].
  - apply Contains_cons_false in H as [Hp Ht].
    change (lastIndexFrom sub (String c t) i acc)
      with (lastIndexFrom sub t (i + 1)
              (if String.prefix sub (String c t) then i else acc)).
    rewrite Hp. now apply IH.
Qed.

Lemma lastIndexFrom_underscore (pre rest : string) (i acc : Z) :
  Contains rest "_" = false ->
  lastIndexFrom "_" (pre +:+ "_" +:+ rest) i acc
  = i + Z.of_nat (String.length pre).
Proof.
  intros Hrest. revert i acc; induction pre as [|c p IH]; intros i acc.
  - rewrite !append_nil, append_cons, append_nil. simpl.
    rewrite lastIndexFrom_absent by assumption. rewrite prefix_nil. lia.
  - rewrite append_cons.
    change (lastIndexFrom "_" (String c (p +:+ "_" +:+ rest)) i acc)
      with (lastIndexFrom "_" (p +:+ "_" +:+ rest) (i + 1)
              (if String.prefix "_" (String c (p +:+ "_" +:+ rest))
               then i else acc)).
    rewrite IH. simpl String.length. lia.
Qed.

Lemma LastIndex_absent (s sub : string) :
  Contains s sub = false -> LastIndex s sub = -1.
Proof. apply lastIndexFrom_absent. Qed.


End StringFacts.

(** ** utils.go *)

Section UtilsFacts.
Import GoStrings Utils.

Lemma extractRevisionFromFile_split (pre rest : string) :
  Contains rest "_" = false ->
  extractRevisionFromFile (pre +:+ "_" +:+ rest)
  = if HasSuffix rest ".snap" then TrimSuffix rest ".snap"
    else if HasSuffix rest ".assert" then TrimSuffix rest ".assert"
    else rest.
Proof.
  intros Hrest. unfold extractRevisionFromFile, LastIndex.
  rewrite lastIndexFrom_underscore by assumption.
  replace (0 + Z.of_nat (String.length pre) =? -1) with false
    by (symmetry; apply Z.eqb_neq; lia).
  unfold sliceFrom.
  replace (Z.to_nat (0 + Z.of_nat (String.length pre) + 1))
    with (String.length pre + 1)%nat by lia.
  rewrite drop_drop, drop_append. reflexivity.
Qed.

(** C7, as stated, fails: for a name whose part after the last underscore
    ends in a suffix other than [.snap] and [.assert],
    [extractRevisionFromFile] does not return the empty string; on
    [hello_42.delta] it returns [42.delta]. *)
Lemma extractRevisionFromFile_other_suffix_counterexample :
  Contains "42.delta" "_" = false /\
  HasSuffix "42.delta" ".snap" = false /\
  HasSuffix "42.delta" ".assert" = false /\
  extractRevisionFromFile "hello_42.delta" = "42.delta" /\
  extractRevisionFromFile "hello_42.delta" <> EmptyString.
Proof. repeat split; try reflexivity. discriminate. Qed.

(** C7, amended: for a file name [pre_rest] whose part [rest] after the
    last underscore holds no underscore, [extractRevisionFromFile] returns
    [rest] with a trailing [.snap] or [.assert] stripped, and [rest] itself,
    unchanged, when it ends in neither; a name with no underscore yields
    the empty string. *)
Theorem extractRevisionFromFile_after_last_underscore
        (fileName pre rest : string)
        (Hnone : Contains fileName "_" = false)
        (Hrest : Contains rest "_" = false) :
  extractRevisionFromFile fileName = EmptyString
  /\ (forall r, rest = r +:+ ".snap" ->
        extractRevisionFromFile (pre +:+ "_" +:+ rest) = r)
  /\ (forall r, rest = r +:+ ".assert" ->
        extractRevisionFromFile (pre +:+ "_" +:+ rest) = r)
  /\ (HasSuffix rest ".snap" = false -> HasSuffix rest ".assert" = false ->
        extractRevisionFromFile (pre +:+ "_" +:+ rest) = rest).
Proof.
  split; [|split; [|split]].
  - unfold extractRevisionFromFile.
    now rewrite (LastIndex_absent _ _ Hnone).
  - intros r ->. rewrite extractRevisionFromFile_split by assumption.
    now rewrite HasSuffix_append, TrimSuffix_append.
  - intros r ->. rewrite extractRevisionFromFile_split by assumption.
    now rewrite HasSuffix_assert_not_snap, HasSuffix_append, TrimSuffix_append.
  - intros H1 H2. rewrite extractRevisionFromFile_split by assumption.
    now rewrite H1, H2.
Qed.

Lemma extractRevisionFromFile_after_last_underscore_witness :
  extractRevisionFromFile "hello" = EmptyString
  /\ extractRevisionFromFile "hello_42.snap" = "42"
  /\ extractRevisionFromFile "core22_1380.assert" = "1380".
Proof.
  split; [|split].
  - exact (proj1 (extractRevisionFromFile_after_last_underscore
                    "hello" "hello" "42.snap" eq_refl eq_refl)).
  - exact (proj1 (proj2 (extractRevisionFromFile_after_last_underscore
                           "hello" "hello" "42.snap" eq_refl eq_refl))
                 "42" eq_refl).
  - exact (proj1 (proj2 (proj2 (extractRevisionFromFile_after_last_underscore
                                  "hello" "core22" "1380.assert"
                                  eq_refl eq_refl)))
                 "1380" eq_refl).
Defined.

Lemma removeSnapFromCurrentSnaps_no_match
      (l : list CurrentSnap) (snapName : string) (revision : Revision) :
  Forall (fun y => N (Rev y) <> N revision) l ->
  removeSnapFromCurrentSnaps l snapName revision = l.
Proof.
  induction 1 as [|y l Hy _ IH]; [reflexivity|].
  simpl. unfold Revision_eqb.
  destruct (Z.eqb_spec (N (Rev y)) (N revision)); [contradiction|].
  now rewrite IH.
Qed.

(** C10: [removeSnapFromCurrentSnaps] removes the first element whose
    revision number equals the given one, whatever that element's
    [InstanceName] and whatever the name passed; a list with no such element
    is left as it is.  When two snaps carry the same revision number, the
    call [collectSnapDependencies] makes for the second one removes the
    entry of the first. *)
Theorem removeSnapFromCurrentSnaps_by_revision_alone
        (pre post : list CurrentSnap) (x : CurrentSnap)
        (snapName : string) (revision : Revision)
        (Hpre : Forall (fun y => N (Rev y) <> N revision) pre)
        (Hx : N (Rev x) = N revision) :
  removeSnapFromCurrentSnaps (pre ++ x :: post) snapName revision = pre ++ post
  /\ removeSnapFromCurrentSnaps pre snapName revision = pre
  /\ (let a := mkCurrentSnap "core22" "idA" (mkRevision 7) EmptyString in
      let b := mkCurrentSnap "hello" "idB" (mkRevision 7) EmptyString in
      isSnapInCurrentSnaps [a; b] "hello" = (true, mkRevision 7)
      /\ removeSnapFromCurrentSnaps [a; b] "hello" (mkRevision 7) = [b]).
Proof.
  split; [|split].
  - induction Hpre as [|y l Hy _ IH]; simpl; unfold Revision_eqb.
    + now rewrite (proj2 (Z.eqb_eq _ _) Hx).
    + destruct (Z.eqb_spec (N (Rev y)) (N revision)); [contradiction|].
      now rewrite IH.
  - now apply removeSnapFromCurrentSnaps_no_match.
  - split; reflexivity.
Qed.

Lemma removeSnapFromCurrentSnaps_by_revision_alone_witness :
  let a := mkCurrentSnap "snapd" "idS" (mkRevision 3) EmptyString in
  let b := mkCurrentSnap "core22" "idA" (mkRevision 7) EmptyString in
  let c := mkCurrentSnap "hello" "idB" (mkRevision 7) EmptyString in
  removeSnapFromCurrentSnaps ([a] ++ b :: [c]) "hello" (mkRevision 7)
  = [a] ++ [c].
Proof.
  intros a b c.
  refine (proj1 (removeSnapFromCurrentSnaps_by_revision_alone
                   [a] [c] b "hello" (mkRevision 7) _ eq_refl)).
  constructor; [simpl; lia | constructor].
Defined.

End UtilsFacts.

(** ** The seed manifest *)

Section SeedYamlFacts.
Import GoStrings SeedYaml.

Lemma fold_left_snoc_map {A B : Type} (f : A -> B) (l : list A) (acc : list B) :
  fold_left (fun acc x => acc ++ [f x]) l acc = acc ++ map f l.
Proof.
  revert acc; induction l as [|x l IH]; intros acc; simpl.
  - now rewrite app_nil_r.
  - rewrite IH. now rewrite <- app_assoc.
Qed.







End SeedYamlFacts.

(** ** assertions.go *)

Section WriterFacts.
Import GoStrings GoEncoding Assertions.

Variable yamlEncode : hvalue -> string.
Variable fmtValue : hvalue -> string.
Variable time_Parse : string -> option Time.

#[local] Abbreviation writeHeader := (writeHeader yamlEncode fmtValue).
#[local] Abbreviation writeAssertion := (writeAssertion yamlEncode fmtValue time_Parse).
#[local] Abbreviation headersToWrite := (headersToWrite time_Parse).


Lemma headerKeys_app (a b : list fwrite) :
  headerKeys (a ++ b) = headerKeys a ++ headerKeys b.
Proof.
  induction a as [|w a IH]; [reflexivity|].
  destruct w; simpl; now rewrite IH.
Qed.

Lemma headerKeys_serializeLine (line : string) :
  headerKeys (serializeLine line) = [].
Proof.
  unfold serializeLine.
  destruct (String.eqb line EmptyString); [reflexivity|].
  match goal with |- context [Cut ?l ?s] => destruct (Cut l s) as [[? ?] ?] end.
  repeat match goal with
         | |- context [if ?b then _ else _] => destruct b
         end; reflexivity.
Qed.

Lemma headerKeys_serializeComplexField (value : hvalue) :
  headerKeys (serializeComplexField yamlEncode value) = [].
Proof.
  unfold serializeComplexField.
  induction (Split (yamlEncode value) LF) as [|l ls IH]; [reflexivity|].
  simpl. now rewrite headerKeys_app, headerKeys_serializeLine, IH.
Qed.

Lemma headerKeys_writeHeader (assertionType : string) (bodyLength : Z)
      (headers : gmap string hvalue) (key : string) :
  headerKeys (writeHeader assertionType bodyLength headers key)
  = if headerShown headers key then [key] else [].
Proof.
  unfold Assertions.writeHeader, headerShown.
  destruct (headers !! key) as [value|]; [|reflexivity].
  destruct (isString value EmptyString); [reflexivity|]. simpl negb. cbv iota.
  repeat match goal with
         | |- context [if ?b then _ else _] => destruct b
         end; simpl; try reflexivity.
  now rewrite headerKeys_serializeComplexField.
Qed.

Lemma fold_left_writes {K : Type} (w : K -> list fwrite) (keys : list K)
      (file : list fwrite) :
  fold_left (fun file key => file ++ w key) keys file
  = file ++ flat_map w keys.
Proof.
  revert file; induction keys as [|k keys IH]; intros file; simpl.
  - now rewrite app_nil_r.
  - rewrite IH. now rewrite <- app_assoc.
Qed.

Lemma headerKeys_fields (assertionType : string) (bodyLength : Z)
      (headers : gmap string hvalue) (keys : list string) :
  headerKeys (flat_map (writeHeader assertionType bodyLength headers) keys)
  = List.filter (headerShown headers) keys.
Proof.
  induction keys as [|k keys IH]; [reflexivity|].
  simpl flat_map. rewrite headerKeys_app, headerKeys_writeHeader, IH.
  simpl. destruct (headerShown headers k); reflexivity.
Qed.

Lemma writeAssertion_eq (assertionType : string) (assertion : Assertion)
      (file : list fwrite) :
  writeAssertion assertionType assertion file
  = if isCanonicalAccount assertionType (Headers assertion) then Some file
    else match headersToWrite assertionType (Headers assertion) with
         | None => None
         | Some headers =>
             Some (file ++ assertionBlock yamlEncode fmtValue assertionType
                                          assertion headers)
         end.
Proof.
  unfold Assertions.writeAssertion, assertionBlock.
  destruct (isCanonicalAccount assertionType (Headers assertion));
    [reflexivity|].
  destruct (headersToWrite assertionType (Headers assertion)) as [h|];
    [|reflexivity].
  rewrite fold_left_writes.
  destruct (0 <? Z.of_nat (String.length (Body assertion)));
    destruct (negb (String.eqb assertionType "snap-revision"));
    simpl; rewrite <- ?app_assoc; reflexivity.
Qed.

Lemma writeAssertion_block (assertionType : string) (assertion : Assertion)
      (file file' : list fwrite) :
  writeAssertion assertionType assertion file = Some file' ->
  exists block,
    writeAssertion assertionType assertion [] = Some block
    /\ file' = file ++ block.
Proof.
  rewrite !writeAssertion_eq.
  destruct (isCanonicalAccount assertionType (Headers assertion)).
  - intros [= <-]. exists []. now rewrite app_nil_r.
  - destruct (headersToWrite assertionType (Headers assertion)) as [h|];
      [|discriminate].
    intros [= <-]. eexists; split; reflexivity.
Qed.

Lemma headerKeys_assertionBlock (assertionType : string)
      (assertion : Assertion) (headers : gmap string hvalue) :
  headerKeys (assertionBlock yamlEncode fmtValue assertionType assertion headers)
  = List.filter (headerShown headers) (fieldOrder assertionType).
Proof.
  unfold assertionBlock. rewrite !headerKeys_app, headerKeys_fields.
  destruct (0 <? Z.of_nat (String.length (Body assertion)));
    destruct (negb (String.eqb assertionType "snap-revision"));
    simpl; now rewrite app_nil_r.
Qed.

Lemma isCanonicalAccount_other (assertionType : string)
      (headers : gmap string hvalue) :
  String.eqb assertionType "account" = false ->
  isCanonicalAccount assertionType headers = false.
Proof. intros H. unfold isCanonicalAccount. now rewrite H. Qed.

Lemma headersToWrite_other (assertionType : string)
      (headers : gmap string hvalue) :
  String.eqb assertionType "snap-revision" = false ->
  headersToWrite assertionType headers = Some headers.
Proof.
  intros H. unfold Assertions.headersToWrite. rewrite H.
  now destruct (headers !! "timestamp").
Qed.





Lemma assertionBlock_nonempty (assertionType : string) (assertion : Assertion)
      (headers : gmap string hvalue) :
  assertionBlock yamlEncode fmtValue assertionType assertion headers <> [].
Proof.
  unfold assertionBlock. intros H.
  apply app_eq_nil in H as [_ H]. discriminate.
Qed.

Lemma writeAssertion_other_nonempty (assertionType : string)
      (assertion : Assertion) (block : list fwrite) :
  String.eqb assertionType "account" = false ->
  writeAssertion assertionType assertion [] = Some block -> block <> [].
Proof.
  intros Hty. rewrite writeAssertion_eq, isCanonicalAccount_other by assumption.
  destruct (headersToWrite _ _); [|discriminate].
  intros [= <-]. apply assertionBlock_nonempty.
Qed.

Lemma writeAssertion_other_returns (assertionType : string)
      (assertion : Assertion) (file : list fwrite) :
  String.eqb assertionType "snap-revision" = false ->
  exists block,
    writeAssertion assertionType assertion [] = Some block
    /\ writeAssertion assertionType assertion file = Some (file ++ block).
Proof.
  intros H. rewrite !writeAssertion_eq, headersToWrite_other by assumption.
  destruct (isCanonicalAccount _ _).
  - exists []. now rewrite app_nil_r.
  - eexists. split; reflexivity.
Qed.

Lemma signKeyOf_None (snapDecl : Assertion) :
  signKeyOf snapDecl = None
  <-> forall signKey,
        Headers snapDecl !! "sign-key-sha3-384" = Some (HString signKey) ->
        signKey = EmptyString.
Proof.
  unfold signKeyOf.
  destruct (Headers snapDecl !! "sign-key-sha3-384") as [[k| |]|];
    try (split; [intros _ ? [=] | reflexivity]).
  destruct (String.eqb_spec k EmptyString) as [->|Hne].
  - split; [now intros _ ? [= <-] | reflexivity].
  - split; [discriminate | intros H; now specialize (H k eq_refl)].
Qed.

(** C6: for every snap-revision assertion [writeAssertion] writes (it
    writes every one whose [timestamp] header is a string or is missing),
    the block has a [provenance] header line exactly when the header is
    present and not empty and the [timestamp] header, if there is one,
    parses to an instant after 2023-12-09T00:00:00Z, that is more than
    1702080000 seconds after the Unix epoch.  So the line is left out
    when the timestamp parses to that instant or to an earlier one, and
    also when it does not parse at all: the error of [time.Parse] is
    dropped and the zero time compared.  The line reads [provenance: ]
    followed by the value. *)
Theorem provenance_written_by_timestamp
        (assertion : Assertion) (file : list fwrite) :
  ((forall value,
       Headers assertion !! "timestamp" = Some value ->
       exists timestamp, value = HString timestamp) ->
   exists file',
     writeAssertion "snap-revision" assertion file = Some file')
  /\ forall file',
       writeAssertion "snap-revision" assertion file = Some file' ->
       exists block,
         file' = file ++ block
         /\ (In "provenance" (headerKeys block)
             <-> headerShown (Headers assertion) "provenance" = true
                 /\ forall timestamp,
                      Headers assertion !! "timestamp"
                      = Some (HString timestamp) ->
                      exists t,
                        time_Parse timestamp = Some t
                        /\ 1702080000 * 1000000000 < t)
         /\ forall value,
              Headers assertion !! "provenance" = Some (HString value) ->
              In "provenance" (headerKeys block) ->
              In (WHeader "provenance" ("provenance: " +:+ value +:+ LF))
                 block.
Proof.
  rewrite writeAssertion_eq.
  rewrite isCanonicalAccount_other by reflexivity.
  assert (Hkept :
    exists block,
      file ++ assertionBlock yamlEncode fmtValue "snap-revision" assertion
                             (Headers assertion)
      = file ++ block
      /\ (In "provenance" (headerKeys block)
          <-> headerShown (Headers assertion) "provenance" = true)
      /\ forall value,
           Headers assertion !! "provenance" = Some (HString value) ->
           In "provenance" (headerKeys block) ->
           In (WHeader "provenance" ("provenance: " +:+ value +:+ LF)) block).
  { eexists. split; [reflexivity|]. split.
    - rewrite headerKeys_assertionBlock, List.filter_In. split; [tauto|].
      intros H. split; [simpl; tauto | exact H].
    - intros value Hv Hin.
      rewrite headerKeys_assertionBlock in Hin.
      apply List.filter_In in Hin as [_ Hshown].
      unfold headerShown in Hshown. rewrite Hv in Hshown. simpl in Hshown.
      unfold assertionBlock. apply in_or_app. left. apply in_flat_map.
      exists "provenance". split; [simpl; tauto|].
      unfold Assertions.writeHeader. rewrite Hv. simpl isString.
      destruct (String.eqb value EmptyString); [discriminate|].
      left. reflexivity. }
  assert (Hdropped :
    exists block,
      file ++ assertionBlock yamlEncode fmtValue "snap-revision" assertion
                             (delete "provenance" (Headers assertion))
      = file ++ block
      /\ ~ In "provenance" (headerKeys block)).
  { eexists. split; [reflexivity|].
    intros Hin. rewrite headerKeys_assertionBlock in Hin.
    apply List.filter_In in Hin as [_ Hin].
    unfold headerShown in Hin. now rewrite lookup_delete_eq in Hin. }
  unfold Assertions.headersToWrite, parsedTime.
  change (String.eqb "snap-revision" "snap-revision") with true. cbv iota.
  destruct (Headers assertion !! "timestamp") as [[timestamp| |]|] eqn:Hts.
  - destruct (time_Parse timestamp) as [t|] eqn:Hparse.
    + destruct ((t <? thresholdTime) || (t =? thresholdTime)) eqn:Hcmp.
      * split; [eauto|]. intros file' [= <-].
        destruct Hdropped as (block & -> & Hno).
        exists block. split; [reflexivity|]. split.
        -- split; [intros Hin; now contradiction Hno|].
           intros [_ Hafter].
           destruct (Hafter timestamp eq_refl) as (t' & Ht' & Hlt).
           rewrite Hparse in Ht'. injection Ht' as <-.
           unfold thresholdTime in Hcmp.
           apply orb_true_iff in Hcmp as [H|H]; lia.
        -- intros value _ Hin. now contradiction Hno.
      * split; [eauto|]. intros file' [= <-].
        destruct Hkept as (block & -> & Hiff & Hline).
        exists block. split; [reflexivity|]. split; [|exact Hline].
        rewrite Hiff. split; [|tauto].
        intros Hshown. split; [exact Hshown|].
        intros ts [= <-]. exists t. split; [exact Hparse|].
        unfold thresholdTime in Hcmp.
        apply orb_false_iff in Hcmp as [H1 H2]. lia.
    + change ((zeroTime <? thresholdTime) || (zeroTime =? thresholdTime))
        with true. cbv iota.
      split; [eauto|]. intros file' [= <-].
      destruct Hdropped as (block & -> & Hno).
      exists block. split; [reflexivity|]. split.
      * split; [intros Hin; now contradiction Hno|].
        intros [_ Hafter].
        destruct (Hafter timestamp eq_refl) as (t' & Ht' & _).
        rewrite Hparse in Ht'. discriminate.
      * intros value _ Hin. now contradiction Hno.
  - split; [|discriminate].
    intros Hstring. now destruct (Hstring _ eq_refl) as (ts & [=]).
  - split; [|discriminate].
    intros Hstring. now destruct (Hstring _ eq_refl) as (ts & [=]).
  - split; [eauto|]. intros file' [= <-].
    destruct Hkept as (block & -> & Hiff & Hline).
    exists block. split; [reflexivity|]. split; [|exact Hline].
    rewrite Hiff. split; [|tauto].
    intros Hshown. split; [exact Hshown | discriminate].
Qed.

(** A timestamp that [time.Parse] rejects is taken for the zero time, and
    the [provenance] header is dropped as for an old revision. *)
Lemma provenance_dropped_when_unparsable
      (assertion : Assertion) (timestamp : string) (file : list fwrite) :
  Headers assertion !! "timestamp" = Some (HString timestamp) ->
  time_Parse timestamp = None ->
  exists block,
    writeAssertion "snap-revision" assertion file = Some (file ++ block)
    /\ ~ In "provenance" (headerKeys block).
Proof.
  intros Hts Hparse. rewrite writeAssertion_eq.
  rewrite isCanonicalAccount_other by reflexivity.
  unfold Assertions.headersToWrite, parsedTime. rewrite Hts, Hparse.
  change (String.eqb "snap-revision" "snap-revision") with true. cbv iota.
  change ((zeroTime <? thresholdTime) || (zeroTime =? thresholdTime))
    with true. cbv iota.
  eexists. split; [reflexivity|].
  intros Hin. rewrite headerKeys_assertionBlock in Hin.
  apply List.filter_In in Hin as [_ Hin].
  unfold headerShown in Hin. now rewrite lookup_delete_eq in Hin.
Qed.

End WriterFacts.

Section DownloadFacts.
Import GoStrings GoEncoding Assertions.

Variable yamlEncode : hvalue -> string.
Variable fmtValue : hvalue -> string.
Variable time_Parse : string -> option Time.
Variable storeAssertion : string -> list string -> result Assertion.
Variable osCreate : string -> result unit.

#[local] Abbreviation writeAssertion := (writeAssertion yamlEncode fmtValue time_Parse).
#[local] Abbreviation downloadAssertions :=
  (downloadAssertions yamlEncode fmtValue time_Parse storeAssertion osCreate).

(** What a successful run of [downloadAssertions] has fetched and
    written: the four fetches and the split of the file in the blocks of
    [writeAssertion], account-key first. *)
Lemma downloadAssertions_written (snapInfo : Info) (downloadDir path : string)
      (file : list fwrite) :
  downloadAssertions snapInfo downloadDir = Written path file ->
  exists snapDecl signKey accountKey account sha b1 b2 b3 b4,
    storeAssertion "snap-declaration" ["16"; InfoSnapID snapInfo] = Ok snapDecl
    /\ signKeyOf snapDecl = Some signKey
    /\ storeAssertion "account-key" [signKey] = Ok accountKey
    /\ storeAssertion "account" [PublisherID snapInfo] = Ok account
    /\ hex_DecodeString (Sha3_384 snapInfo) = Some sha
    /\ writeAssertion "account-key" accountKey [] = Some b1
    /\ writeAssertion "account" account [] = Some b2
    /\ writeAssertion "snap-declaration" snapDecl [] = Some b3
    /\ match storeAssertion "snap-revision"
                           [base64_RawURLEncode sha +:+ "/"] with
       | Ok snapRevision =>
           writeAssertion "snap-revision" snapRevision [] = Some b4
       | Err _ => b4 = []
       end
    /\ file = b1 ++ b2 ++ b3 ++ b4.
Proof.
  unfold Assertions.downloadAssertions.
  destruct (osCreate _); [|discriminate].
  destruct (storeAssertion "snap-declaration" _) as [snapDecl|] eqn:Hsd;
    [|discriminate].
  destruct (signKeyOf snapDecl) as [signKey|] eqn:Hkey; [|discriminate].
  destruct (storeAssertion "account-key" _) as [accountKey|] eqn:Hak;
    [|discriminate].
  destruct (storeAssertion "account" _) as [account|] eqn:Hacc;
    [|discriminate].
  destruct (hex_DecodeString _) as [sha|] eqn:Hsha; [|discriminate].
  destruct (writeAssertion "account-key" accountKey []) as [f1|] eqn:H1;
    [|discriminate].
  destruct (writeAssertion "account" account f1) as [f2|] eqn:H2;
    [|discriminate].
  destruct (writeAssertion "snap-declaration" snapDecl f2) as [f3|] eqn:H3;
    [|discriminate].
  apply writeAssertion_block in H2 as (b2 & H2 & ->).
  apply writeAssertion_block in H3 as (b3 & H3 & ->).
  intros Hrun.
  destruct (storeAssertion "snap-revision" _) as [snapRevision|] eqn:Hsr.
  - destruct (writeAssertion "snap-revision" snapRevision _) as [f4|] eqn:H4;
      [|discriminate].
    apply writeAssertion_block in H4 as (b4 & H4 & ->).
    injection Hrun as _ <-.
    exists snapDecl, signKey, accountKey, account, sha, f1, b2, b3, b4.
    rewrite Hsr, <- !app_assoc. repeat split; assumption.
  - injection Hrun as _ <-.
    exists snapDecl, signKey, accountKey, account, sha, f1, b2, b3, [].
    rewrite Hsr, app_nil_r, <- !app_assoc. repeat split; assumption.
Qed.


(** C5: for an account assertion whose [username] header is [canonical],
    [writeAssertion] writes nothing; the file [downloadAssertions] then
    leaves is made of the account-key block, the snap-declaration block and
    the snap-revision block (when that assertion was fetched), each not
    empty, with no account block. *)
Theorem canonical_account_not_written
        (account : Assertion)
        (Huser : Headers account !! "username" = Some (HString "canonical")) :
  (forall file, writeAssertion "account" account file = Some file)
  /\ forall snapInfo downloadDir path file,
       storeAssertion "account" [PublisherID snapInfo] = Ok account ->
       downloadAssertions snapInfo downloadDir = Written path file ->
       exists snapDecl signKey accountKey sha b1 b3 b4,
         (storeAssertion "snap-declaration" ["16"; InfoSnapID snapInfo]
          = Ok snapDecl
          /\ signKeyOf snapDecl = Some signKey
          /\ storeAssertion "account-key" [signKey] = Ok accountKey
          /\ hex_DecodeString (Sha3_384 snapInfo) = Some sha)
         /\ (writeAssertion "account-key" accountKey [] = Some b1 /\ b1 <> [])
         /\ (writeAssertion "snap-declaration" snapDecl [] = Some b3
             /\ b3 <> [])
         /\ match storeAssertion "snap-revision"
                                [base64_RawURLEncode sha +:+ "/"] with
            | Ok snapRevision =>
                writeAssertion "snap-revision" snapRevision [] = Some b4
                /\ b4 <> []
            | Err _ => b4 = []
            end
         /\ file = b1 ++ b3 ++ b4.
Proof.
  assert (Hskip : forall file, writeAssertion "account" account file = Some file).
  { intros file. rewrite writeAssertion_eq. unfold isCanonicalAccount.
    now rewrite Huser. }
  split; [exact Hskip|].
  intros snapInfo downloadDir path file Hacc Hrun.
  apply downloadAssertions_written in Hrun
    as (snapDecl & signKey & accountKey & account' & sha & b1 & b2 & b3 & b4
        & Hsd & Hkey & Hak & Hacc' & Hsha & H1 & H2 & H3 & H4 & ->).
  rewrite Hacc in Hacc'. injection Hacc' as <-.
  rewrite Hskip in H2. injection H2 as <-.
  exists snapDecl, signKey, accountKey, sha, b1, b3, b4.
  split; [repeat split; assumption|].
  split; [split; [assumption|]|].
  { eapply writeAssertion_other_nonempty; [|eassumption]; reflexivity. }
  split; [split; [assumption|]|].
  { eapply writeAssertion_other_nonempty; [|eassumption]; reflexivity. }
  split; [|reflexivity].
  destruct (storeAssertion "snap-revision" _) as [snapRevision|]; [|assumption].
  split; [assumption|].
  eapply writeAssertion_other_nonempty; [|eassumption]; reflexivity.
Qed.

(** C4, amended: [downloadAssertions] returns an error exactly when the
    file cannot be created, the snap-declaration cannot be fetched or has
    no [sign-key-sha3-384] header that is a non-empty string, the
    account-key or the account cannot be fetched, or the hexadecimal digest
    cannot be decoded.  When none of these happens and the fetch of the
    snap-revision fails, the call returns nil and the file holds the three
    other blocks and no snap-revision block. *)
Theorem downloadAssertions_error_iff (snapInfo : Info) (downloadDir : string) :
  let assertionsPath :=
    filepath_Join downloadDir
      (SuggestedName snapInfo +:+ "_" +:+ Itoa (N (InfoRevision snapInfo))
       +:+ ".assert") in
  ((exists msg, downloadAssertions snapInfo downloadDir = Failed msg)
   <-> (exists err, osCreate assertionsPath = Err err)
       \/ (exists err,
             storeAssertion "snap-declaration" ["16"; InfoSnapID snapInfo]
             = Err err)
       \/ (exists snapDecl,
             storeAssertion "snap-declaration" ["16"; InfoSnapID snapInfo]
             = Ok snapDecl
             /\ forall signKey,
                  Headers snapDecl !! "sign-key-sha3-384"
                  = Some (HString signKey) -> signKey = EmptyString)
       \/ (exists snapDecl signKey err,
             storeAssertion "snap-declaration" ["16"; InfoSnapID snapInfo]
             = Ok snapDecl
             /\ signKeyOf snapDecl = Some signKey
             /\ storeAssertion "account-key" [signKey] = Err err)
       \/ (exists err,
             storeAssertion "account" [PublisherID snapInfo] = Err err)
       \/ hex_DecodeString (Sha3_384 snapInfo) = None)
  /\ (forall snapDecl signKey accountKey account sha err,
        osCreate assertionsPath = Ok tt ->
        storeAssertion "snap-declaration" ["16"; InfoSnapID snapInfo]
        = Ok snapDecl ->
        signKeyOf snapDecl = Some signKey ->
        storeAssertion "account-key" [signKey] = Ok accountKey ->
        storeAssertion "account" [PublisherID snapInfo] = Ok account ->
        hex_DecodeString (Sha3_384 snapInfo) = Some sha ->
        storeAssertion "snap-revision" [base64_RawURLEncode sha +:+ "/"]
        = Err err ->
        exists b1 b2 b3,
          writeAssertion "account-key" accountKey [] = Some b1
          /\ writeAssertion "account" account [] = Some b2
          /\ writeAssertion "snap-declaration" snapDecl [] = Some b3
          /\ downloadAssertions snapInfo downloadDir
             = Written assertionsPath (b1 ++ b2 ++ b3)).
Proof.
  intros assertionsPath. split.
  - unfold Assertions.downloadAssertions. fold assertionsPath.
    destruct (osCreate assertionsPath) as [[]|e0] eqn:Hc;
      [|split; [intros _; left; eauto | intros _; eauto]].
    destruct (storeAssertion "snap-declaration" _) as [snapDecl|e1] eqn:Hsd;
      [|split; [intros _; right; left; eauto | intros _; eauto]].
    destruct (signKeyOf snapDecl) as [signKey|] eqn:Hkey;
      [|split; [intros _; right; right; left; exists snapDecl;
                split; [reflexivity | now apply signKeyOf_None]
               | intros _; eauto]].
    destruct (storeAssertion "account-key" _) as [accountKey|e2] eqn:Hak;
      [|split; [intros _; do 3 right; left; exists snapDecl, signKey, e2;
                repeat split; assumption
               | intros _; eauto]].
    destruct (storeAssertion "account" _) as [account|e3] eqn:Hacc;
      [|split; [intros _; do 4 right; left; eauto | intros _; eauto]].
    destruct (hex_DecodeString _) as [sha|] eqn:Hsha;
      [|split; [intros _; do 5 right; reflexivity | intros _; eauto]].
    split.
    + intros [msg Hmsg]. exfalso.
      repeat match type of Hmsg with
             | context [match ?x with _ => _ end] => destruct x
             end; discriminate.
    + intros [[e H]|[[e H]|[(sd & [= <-] & H)|[(sd & k & e & [= <-] & Hk & H)
                |[[e H]|H]]]]]; try discriminate.
      * apply signKeyOf_None in H. congruence.
      * rewrite Hkey in Hk. injection Hk as <-. congruence.
  - intros snapDecl signKey accountKey account sha err
           Hc Hsd Hkey Hak Hacc Hsha Hsr.
    destruct (writeAssertion_other_returns yamlEncode fmtValue time_Parse "account-key" accountKey []
                eq_refl) as (b1 & H1 & _).
    destruct (writeAssertion_other_returns yamlEncode fmtValue time_Parse "account" account b1 eq_refl)
      as (b2 & H2 & H2').
    destruct (writeAssertion_other_returns yamlEncode fmtValue time_Parse "snap-declaration" snapDecl
                (b1 ++ b2) eq_refl) as (b3 & H3 & H3').
    exists b1, b2, b3. repeat split; try assumption.
    unfold Assertions.downloadAssertions. fold assertionsPath.
    rewrite Hc, Hsd, Hkey, Hak, Hacc, Hsha, Hsr, H1, H2', H3'.
    now rewrite <- app_assoc.
Qed.

End DownloadFacts.

(** ** The assertion writer on the sample store *)

Section AssertionsSamples.
Import GoStrings GoEncoding Assertions Samples.


(** C4, as stated, fails: with a snap-declaration that has no
    [sign-key-sha3-384] header, [downloadAssertions] returns an error
    although the file is created, the snap-declaration, every account-key
    and the account are fetched, and the digest decodes. *)
Lemma downloadAssertions_error_counterexample :
  helloRun snapDeclNoKey accountA (Ok snapRevNew)
  = Failed "snap-declaration assertion missing 'sign-key-sha3-384' header for snap hello"
  /\ osCreate helloPath = Ok tt
  /\ assertionStore snapDeclNoKey accountA (Ok snapRevNew)
                    "snap-declaration" ["16"; "idH"] = Ok snapDeclNoKey
  /\ (forall key,
        assertionStore snapDeclNoKey accountA (Ok snapRevNew)
                       "account-key" key = Ok accountKeyA)
  /\ assertionStore snapDeclNoKey accountA (Ok snapRevNew)
                    "account" ["pubH"] = Ok accountA
  /\ hex_DecodeString (Sha3_384 helloInfo) <> None.
Proof.
  split; [vm_compute; reflexivity|].
  repeat split; try reflexivity. discriminate.
Qed.

Lemma downloadAssertions_error_iff_witness :
  exists b1 b2 b3,
    helloRun snapDeclA accountA (Err "not found")
    = Written helloPath (b1 ++ b2 ++ b3).
Proof.
  destruct (proj2 (downloadAssertions_error_iff
                     yamlEncode fmtValue time_Parse
                     (assertionStore snapDeclA accountA (Err "not found"))
                     osCreate helloInfo "/seed/assertions")
                  snapDeclA "KEY" accountKeyA accountA
                  (String (ascii_of_nat 0)
                     (String (ascii_of_nat 255)
                        (String (ascii_of_nat 16) EmptyString)))
                  "not found"
                  eq_refl eq_refl ltac:(vm_compute; reflexivity)
                  eq_refl eq_refl ltac:(vm_compute; reflexivity) eq_refl)
    as (b1 & b2 & b3 & _ & _ & _ & Hrun).
  exists b1, b2, b3. exact Hrun.
Defined.

Lemma canonical_account_not_written_witness :
  writeAssertion yamlEncode fmtValue time_Parse "account" canonicalAccountA []
  = Some [].
Proof.
  exact (proj1 (canonical_account_not_written
                  yamlEncode fmtValue time_Parse
                  (assertionStore snapDeclA canonicalAccountA (Ok snapRevNew))
                  osCreate canonicalAccountA
                  ltac:(vm_compute; reflexivity))
               []).
Defined.

(** C6, as stated, fails: the timestamp of this snap-revision does not
    parse, so it parses to no time at or before 2023-12-09T00:00:00Z, and
    still the [provenance] header, present and not empty, is left out of
    what [writeAssertion] writes. *)
Lemma provenance_unparsable_counterexample :
  Headers snapRevBadTime !! "timestamp"
  = Some (HString "2024-05-01 10:00:00")
  /\ time_Parse "2024-05-01 10:00:00" = None
  /\ Headers snapRevBadTime !! "provenance" = Some (HString "global-upload")
  /\ exists block,
       writeAssertion yamlEncode fmtValue time_Parse "snap-revision"
                      snapRevBadTime []
       = Some block
       /\ headerKeys block
          = [ "type"; "authority-id"; "snap-sha3-384"; "developer-id";
              "snap-id"; "snap-revision"; "snap-size"; "timestamp";
              "sign-key-sha3-384" ].
Proof.
  split; [vm_compute; reflexivity|].
  split; [vm_compute; reflexivity|].
  split; [vm_compute; reflexivity|].
  eexists. split; vm_compute; reflexivity.
Qed.

Lemma provenance_written_by_timestamp_witness :
  (exists block,
      writeAssertion yamlEncode fmtValue time_Parse "snap-revision"
                     snapRevNew []
      = Some ([] ++ block)
      /\ In (WHeader "provenance" ("provenance: global-upload" +:+ LF)) block)
  /\ (exists block,
         writeAssertion yamlEncode fmtValue time_Parse "snap-revision"
                        snapRevJustAfter []
         = Some ([] ++ block)
         /\ In "provenance" (headerKeys block))
  /\ (exists block,
         writeAssertion yamlEncode fmtValue time_Parse "snap-revision"
                        snapRevAtThreshold []
         = Some ([] ++ block)
         /\ ~ In "provenance" (headerKeys block))
  /\ (exists block,
         writeAssertion yamlEncode fmtValue time_Parse "snap-revision"
                        snapRevOld []
         = Some ([] ++ block)
         /\ ~ In "provenance" (headerKeys block)).
Proof.
  pose proof (fun assertion =>
                proj2 (provenance_written_by_timestamp
                         yamlEncode fmtValue time_Parse assertion []))
    as Hwritten.
  split; [|split; [|split]].
  - destruct (Hwritten snapRevNew _ ltac:(vm_compute; reflexivity))
      as (block & Hfile & Hiff & Hline).
    exists block. split; [now rewrite <- Hfile|].
    apply Hline; [vm_compute; reflexivity|].
    apply Hiff. split; [vm_compute; reflexivity|].
    intros timestamp Hts. vm_compute in Hts. injection Hts as <-.
    exists (1714557600 * 1000000000).
    split; [vm_compute; reflexivity | lia].
  - destruct (Hwritten snapRevJustAfter _ ltac:(vm_compute; reflexivity))
      as (block & Hfile & Hiff & _).
    exists block. split; [now rewrite <- Hfile|].
    apply Hiff. split; [vm_compute; reflexivity|].
    intros timestamp Hts. vm_compute in Hts. injection Hts as <-.
    exists (1702080001 * 1000000000).
    split; [vm_compute; reflexivity | lia].
  - destruct (Hwritten snapRevAtThreshold _ ltac:(vm_compute; reflexivity))
      as (block & Hfile & Hiff & _).
    exists block. split; [now rewrite <- Hfile|].
    intros Hin. apply Hiff in Hin as [_ Hafter].
    destruct (Hafter "2023-12-09T00:00:00Z" ltac:(vm_compute; reflexivity))
      as (t & Hparse & Hlt).
    vm_compute in Hparse. injection Hparse as <-. lia.
  - destruct (Hwritten snapRevOld _ ltac:(vm_compute; reflexivity))
      as (block & Hfile & Hiff & _).
    exists block. split; [now rewrite <- Hfile|].
    intros Hin. apply Hiff in Hin as [_ Hafter].
    destruct (Hafter "2020-01-01T00:00:00Z" ltac:(vm_compute; reflexivity))
      as (t & Hparse & Hlt).
    vm_compute in Hparse. injection Hparse as <-. lia.
Defined.

End AssertionsSamples.

(** ** The dependency resolver *)

Section ResolverFacts.
Import GoStrings Utils Resolver.

Variable storeSnapAction :
  list CurrentSnap -> list SnapAction -> result (list SnapActionResult).
Variable readDir : string -> result (list string).
Variable scanLines : string -> result (list string).
Variable missingProviders : Info -> list string.
Variables snapsDir assertionsDir : string.

#[local] Abbreviation fetchOrRefreshSnapInfo :=
  (fetchOrRefreshSnapInfo storeSnapAction).
#[local] Abbreviation fetchWithFallback := (fetchWithFallback storeSnapAction).
#[local] Abbreviation findPreviousSnap :=
  (findPreviousSnap readDir scanLines snapsDir assertionsDir).
#[local] Abbreviation collectSnapDependencies :=
  (collectSnapDependencies storeSnapAction readDir scanLines missingProviders
                           snapsDir assertionsDir).

Lemma Contains_append (p e sub : string) :
  Contains e sub = true -> Contains (p +:+ e) sub = true.
Proof.
  intros H. induction p as [|c p IH]; [exact H|].
  rewrite append_cons.
  change (Contains (String c (p +:+ e)) sub)
    with (if String.prefix sub (String c (p +:+ e)) then true
          else Contains (p +:+ e) sub).
  rewrite IH. now destruct (String.prefix _ _).
Qed.

(** How an error of the store reaches [collectSnapDependencies]: the
    "no updates" error of a refresh as it is, every other one behind the
    prefix [snap action failed for <name>: ], which keeps the substrings
    of the store's message. *)
Lemma fetchOrRefreshSnapInfo_store_error
      (snapName channel : string) (currentSnap : option CurrentSnap)
      (include : list CurrentSnap) (actions : list SnapAction) (err : string) :
  (include, actions)
  = match currentSnap with
    | Some cs => ([cs], [mkSnapAction "refresh" (SnapID cs) snapName channel])
    | None => ([], [mkSnapAction "install" EmptyString snapName channel])
    end ->
  storeSnapAction include actions = Err err ->
  exists err',
    fetchOrRefreshSnapInfo snapName currentSnap channel = Err err'
    /\ (Contains err noUpdateMsg = true -> currentSnap <> None -> err' = err)
    /\ (forall sub, Contains err sub = true -> Contains err' sub = true).
Proof.
  intros Hcall Hstore. unfold Resolver.fetchOrRefreshSnapInfo.
  destruct currentSnap as [cs|]; injection Hcall as -> ->; rewrite Hstore.
  - destruct (Contains err noUpdateMsg) eqn:Hno; simpl.
    + exists err. repeat split; auto.
    + eexists. split; [reflexivity|]. split; [discriminate|].
      intros sub Hsub. do 3 apply Contains_append; assumption.
  - rewrite andb_false_r. eexists. split; [reflexivity|].
    split; [intros _ H; now contradiction H|].
    intros sub Hsub. do 3 apply Contains_append; assumption.
Qed.

(** C3: the recovery of [collectSnapDependencies] from the errors of
    [fetchOrRefreshSnapInfo], the tests being made in the order of the
    code.  With no valid previous snap the first query is an install on
    [channel]: an error that holds "no snap revision available as
    specified" is answered by an install on the fallback channel, any
    other error is returned.  With a valid previous snap the first query is
    a refresh on [channel]: an error that holds "snap has no updates
    available" is answered by an install on [channel]; otherwise an error
    that holds "no snap revision available as specified" is answered by a
    refresh on the fallback channel, whose "no updates" error is
    answered by an install on the fallback channel and whose other errors
    are returned; any other error is returned.  An error left by the
    recovery is the failure of [collectSnapDependencies]. *)
Theorem fetchWithFallback_rules
        (snapName channel fallbackChannel : string)
        (oldSnap : option CurrentSnap) :
  let fetch := fetchOrRefreshSnapInfo snapName in
  let recovered := fetchWithFallback snapName oldSnap channel fallbackChannel in
  (noValidOld oldSnap = true ->
     (forall r, fetch None channel = Ok r -> recovered = Ok r)
     /\ (forall e, fetch None channel = Err e ->
                   Contains e channelMissMsg = true ->
                   recovered = fetch None fallbackChannel)
     /\ (forall e, fetch None channel = Err e ->
                   Contains e channelMissMsg = false ->
                   recovered = Err e))
  /\ (noValidOld oldSnap = false ->
      (forall r, fetch oldSnap channel = Ok r -> recovered = Ok r)
      /\ (forall e, fetch oldSnap channel = Err e ->
                    Contains e noUpdateMsg = true ->
                    recovered = fetch None channel)
      /\ (forall e, fetch oldSnap channel = Err e ->
                    Contains e noUpdateMsg = false ->
                    Contains e channelMissMsg = true ->
                    (forall r, fetch oldSnap fallbackChannel = Ok r ->
                               recovered = Ok r)
                    /\ (forall e2, fetch oldSnap fallbackChannel = Err e2 ->
                                   Contains e2 noUpdateMsg = true ->
                                   recovered = fetch None fallbackChannel)
                    /\ (forall e2, fetch oldSnap fallbackChannel = Err e2 ->
                                   Contains e2 noUpdateMsg = false ->
                                   recovered = Err e2))
      /\ (forall e, fetch oldSnap channel = Err e ->
                    Contains e noUpdateMsg = false ->
                    Contains e channelMissMsg = false ->
                    recovered = Err e))
  /\ (forall fuel g e,
        mapBool (processedSnaps g) snapName = false ->
        fetchWithFallback snapName (snd (findPreviousSnap snapName))
                          channel fallbackChannel = Err e ->
        collectSnapDependencies (S fuel) snapName channel fallbackChannel g
        = Fail e).
Proof.
  intros fetch recovered. subst fetch recovered.
  split; [|split]; [unfold Resolver.fetchWithFallback ..|].
  - intros ->. repeat split.
    + now intros r ->.
    + now intros e -> ->.
    + now intros e -> ->.
  - intros ->. repeat split.
    + now intros r ->.
    + now intros e -> ->.
    + intros r. intros. repeat match goal with H : _ = _ |- _ => rewrite H end.
      reflexivity.
    + intros e2. intros.
      repeat match goal with H : _ = _ |- _ => rewrite H end. reflexivity.
    + intros e2. intros.
      repeat match goal with H : _ = _ |- _ => rewrite H end. reflexivity.
    + now intros e -> -> ->.
  - intros fuel g e Hnew Herr. cbn [Resolver.collectSnapDependencies].
    rewrite Hnew.
    destruct (findPreviousSnap snapName) as [oldSnapPath old].
    cbn [snd] in Herr. now rewrite Herr.
Qed.

Lemma mapBool_insert (m : gmap string bool) (k n : string) :
  mapBool (<[k := true]> m) n = if decide (k = n) then true else mapBool m n.
Proof.
  unfold mapBool. destruct (decide (k = n)) as [->|Hne].
  - now rewrite lookup_insert_eq.
  - now rewrite lookup_insert_ne.
Qed.

Lemma mapBool_insert_mono (m : gmap string bool) (k n : string) :
  mapBool m n = true -> mapBool (<[k := true]> m) n = true.
Proof. intros H. rewrite mapBool_insert. now destruct (decide (k = n)). Qed.

Lemma grows_refl (g : Globals) : grows g g.
Proof. split; auto. Qed.

Lemma grows_trans (g1 g2 g3 : Globals) :
  grows g1 g2 -> grows g2 g3 -> grows g1 g3.
Proof. intros [H1 H2] [H3 H4]. split; auto. Qed.

Lemma freshItems_earlier (g g' : Globals) (l : list SnapDetails) :
  grows g g' -> freshItems g' l -> freshItems g l.
Proof.
  intros [Hp _] Hf d Hd. specialize (Hf d Hd).
  destruct (mapBool (processedSnaps g) (DetInstanceName d)) eqn:E;
    [|reflexivity].
  apply Hp in E. congruence.
Qed.

Lemma freshItems_app (g : Globals) (l1 l2 : list SnapDetails) :
  freshItems g l1 -> freshItems g l2 -> freshItems g (l1 ++ l2).
Proof. intros H1 H2 d Hd. apply in_app_or in Hd as [Hd|Hd]; auto. Qed.

(** The loop over the prerequisites appends to the list it is given work
    items for snaps that were not processed when it started. *)
Lemma collectPrereqs_appends
      (recurse : string -> Globals -> run (list SnapDetails))
      (Hrec : forall name g l g',
          recurse name g = Done l g' -> grows g g' /\ freshItems g l)
      (snapName : string) (prereqs : list string) :
  forall g acc l g',
    collectPrereqs recurse snapName prereqs g acc = Done l g' ->
    exists extra, l = acc ++ extra /\ grows g g' /\ freshItems g extra.
Proof.
  induction prereqs as [|p ps IH]; intros g acc l g' Hrun; simpl in Hrun.
  - injection Hrun as <- <-. exists []. rewrite app_nil_r.
    split; [reflexivity|]. split; [apply grows_refl | intros d []].
  - destruct (negb (mapBool (processedSnaps g) p)).
    + destruct (recurse p g) as [l1 g1| |] eqn:Hp; try discriminate.
      apply Hrec in Hp as [Hg1 Hf1].
      apply IH in Hrun as (extra & -> & Hg2 & Hf2).
      exists (l1 ++ extra). rewrite app_assoc. split; [reflexivity|].
      split; [eapply grows_trans; eassumption|].
      apply freshItems_app; [assumption|].
      eapply freshItems_earlier; eassumption.
    + now apply IH in Hrun.
Qed.

(** A run of the resolver only adds names to the two maps, and returns
    work items only for snaps it had not processed before. *)
Lemma collectSnapDependencies_grows (fuel : nat) :
  forall snapName channel fallbackChannel g l g',
    collectSnapDependencies fuel snapName channel fallbackChannel g
    = Done l g' ->
    grows g g' /\ freshItems g l.
Proof.
  induction fuel as [|fuel IH];
    intros snapName channel fallbackChannel g l g' Hrun; [discriminate|].
  cbn [Resolver.collectSnapDependencies] in Hrun.
  destruct (mapBool (processedSnaps g) snapName) eqn:Hnew.
  { injection Hrun as <- <-. split; [apply grows_refl | intros d []]. }
  destruct (findPreviousSnap snapName) as [oldSnapPath oldSnap].
  destruct (fetchWithFallback _ _ _ _) as [result|]; [|discriminate].
  destruct (ResInfo result) as [info|]; [|discriminate].
  destruct (_ || _); [discriminate|].
  destruct (isSnapInCurrentSnaps _ _) as [inCurrent oldRevision].
  set (newSnap := mkCurrentSnap snapName _ _ _) in Hrun.
  set (current := _ ++ [newSnap]) in Hrun.
  set (start :=
         if needsUpdate oldSnapPath oldSnap info
         then ([mkSnapDetails snapName channel newSnap result], requiredSnaps g)
         else ([], <[snapName := true]> (requiredSnaps g))) in Hrun.
  assert (Hstart : freshItems g (fst start)
                   /\ forall n, mapBool (requiredSnaps g) n = true ->
                                mapBool (snd start) n = true).
  { subst start. destruct (needsUpdate _ _ _); simpl; split; auto.
    - intros d [<-|[]]. exact Hnew.
    - intros d [].
    - intros n. apply mapBool_insert_mono. }
  destruct start as [snapDetailsList required]. simpl in Hstart.
  destruct Hstart as [Hfresh Hreq].
  set (g0 := mkGlobals current required _) in Hrun.
  assert (Hg0 : grows g g0).
  { split; simpl; [intros n; apply mapBool_insert_mono | exact Hreq]. }
  destruct (collectPrereqs _ _ _ _ _) as [l1 g1| |] eqn:Hpre;
    try discriminate.
  apply collectPrereqs_appends in Hpre as (extra & -> & Hg1 & Hf1);
    [|intros; eapply IH; eassumption].
  assert (Hl1 : freshItems g (snapDetailsList ++ extra)).
  { apply freshItems_app; [assumption|].
    eapply freshItems_earlier; eassumption. }
  destruct (_ && _).
  - destruct (collectSnapDependencies fuel (Base info) _ _ g1)
      as [baseDetails g2| |] eqn:Hbase; try discriminate.
    injection Hrun as <- <-. apply IH in Hbase as [Hg2 Hf2].
    split; [eauto using grows_trans|].
    apply freshItems_app; [assumption|].
    eapply freshItems_earlier; [|eassumption]. eauto using grows_trans.
  - injection Hrun as <- <-. split; [eauto using grows_trans | assumption].
Qed.

Lemma filepath_Join_nonempty (dir name : string) :
  filepath_Join dir name <> EmptyString.
Proof. unfold filepath_Join. destruct dir; discriminate. Qed.

(** What the scan of [findPreviousSnap] holds after the entries [seen]: no
    path while no entry is a file of the snap, and afterwards the greatest
    revision among the files of the snap seen so far. *)
Lemma scanFile_invariant (downloadDir assertDir snapName : string)
      (files seen : list string) (acc : Z * string * CurrentSnap) :
  let holds (seen : list string) (acc : Z * string * CurrentSnap) :=
    let '(latest, path, cs) := acc in
    (latest = 0 /\ path = EmptyString
     /\ forall f, In f seen -> candidateRevision snapName f = None)
    \/ (0 < latest /\ path <> EmptyString /\ N (Rev cs) = latest
        /\ (exists f, In f seen /\ candidateRevision snapName f = Some latest)
        /\ forall f r, In f seen -> candidateRevision snapName f = Some r ->
                       r <= latest) in
  holds seen acc ->
  holds (seen ++ files)
        (fold_left (scanFile scanLines downloadDir assertDir snapName)
                   files acc).
Proof.
  intros holds. revert seen acc.
  induction files as [|file files IH]; intros seen acc Hacc.
  - now rewrite app_nil_r.
  - replace (seen ++ file :: files) with ((seen ++ [file]) ++ files)
      by now rewrite <- app_assoc.
    simpl fold_left. apply IH. clear IH.
    destruct acc as [[latest path] cs]. unfold holds in *.
    unfold scanFile.
    pose proof (eq_refl (candidateRevision snapName file)) as Hcand.
    unfold candidateRevision at 2 in Hcand.
    destruct (HasPrefix file (snapName +:+ "_") && HasSuffix file ".snap").
    2:{ destruct Hacc as [(H1 & H2 & H3)|(H1 & H2 & H3 & (f & Hf & Hc) & H5)].
        - left. repeat split; try assumption.
          intros f Hf. apply in_app_or in Hf as [Hf|[<-|[]]]; auto.
        - right. repeat split; try assumption.
          + exists f. split; [apply in_or_app; now left | assumption].
          + intros f' r Hf'. apply in_app_or in Hf' as [Hf'|[<-|[]]];
              [now apply H5 | congruence]. }
    cbv zeta in Hcand.
    destruct (String.eqb (extractRevisionFromFile file) EmptyString).
    { destruct Hacc as [(H1 & H2 & H3)|(H1 & H2 & H3 & (f & Hf & Hc) & H5)].
      - left. repeat split; try assumption.
        intros f Hf. apply in_app_or in Hf as [Hf|[<-|[]]]; auto.
      - right. repeat split; try assumption.
        + exists f. split; [apply in_or_app; now left | assumption].
        + intros f' r Hf'. apply in_app_or in Hf' as [Hf'|[<-|[]]];
            [now apply H5 | congruence]. }
    destruct (Atoi (extractRevisionFromFile file)) as [revision|].
    2:{ destruct Hacc as [(H1 & H2 & H3)|(H1 & H2 & H3 & (f & Hf & Hc) & H5)].
        - left. repeat split; try assumption.
          intros f Hf. apply in_app_or in Hf as [Hf|[<-|[]]]; auto.
        - right. repeat split; try assumption.
          + exists f. split; [apply in_or_app; now left | assumption].
          + intros f' r Hf'. apply in_app_or in Hf' as [Hf'|[<-|[]]];
              [now apply H5 | congruence]. }
    destruct (Z.ltb_spec latest revision) as [Hlt|Hge].
    + right.
      assert (Hpos : 0 < revision)
        by (destruct Hacc as [(-> & _)|(H1 & _)]; lia).
      rewrite (proj2 (Z.ltb_lt 0 revision) Hpos) in Hcand.
      split; [exact Hpos|]. split; [apply filepath_Join_nonempty|].
      split; [reflexivity|]. split.
      * exists file. split; [apply in_or_app; right; now left | assumption].
      * intros f' r Hf' Hr. apply in_app_or in Hf' as [Hf'|[<-|[]]].
        -- destruct Hacc as [(_ & _ & H3)|(_ & _ & _ & _ & H5)].
           ++ rewrite (H3 _ Hf') in Hr. discriminate.
           ++ specialize (H5 _ _ Hf' Hr). lia.
        -- rewrite Hr in Hcand. injection Hcand as ->. lia.
    + destruct Hacc as [(H1 & H2 & H3)|(H1 & H2 & H3 & (f & Hf & Hc) & H5)].
      * left. repeat split; try assumption.
        intros f Hf. apply in_app_or in Hf as [Hf|[<-|[]]]; auto.
        rewrite Hcand. destruct (Z.ltb_spec 0 revision); [lia | reflexivity].
      * right. repeat split; try assumption.
        -- exists f. split; [apply in_or_app; now left | assumption].
        -- intros f' r Hf' Hr. apply in_app_or in Hf' as [Hf'|[<-|[]]];
             [now apply (H5 f') |].
           rewrite Hr in Hcand.
           destruct (0 <? revision); [|discriminate].
           injection Hcand as ->. lia.
Qed.

(** [findPreviousSnap] returns no path exactly when the directory cannot
    be read or holds no file of the snap; otherwise it returns a path and
    the greatest revision among the files of the snap. *)
Lemma findPreviousSnap_found (snapName : string) :
  (fst (findPreviousSnap snapName) = EmptyString
   <-> forall files, readDir snapsDir = Ok files ->
                     forall f, In f files ->
                               candidateRevision snapName f = None)
  /\ (fst (findPreviousSnap snapName) = EmptyString ->
      snd (findPreviousSnap snapName) = None)
  /\ (fst (findPreviousSnap snapName) <> EmptyString ->
      exists files old f,
        readDir snapsDir = Ok files
        /\ snd (findPreviousSnap snapName) = Some old
        /\ In f files
        /\ candidateRevision snapName f = Some (N (Rev old))
        /\ forall f' r, In f' files ->
                        candidateRevision snapName f' = Some r ->
                        r <= N (Rev old)).
Proof.
  unfold Resolver.findPreviousSnap.
  destruct (readDir snapsDir) as [files|err].
  2:{ simpl. repeat split; try discriminate; try congruence;
        try (intros H; now contradiction H). }
  pose proof (scanFile_invariant snapsDir assertionsDir snapName files []
                (0, EmptyString, mkCurrentSnap EmptyString EmptyString
                                               (mkRevision 0) EmptyString))
    as Hinv.
  cbv zeta in Hinv. simpl app in Hinv.
  destruct (fold_left _ files _) as [[latest path] cs].
  specialize (Hinv ltac:(left; repeat split; intros ? [])).
  destruct Hinv as [(H1 & -> & H3)|(H1 & H2 & H3 & (f & Hf & Hc) & H5)].
  - simpl. repeat split; try congruence;
      try (intros H; now contradiction H).
    intros _ files' [= <-]. exact H3.
  - destruct (String.eqb_spec path EmptyString) as [->|Hne];
      [now contradiction H2|].
    simpl. repeat split; try congruence.
    + intros H. specialize (H files eq_refl f Hf). congruence.
    + intros _. exists files, cs, f. subst latest. repeat split; assumption.
Qed.

Lemma needsUpdate_iff (oldSnapPath : string) (oldSnap : option CurrentSnap)
      (info : Info) :
  needsUpdate oldSnapPath oldSnap info = true
  <-> oldSnapPath = EmptyString
      \/ exists old, oldSnap = Some old /\ N (Rev old) < N (InfoRevision info).
Proof.
  unfold needsUpdate. rewrite orb_true_iff, String.eqb_eq.
  split; (intros [H|H]; [now left | right]).
  - destruct oldSnap as [old|]; [|discriminate].
    exists old. split; [reflexivity | now apply Z.ltb_lt].
  - destruct H as (old & -> & H). now apply Z.ltb_lt.
Qed.

(** One call of the resolver on a snap it has not processed: the work
    item of the snap itself comes first, if there is one, and everything
    after it was collected in states that hold the snap as processed. *)
Lemma collectSnapDependencies_step
      (fuel : nat) (snapName channel fallbackChannel : string)
      (g : Globals) (l : list SnapDetails) (g' : Globals) :
  mapBool (processedSnaps g) snapName = false ->
  collectSnapDependencies fuel snapName channel fallbackChannel g
  = Done l g' ->
  exists result info rest g0,
    fetchWithFallback snapName (snd (findPreviousSnap snapName))
                      channel fallbackChannel = Ok result
    /\ ResInfo result = Some info
    /\ l = (if needsUpdate (fst (findPreviousSnap snapName))
                           (snd (findPreviousSnap snapName)) info
            then [mkSnapDetails snapName channel
                    (mkCurrentSnap snapName (InfoSnapID info)
                       (mkRevision (N (InfoRevision info))) EmptyString)
                    result]
            else []) ++ rest
    /\ freshItems g0 rest
    /\ mapBool (processedSnaps g0) snapName = true
    /\ (needsUpdate (fst (findPreviousSnap snapName))
                    (snd (findPreviousSnap snapName)) info = false ->
        mapBool (requiredSnaps g0) snapName = true)
    /\ grows g0 g'.
Proof.
  intros Hnew Hrun. destruct fuel as [|fuel]; [discriminate|].
  cbn [Resolver.collectSnapDependencies] in Hrun. rewrite Hnew in Hrun.
  destruct (findPreviousSnap snapName) as [oldSnapPath oldSnap].
  cbn [fst snd].
  destruct (fetchWithFallback _ _ _ _) as [result|]; [|discriminate].
  destruct (ResInfo result) as [info|] eqn:Hinfo; [|discriminate].
  destruct (_ || _); [discriminate|].
  destruct (isSnapInCurrentSnaps _ _) as [inCurrent oldRevision].
  set (newSnap := mkCurrentSnap snapName _ _ _) in *.
  set (current := _ ++ [newSnap]) in Hrun.
  exists result, info.
  assert (Hdone :
    forall start required l1 g1,
      (needsUpdate oldSnapPath oldSnap info = false ->
       mapBool required snapName = true) ->
      collectPrereqs
        (fun name g =>
           collectSnapDependencies fuel name channel fallbackChannel g)
        snapName (missingProviders info)
        (mkGlobals current required
                   (<[snapName := true]> (processedSnaps g)))
        start = Done l1 g1 ->
      (if negb (String.eqb (Base info) EmptyString)
          && negb (mapBool (processedSnaps g1) (Base info))
       then match collectSnapDependencies fuel (Base info) channel
                                          fallbackChannel g1 with
            | Done baseDetails g => Done (l1 ++ baseDetails) g
            | Fail err =>
                Fail ("failed to collect dependencies for base snap "
                      +:+ Base info +:+ " for snap " +:+ snapName
                      +:+ ": " +:+ err)
            | OutOfFuel => OutOfFuel
            end
       else Done l1 g1) = Done l g' ->
      exists rest g0,
        l = start ++ rest
        /\ freshItems g0 rest
        /\ mapBool (processedSnaps g0) snapName = true
        /\ (needsUpdate oldSnapPath oldSnap info = false ->
            mapBool (requiredSnaps g0) snapName = true)
        /\ grows g0 g').
  { intros start required l1 g1 Hreq Hpre Hbase.
    set (g0 := mkGlobals current required _) in Hpre.
    apply collectPrereqs_appends in Hpre as (extra & -> & Hg1 & Hf1);
      [|intros; eapply collectSnapDependencies_grows; eassumption].
    assert (Hp0 : mapBool (processedSnaps g0) snapName = true).
    { simpl. rewrite mapBool_insert. now destruct (decide _). }
    destruct (_ && _).
    - destruct (collectSnapDependencies fuel (Base info) _ _ g1)
        as [baseDetails g2| |] eqn:Hb; try discriminate.
      injection Hbase as <- <-.
      apply collectSnapDependencies_grows in Hb as [Hg2 Hf2].
      exists (extra ++ baseDetails), g0.
      split; [now rewrite app_assoc|].
      split; [apply freshItems_app;
              [assumption | eapply freshItems_earlier; eassumption]|].
      split; [exact Hp0|]. split; [exact Hreq|].
      eapply grows_trans; eassumption.
    - injection Hbase as <- <-. exists extra, g0.
      split; [reflexivity|]. split; [exact Hf1|].
      split; [exact Hp0|]. split; [exact Hreq | exact Hg1]. }
  destruct (needsUpdate oldSnapPath oldSnap info) eqn:Hneeds;
    destruct (collectPrereqs _ _ _ _ _) as [l1 g1| |] eqn:Hpre;
    try discriminate.
  - destruct (Hdone _ _ _ _ ltac:(discriminate) Hpre Hrun)
      as (rest & g0 & -> & H).
    exists rest, g0. split; [reflexivity|]. split; [exact Hinfo|].
    split; [reflexivity | exact H].
  - destruct (Hdone _ _ _ _
                ltac:(intros _; rewrite mapBool_insert;
                      now destruct (decide _)) Hpre Hrun)
      as (rest & g0 & -> & H).
    exists rest, g0. split; [reflexivity|]. split; [exact Hinfo|].
    split; [reflexivity | exact H].
Qed.

(** C2: for a snap the resolver walks (one it had not processed, the walk
    of which returns), the returned list holds a work item for the snap if
    and only if [findPreviousSnap] found no file of the snap on disk or the
    revision of the file it found is less than the one the store returned;
    the item is then the first of the list and the only one for the snap.
    Otherwise the list holds no item for the snap, and [requiredSnaps]
    holds the snap's name with the value true. *)
Theorem collectSnapDependencies_work_item
        (fuel : nat) (snapName channel fallbackChannel : string)
        (g : Globals) (l : list SnapDetails) (g' : Globals)
        (Hnew : mapBool (processedSnaps g) snapName = false)
        (Hrun : collectSnapDependencies fuel snapName channel fallbackChannel g
                = Done l g') :
  let oldSnapPath := fst (findPreviousSnap snapName) in
  let oldSnap := snd (findPreviousSnap snapName) in
  exists result info,
    fetchWithFallback snapName oldSnap channel fallbackChannel = Ok result
    /\ ResInfo result = Some info
    /\ let wanted :=
         oldSnapPath = EmptyString
         \/ exists old,
              oldSnap = Some old /\ N (Rev old) < N (InfoRevision info) in
       ((exists d, In d l /\ DetInstanceName d = snapName) <-> wanted)
       /\ (wanted ->
           exists rest,
             l = mkSnapDetails snapName channel
                   (mkCurrentSnap snapName (InfoSnapID info)
                      (mkRevision (N (InfoRevision info))) EmptyString)
                   result :: rest
             /\ forall d, In d rest -> DetInstanceName d <> snapName)
       /\ (~ wanted ->
           (forall d, In d l -> DetInstanceName d <> snapName)
           /\ mapBool (requiredSnaps g') snapName = true).
Proof.
  intros oldSnapPath oldSnap.
  destruct (collectSnapDependencies_step _ _ _ _ _ _ _ Hnew Hrun)
    as (result & info & rest & g0 & Hfetch & Hinfo & -> & Hfresh & Hp0
        & Hr0 & Hg0).
  exists result, info. split; [exact Hfetch|]. split; [exact Hinfo|].
  fold oldSnapPath oldSnap in Hr0 |- *.
  assert (Hrest : forall d, In d rest -> DetInstanceName d <> snapName).
  { intros d Hd Heq. specialize (Hfresh d Hd). congruence. }
  intros wanted.
  pose proof (needsUpdate_iff oldSnapPath oldSnap info) as Hiff.
  fold wanted in Hiff.
  destruct (needsUpdate oldSnapPath oldSnap info).
  - assert (Hw : wanted) by now apply Hiff.
    split; [|split].
    + split; [intros _; exact Hw|]. intros _. eexists. split; [now left|].
      reflexivity.
    + intros _. exists rest. split; [reflexivity | exact Hrest].
    + intros Hn. contradiction.
  - assert (Hw : ~ wanted) by (intros H; apply Hiff in H; discriminate).
    split; [|split].
    + split; [|intros H; contradiction].
      intros (d & Hd & Heq). exfalso. exact (Hrest d Hd Heq).
    + intros H. contradiction.
    + intros _. split; [exact Hrest|]. apply Hg0. now apply Hr0.
Qed.

End ResolverFacts.

(** ** The resolver on the sample store *)

Section ResolverSamples.
Import GoStrings Utils Resolver Samples.

Lemma fetchWithFallback_rules_witness :
  fetchWithFallback storeSnapAction "hello" (Some oldHello)
                    defaultChannel fallbackChannel
  = Ok helloResult.
Proof.
  pose proof (fetchWithFallback_rules
                storeSnapAction readDir scanLines missingProviders
                "/seed/snaps" "/seed/assertions"
                "hello" defaultChannel fallbackChannel (Some oldHello)) as H.
  cbv zeta in H. destruct H as (_ & Hrefresh & _).
  destruct (Hrefresh eq_refl) as (_ & _ & Hmiss & _).
  destruct (Hmiss
              "snap action failed for hello: cannot refresh snap hello: no snap revision available as specified"
              ltac:(vm_compute; reflexivity) ltac:(vm_compute; reflexivity)
              ltac:(vm_compute; reflexivity)) as (Hok & _).
  exact (Hok helloResult ltac:(vm_compute; reflexivity)).
Defined.

Lemma collectSnapDependencies_work_item_witness :
  exists d rest,
    itemsOf resolveHello = d :: rest
    /\ DetInstanceName d = "hello"
    /\ forall d', In d' rest -> DetInstanceName d' <> "hello".
Proof.
  pose proof (collectSnapDependencies_work_item
                storeSnapAction readDir scanLines missingProviders
                "/seed/snaps" "/seed/assertions"
                3 "hello" defaultChannel fallbackChannel emptyGlobals
                (itemsOf resolveHello) (globalsOf resolveHello)
                ltac:(vm_compute; reflexivity)
                ltac:(vm_compute; reflexivity)) as H.
  cbv zeta in H.
  destruct H as (result & info & Hfetch & Hinfo & _ & Hitem & _).
  vm_compute in Hfetch. injection Hfetch as <-.
  vm_compute in Hinfo. injection Hinfo as <-.
  destruct Hitem as (rest & Hl & Hrest).
  { right. exists oldHello. split; vm_compute; reflexivity. }
  eexists. exists rest. split; [exact Hl|]. split; [reflexivity | exact Hrest].
Defined.

End ResolverSamples.

(** ** progress.go *)

Section ProgressFacts.
Import Progress Samples.

(** The percentage of a tracker step is capped at 99. *)
Lemma calculatePercentage_le_99 (pt : ProgressTracker) :
  calculatePercentage pt <= 99.
Proof.
  unfold calculatePercentage.
  destruct (totalWeight pt =? 0); [lia|].
  destruct (Z.ltb_spec 99 (int_of_float
              (PrimFloat.mul
                 (PrimFloat.div (completedWeight pt)
                                (float_of_int (totalWeight pt)))
                 100%float))); lia.
Qed.

(** C9 fails on the code: [reportGlobalProgress] has no cap, and once more
    bytes are downloaded than [totalSnapSize] counts it prints more than
    100.  In the run where a delta of 1000 bytes is downloaded and then,
    the delta not applying, the whole snap of 5000 bytes, the reporter
    prints the percentage 490. *)
Lemma reportGlobalProgress_exceeds_100 :
  deltaThenFullDownload
  = [ (10, "Finished collecting snap info");
      (10, "Downloading snaps");
      (90, "Downloading delta for snap hello 2.10");
      (490, "Downloading snap hello 2.10") ]
  /\ exists percentage status,
       In (percentage, status) deltaThenFullDownload /\ 100 < percentage.
Proof.
  assert (H : deltaThenFullDownload
              = [ (10, "Finished collecting snap info");
                  (10, "Downloading snaps");
                  (90, "Downloading delta for snap hello 2.10");
                  (490, "Downloading snap hello 2.10") ])
    by (vm_compute; reflexivity).
  split; [exact H|].
  exists 490, "Downloading snap hello 2.10". rewrite H.
  split; [simpl; tauto | lia].
Qed.

End ProgressFacts.

(** * More properties of the code *)

(** ** The resolver: what a walk returns *)

Section ResolverResults.
Import GoStrings Utils Resolver ResolverSpec.

Variable storeSnapAction :
  list CurrentSnap -> list SnapAction -> result (list SnapActionResult).
Variable readDir : string -> result (list string).
Variable scanLines : string -> result (list string).
Variable missingProviders : Info -> list string.
Variables snapsDir assertionsDir : string.

#[local] Abbreviation fetchOrRefreshSnapInfo :=
  (fetchOrRefreshSnapInfo storeSnapAction).
#[local] Abbreviation fetchWithFallback := (fetchWithFallback storeSnapAction).
#[local] Abbreviation findPreviousSnap :=
  (findPreviousSnap readDir scanLines snapsDir assertionsDir).
#[local] Abbreviation collectSnapDependencies :=
  (collectSnapDependencies storeSnapAction readDir scanLines missingProviders
                           snapsDir assertionsDir).

Lemma fetchOrRefreshSnapInfo_valid
      (snapName channel : string) (currentSnap : option CurrentSnap)
      (result : SnapActionResult) :
  fetchOrRefreshSnapInfo snapName currentSnap channel = Ok result ->
  exists info,
    ResInfo result = Some info
    /\ InfoSnapID info <> EmptyString /\ N (InfoRevision info) <> 0.
Proof.
  unfold Resolver.fetchOrRefreshSnapInfo.
  destruct currentSnap as [cs|]; simpl.
  all: destruct (storeSnapAction _ _) as [[|r rs]|err];
    try discriminate; try (destruct (_ && _); discriminate).
  all: destruct (ResInfo r) as [info|] eqn:Hinfo; try discriminate.
  all: destruct (String.eqb_spec (InfoSnapID info) EmptyString) as [|Hid];
    try discriminate.
  all: destruct (Z.eqb_spec (N (InfoRevision info)) 0) as [|Hrev];
    try discriminate.
  all: intros [= <-]; exists info; auto.
Qed.

Lemma fetchWithFallback_valid
      (snapName channel fallbackChannel : string)
      (oldSnap : option CurrentSnap) (result : SnapActionResult) :
  fetchWithFallback snapName oldSnap channel fallbackChannel = Ok result ->
  exists info,
    ResInfo result = Some info
    /\ InfoSnapID info <> EmptyString /\ N (InfoRevision info) <> 0.
Proof.
  intros Hfetch. unfold Resolver.fetchWithFallback in Hfetch.
  repeat match type of Hfetch with
         | context [if ?b then _ else _] => destruct b
         | context [match fetchOrRefreshSnapInfo ?n ?c ?ch with _ => _ end] =>
             let E := fresh "E" in
             destruct (fetchOrRefreshSnapInfo n c ch) eqn:E
         end;
    try discriminate;
    try (injection Hfetch as <-);
    eauto using fetchOrRefreshSnapInfo_valid.
Qed.

(** X1: an answer that survives the error recovery of
    [collectSnapDependencies] carries a [snap.Info] with a snap id that is
    not empty and a revision that is not zero, [fetchOrRefreshSnapInfo]
    having checked both; the test that follows the recovery in
    [collectSnapDependencies] (its "invalid snap information returned"
    error) therefore never fires. *)
Theorem fetchWithFallback_valid_info
        (snapName channel fallbackChannel : string)
        (oldSnap : option CurrentSnap) (result : SnapActionResult)
        (Hfetch : fetchWithFallback snapName oldSnap channel fallbackChannel
                  = Ok result) :
  (exists info,
      ResInfo result = Some info
      /\ InfoSnapID info <> EmptyString /\ N (InfoRevision info) <> 0)
  /\ match ResInfo result with
     | Some info =>
         String.eqb (InfoSnapID info) EmptyString || (N (InfoRevision info) =? 0)
     | None => true
     end = false.
Proof.
  pose proof (fetchWithFallback_valid _ _ _ _ _ Hfetch) as H.
  split; [exact H|].
  destruct H as (info & -> & Hid & Hrev).
  apply orb_false_iff. split; [now apply String.eqb_neq | now apply Z.eqb_neq].
Qed.

Lemma itemsProcessed_later (g g' : Globals) (l : list SnapDetails) :
  grows g g' -> itemsProcessed g l -> itemsProcessed g' l.
Proof. intros [Hp _] H d Hd. apply Hp. now apply H. Qed.

Lemma names_disjoint (g : Globals) (l1 l2 : list SnapDetails) :
  itemsProcessed g l1 -> freshItems g l2 ->
  List.NoDup (map DetInstanceName l1) -> List.NoDup (map DetInstanceName l2) ->
  List.NoDup (map DetInstanceName (l1 ++ l2)).
Proof.
  intros H1 H2 N1 N2. rewrite map_app.
  apply List.NoDup_app; [exact N1 | exact N2 |].
  intros name Hin1 Hin2.
  apply in_map_iff in Hin1 as (d1 & <- & Hd1).
  apply in_map_iff in Hin2 as (d2 & Heq & Hd2).
  specialize (H1 d1 Hd1). specialize (H2 d2 Hd2). congruence.
Qed.

Lemma collectPrereqs_walked
      (recurse : string -> Globals -> run (list SnapDetails))
      (channel : string)
      (Hrec : forall name g l g',
          recurse name g = Done l g' -> walked channel g l g')
      (snapName : string) (prereqs : list string) :
  forall g acc l g',
    collectPrereqs recurse snapName prereqs g acc = Done l g' ->
    exists extra, l = acc ++ extra /\ walked channel g extra g'.
Proof.
  induction prereqs as [|p ps IH]; intros g acc l g' Hrun; simpl in Hrun.
  - injection Hrun as <- <-. exists []. rewrite app_nil_r.
    split; [reflexivity|].
    split; [apply grows_refl|]. split; [intros d []|].
    split; [intros d []|]. split; constructor.
  - destruct (negb (mapBool (processedSnaps g) p)).
    + destruct (recurse p g) as [l1 g1| |] eqn:Hp; try discriminate.
      apply Hrec in Hp as (Hg1 & Hf1 & Hd1 & Hn1 & Hw1).
      apply IH in Hrun as (extra & -> & Hg2 & Hf2 & Hd2 & Hn2 & Hw2).
      exists (l1 ++ extra). rewrite app_assoc. split; [reflexivity|].
      split; [eapply grows_trans; eassumption|].
      split; [apply freshItems_app;
              [assumption | eapply freshItems_earlier; eassumption]|].
      split.
      { intros d Hd. apply in_app_or in Hd as [Hd|Hd];
          [eapply itemsProcessed_later; eauto | auto]. }
      split; [eapply names_disjoint; eassumption|].
      apply Forall_app; now split.
    + now apply IH in Hrun.
Qed.

Lemma collectSnapDependencies_walked (fuel : nat) :
  forall snapName channel fallbackChannel g l g',
    collectSnapDependencies fuel snapName channel fallbackChannel g
    = Done l g' ->
    walked channel g l g'.
Proof.
  induction fuel as [|fuel IH];
    intros snapName channel fallbackChannel g l g' Hrun; [discriminate|].
  cbn [Resolver.collectSnapDependencies] in Hrun.
  destruct (mapBool (processedSnaps g) snapName) eqn:Hnew.
  { injection Hrun as <- <-.
    split; [apply grows_refl|]. split; [intros d []|].
    split; [intros d []|]. split; constructor. }
  destruct (findPreviousSnap snapName) as [oldSnapPath oldSnap].
  destruct (fetchWithFallback _ _ _ _) as [result|] eqn:Hfetch;
    [|discriminate].
  destruct (fetchWithFallback_valid _ _ _ _ _ Hfetch)
    as (info & Hinfo & Hid & Hrev).
  rewrite Hinfo in Hrun.
  destruct (_ || _); [discriminate|].
  destruct (isSnapInCurrentSnaps _ _) as [inCurrent oldRevision].
  set (newSnap := mkCurrentSnap snapName _ _ _) in Hrun.
  set (current := _ ++ [newSnap]) in Hrun.
  set (start :=
         if needsUpdate oldSnapPath oldSnap info
         then ([mkSnapDetails snapName channel newSnap result], requiredSnaps g)
         else ([], <[snapName := true]> (requiredSnaps g))) in Hrun.
  set (g0 := mkGlobals current (snd start)
                       (<[snapName := true]> (processedSnaps g))).
  assert (Hp0 : mapBool (processedSnaps g0) snapName = true).
  { simpl. rewrite mapBool_insert. now destruct (decide _). }
  assert (Hstart : walked channel g (fst start) g0).
  { subst g0 start. unfold walked.
    destruct (needsUpdate _ _ _); simpl.
    - split; [split; [intros n; apply mapBool_insert_mono | auto]|].
      split; [intros d [<-|[]]; exact Hnew|].
      split; [intros d [<-|[]]; exact Hp0|].
      split; [constructor; [intros H; destruct H | constructor]|].
      constructor; [|constructor]. exists info. repeat split; assumption.
    - split; [split; intros n; apply mapBool_insert_mono|].
      split; [intros d []|]. split; [intros d []|].
      split; constructor. }
  destruct start as [snapDetailsList required]. simpl in Hstart, g0.
  destruct Hstart as (Hg0 & Hf0 & Hd0 & Hn0 & Hw0).
  fold g0 in Hrun.
  destruct (collectPrereqs _ _ _ _ _) as [l1 g1| |] eqn:Hpre;
    try discriminate.
  apply (collectPrereqs_walked _ channel) in Hpre
    as (extra & -> & Hg1 & Hf1 & Hd1 & Hn1 & Hw1);
    [|intros; eapply IH; eassumption].
  assert (Hall : walked channel g (snapDetailsList ++ extra) g1).
  { split; [eapply grows_trans; eassumption|].
    split; [apply freshItems_app;
            [assumption | eapply freshItems_earlier; eassumption]|].
    split.
    { intros d Hd. apply in_app_or in Hd as [Hd|Hd];
        [eapply itemsProcessed_later; eauto | auto]. }
    split; [eapply names_disjoint; eassumption|].
    apply Forall_app; now split. }
  destruct (_ && _).
  - destruct (collectSnapDependencies fuel (Base info) _ _ g1)
      as [baseDetails g2| |] eqn:Hbase; try discriminate.
    injection Hrun as <- <-.
    apply IH in Hbase as (Hg2 & Hf2 & Hd2 & Hn2 & Hw2).
    destruct Hall as (Hga & Hfa & Hda & Hna & Hwa).
    split; [eapply grows_trans; eassumption|].
    split; [apply freshItems_app;
            [assumption | eapply freshItems_earlier; eassumption]|].
    split.
    { intros d Hd. apply in_app_or in Hd as [Hd|Hd];
        [eapply itemsProcessed_later; eauto | auto]. }
    split; [eapply names_disjoint; eassumption|].
    apply Forall_app; now split.
  - injection Hrun as <- <-. exact Hall.
Qed.


(** *** Termination *)

Lemma fetchOrRefreshSnapInfo_from_store
      (snapName channel : string) (currentSnap : option CurrentSnap)
      (result : SnapActionResult) :
  fetchOrRefreshSnapInfo snapName currentSnap channel = Ok result ->
  exists include actions rest,
    storeSnapAction include actions = Ok (result :: rest).
Proof.
  unfold Resolver.fetchOrRefreshSnapInfo.
  destruct currentSnap as [cs|]; simpl.
  all: destruct (storeSnapAction _ _) as [[|r rs]|err] eqn:Hstore;
    try discriminate; try (destruct (_ && _); discriminate).
  all: destruct (ResInfo r); try discriminate.
  all: destruct (_ || _); try discriminate.
  all: intros [= <-]; eauto.
Qed.

Lemma fetchWithFallback_from_store
      (snapName channel fallbackChannel : string)
      (oldSnap : option CurrentSnap) (result : SnapActionResult) :
  fetchWithFallback snapName oldSnap channel fallbackChannel = Ok result ->
  exists include actions rest,
    storeSnapAction include actions = Ok (result :: rest).
Proof.
  intros Hfetch. unfold Resolver.fetchWithFallback in Hfetch.
  repeat match type of Hfetch with
         | context [if ?b then _ else _] => destruct b
         | context [match fetchOrRefreshSnapInfo ?n ?c ?ch with _ => _ end] =>
             let E := fresh "E" in
             destruct (fetchOrRefreshSnapInfo n c ch) eqn:E
         end;
    try discriminate;
    try (injection Hfetch as <-);
    eauto using fetchOrRefreshSnapInfo_from_store.
Qed.

Lemma filter_length_mono {A : Type} (f f' : A -> bool) (l : list A) :
  (forall x, f' x = true -> f x = true) ->
  (length (List.filter f' l) <= length (List.filter f l))%nat.
Proof.
  intros Himp. induction l as [|x l IH]; simpl; [lia|].
  destruct (f' x) eqn:E'.
  - rewrite (Himp x E'). simpl. lia.
  - destruct (f x); simpl; lia.
Qed.

Lemma filter_length_drop {A : Type} (f f' : A -> bool) (l : list A) (a : A) :
  (forall x, f' x = true -> f x = true) ->
  In a l -> f a = true -> f' a = false ->
  (length (List.filter f' l) < length (List.filter f l))%nat.
Proof.
  intros Himp Hin Ha Ha'. induction l as [|x l IH]; [destruct Hin|].
  simpl. destruct Hin as [->|Hin].
  - rewrite Ha, Ha'. simpl.
    pose proof (filter_length_mono f f' l Himp). lia.
  - specialize (IH Hin). destruct (f' x) eqn:E'.
    + rewrite (Himp x E'). simpl. lia.
    + destruct (f x); simpl; lia.
Qed.

Lemma unprocessed_grows (universe : list string) (g g' : Globals) :
  grows g g' ->
  (length (unprocessed universe g') <= length (unprocessed universe g))%nat.
Proof.
  intros [Hp _]. apply filter_length_mono. intros x Hx.
  apply negb_true_iff in Hx. apply negb_true_iff.
  destruct (mapBool (processedSnaps g) x) eqn:E; [|reflexivity].
  apply Hp in E. congruence.
Qed.

Lemma unprocessed_marked (universe : list string) (g g0 : Globals)
      (snapName : string) :
  grows g g0 -> In snapName universe ->
  mapBool (processedSnaps g) snapName = false ->
  mapBool (processedSnaps g0) snapName = true ->
  (length (unprocessed universe g0) < length (unprocessed universe g))%nat.
Proof.
  intros [Hp _] Hin Hnew Hdone.
  apply (filter_length_drop _ _ _ snapName); try assumption.
  - intros x Hx. apply negb_true_iff in Hx. apply negb_true_iff.
    destruct (mapBool (processedSnaps g) x) eqn:E; [|reflexivity].
    apply Hp in E. congruence.
  - now rewrite Hnew.
  - now rewrite Hdone.
Qed.

Lemma collectPrereqs_returns
      (recurse : string -> Globals -> run (list SnapDetails))
      (universe : list string) (bound : nat)
      (Hgrows : forall name g l g',
          recurse name g = Done l g' -> grows g g')
      (Hret : forall name g,
          In name universe ->
          (length (unprocessed universe g) < bound)%nat ->
          recurse name g <> OutOfFuel)
      (snapName : string) (prereqs : list string) :
  (forall p, In p prereqs -> In p universe) ->
  forall g acc,
    (length (unprocessed universe g) < bound)%nat ->
    collectPrereqs recurse snapName prereqs g acc <> OutOfFuel.
Proof.
  induction prereqs as [|p ps IH]; intros Hin g acc Hlen; simpl;
    [discriminate|].
  destruct (negb (mapBool (processedSnaps g) p)).
  - destruct (recurse p g) as [l1 g1| |] eqn:Hp; [|discriminate|].
    + apply IH; [intros q Hq; apply Hin; now right|].
      apply Hgrows in Hp.
      pose proof (unprocessed_grows universe g g1 Hp). lia.
    + exfalso. eapply Hret; [| |exact Hp]; [apply Hin; now left | exact Hlen].
  - apply IH; [intros q Hq; apply Hin; now right | exact Hlen].
Qed.

Lemma collectPrereqs_more_fuel
      (recurse recurse' : string -> Globals -> run (list SnapDetails))
      (Hsame : forall name g,
          recurse name g <> OutOfFuel -> recurse' name g = recurse name g)
      (snapName : string) (prereqs : list string) :
  forall g acc,
    collectPrereqs recurse snapName prereqs g acc <> OutOfFuel ->
    collectPrereqs recurse' snapName prereqs g acc
    = collectPrereqs recurse snapName prereqs g acc.
Proof.
  induction prereqs as [|p ps IH]; intros g acc Hrun; simpl in *;
    [reflexivity|].
  destruct (negb (mapBool (processedSnaps g) p)); [|now apply IH].
  destruct (recurse p g) as [l1 g1| |] eqn:Hp.
  - rewrite Hsame, Hp by (rewrite Hp; discriminate). now apply IH.
  - rewrite Hsame, Hp by (rewrite Hp; discriminate). reflexivity.
  - now contradiction Hrun.
Qed.

(** More fuel does not change a result that is not [OutOfFuel]. *)
Lemma collectSnapDependencies_more_fuel (fuel : nat) :
  forall fuel' snapName channel fallbackChannel g,
    (fuel <= fuel')%nat ->
    collectSnapDependencies fuel snapName channel fallbackChannel g
    <> OutOfFuel ->
    collectSnapDependencies fuel' snapName channel fallbackChannel g
    = collectSnapDependencies fuel snapName channel fallbackChannel g.
Proof.
  induction fuel as [|fuel IH];
    intros fuel' snapName channel fallbackChannel g Hle Hrun;
    [now contradiction Hrun|].
  destruct fuel' as [|fuel']; [lia|].
  assert (Hle' : (fuel <= fuel')%nat) by lia.
  cbn [Resolver.collectSnapDependencies] in Hrun |- *.
  destruct (mapBool (processedSnaps g) snapName); [reflexivity|].
  destruct (findPreviousSnap snapName) as [oldSnapPath oldSnap].
  destruct (fetchWithFallback _ _ _ _) as [result|]; [|reflexivity].
  destruct (ResInfo result) as [info|]; [|reflexivity].
  destruct (_ || _); [reflexivity|].
  destruct (isSnapInCurrentSnaps _ _) as [inCurrent oldRevision].
  destruct (if needsUpdate oldSnapPath oldSnap info then _ else _)
    as [snapDetailsList required].
  match type of Hrun with
  | context [collectPrereqs ?r ?n ?ps ?g0 ?acc] =>
      assert (Hpre : collectPrereqs r n ps g0 acc <> OutOfFuel)
        by (intros E; rewrite E in Hrun; now contradiction Hrun);
      rewrite (collectPrereqs_more_fuel r
                 (fun name g =>
                    collectSnapDependencies fuel' name channel
                                            fallbackChannel g)
                 ltac:(intros; now apply IH) n ps g0 acc Hpre);
      destruct (collectPrereqs r n ps g0 acc) as [l1 g1| |]
  end; try reflexivity.
  destruct (_ && _); [|reflexivity].
  rewrite IH; [reflexivity | exact Hle' |].
  intros E. rewrite E in Hrun. now contradiction Hrun.
Qed.

Lemma collectSnapDependencies_returns
      (universe : list string)
      (Hclosed : forall include actions result rest info,
          storeSnapAction include actions = Ok (result :: rest) ->
          ResInfo result = Some info ->
          (Base info = EmptyString \/ In (Base info) universe)
          /\ forall p, In p (missingProviders info) -> In p universe) :
  forall fuel snapName channel fallbackChannel g,
    In snapName universe ->
    (length (unprocessed universe g) < fuel)%nat ->
    collectSnapDependencies fuel snapName channel fallbackChannel g
    <> OutOfFuel.
Proof.
  induction fuel as [|fuel IH];
    intros snapName channel fallbackChannel g Hname Hfuel; [lia|].
  cbn [Resolver.collectSnapDependencies].
  destruct (mapBool (processedSnaps g) snapName) eqn:Hnew; [discriminate|].
  destruct (findPreviousSnap snapName) as [oldSnapPath oldSnap].
  destruct (fetchWithFallback _ _ _ _) as [result|] eqn:Hfetch;
    [|discriminate].
  destruct (ResInfo result) as [info|] eqn:Hinfo; [|discriminate].
  destruct (_ || _); [discriminate|].
  apply fetchWithFallback_from_store in Hfetch
    as (include & actions & rest & Hstore).
  destruct (Hclosed _ _ _ _ _ Hstore Hinfo) as [Hbase Hprov].
  destruct (isSnapInCurrentSnaps _ _) as [inCurrent oldRevision].
  set (start := if needsUpdate oldSnapPath oldSnap info then _ else _).
  assert (Hreq : forall n, mapBool (requiredSnaps g) n = true ->
                           mapBool (snd start) n = true).
  { subst start. destruct (needsUpdate _ _ _); simpl; auto.
    intros n. apply mapBool_insert_mono. }
  destruct start as [snapDetailsList required]. simpl in Hreq.
  match goal with
  | |- context [collectPrereqs ?r ?n ?ps ?gs ?acc] =>
      set (g0 := gs);
      assert (Hlen0 : (length (unprocessed universe g0) < fuel)%nat)
  end.
  { assert (Hg0 : grows g g0).
    { split; simpl; [intros n; apply mapBool_insert_mono | exact Hreq]. }
    pose proof (unprocessed_marked universe g g0 snapName Hg0 Hname Hnew)
      as Hlt.
    assert (mapBool (processedSnaps g0) snapName = true) as Hp0.
    { simpl. rewrite mapBool_insert. now destruct (decide _). }
    specialize (Hlt Hp0). lia. }
  destruct (collectPrereqs _ _ _ g0 _) as [l1 g1| |] eqn:Hpre;
    [|discriminate|].
  - apply collectPrereqs_appends in Hpre as (extra & _ & Hg1 & _);
      [|intros; eapply collectSnapDependencies_grows; eassumption].
    destruct (_ && _) eqn:Hb; [|discriminate].
    destruct (collectSnapDependencies fuel (Base info) _ _ g1)
      as [baseDetails g2| |] eqn:Hbase'; try discriminate.
    exfalso.
    apply (IH (Base info) channel fallbackChannel g1); [| |exact Hbase'].
    + destruct Hbase as [E|Hin]; [|exact Hin].
      rewrite E in Hb. discriminate.
    + pose proof (unprocessed_grows universe g0 g1 Hg1). lia.
  - exfalso. revert Hpre.
    apply (collectPrereqs_returns _ universe fuel); try assumption;
      try (intros name0 ga Hin0 Hlen; now apply IH).
    intros name0 ga l ga' Hr.
    eapply collectSnapDependencies_grows in Hr. exact (proj1 Hr).
Qed.

(** X3: the resolver terminates.  When every snap the store answers with
    has its base and its content providers among the finitely many names
    of [universe], a run on a name of [universe] with more fuel than
    [universe] has unprocessed names ends with a list or with an error,
    never for want of fuel, and any larger amount of fuel gives the same
    result: a cycle of bases or providers is cut by [processedSnaps]. *)
Theorem collectSnapDependencies_terminates
        (universe : list string)
        (Hclosed : forall include actions result rest info,
            storeSnapAction include actions = Ok (result :: rest) ->
            ResInfo result = Some info ->
            (Base info = EmptyString \/ In (Base info) universe)
            /\ forall p, In p (missingProviders info) -> In p universe)
        (fuel : nat) (snapName channel fallbackChannel : string) (g : Globals)
        (Hname : In snapName universe)
        (Hfuel : (length (unprocessed universe g) < fuel)%nat) :
  collectSnapDependencies fuel snapName channel fallbackChannel g <> OutOfFuel
  /\ forall more,
       collectSnapDependencies (more + fuel) snapName channel fallbackChannel g
       = collectSnapDependencies fuel snapName channel fallbackChannel g.
Proof.
  assert (Hret : collectSnapDependencies fuel snapName channel
                                          fallbackChannel g <> OutOfFuel)
    by now apply (collectSnapDependencies_returns universe).
  split; [exact Hret|].
  intros more. apply collectSnapDependencies_more_fuel; [lia | exact Hret].
Qed.

End ResolverResults.

Section ResolverResultsSamples.
Import Resolver ResolverSpec Samples.

Lemma fetchWithFallback_valid_info_witness :
  exists info,
    ResInfo helloResult = Some info
    /\ InfoSnapID info <> EmptyString /\ N (InfoRevision info) <> 0.
Proof.
  exact (proj1 (fetchWithFallback_valid_info
                  storeSnapAction "hello" defaultChannel fallbackChannel
                  (Some oldHello) helloResult
                  ltac:(vm_compute; reflexivity))).
Defined.


Lemma cyclic_store_closed include actions result rest info :
  CyclicSamples.storeSnapAction include actions = Ok (result :: rest) ->
  ResInfo result = Some info ->
  (Base info = EmptyString \/ In (Base info) CyclicSamples.universe)
  /\ forall p, In p (CyclicSamples.missingProviders info) ->
               In p CyclicSamples.universe.
Proof.
  unfold CyclicSamples.storeSnapAction.
  destruct actions as [|a [|]]; try discriminate.
  destruct (String.eqb _ "ping");
    [|destruct (String.eqb _ "pong"); [|discriminate]].
  all: intros [= <- <-] [= <-]; vm_compute; intuition.
Qed.

Lemma collectSnapDependencies_terminates_witness :
  CyclicSamples.resolvePing 3 <> OutOfFuel
  /\ forall more, CyclicSamples.resolvePing (more + 3)
                  = CyclicSamples.resolvePing 3.
Proof.
  exact (collectSnapDependencies_terminates
           CyclicSamples.storeSnapAction CyclicSamples.readDir
           CyclicSamples.scanLines CyclicSamples.missingProviders
           "/seed/snaps" "/seed/assertions"
           CyclicSamples.universe cyclic_store_closed
           3%nat "ping" "latest/stable" "latest/stable" (mkGlobals [] ∅ ∅)
           ltac:(vm_compute; auto)
           ltac:(vm_compute; lia)).
Defined.

End ResolverResultsSamples.

(** ** Numbers in file names *)

Section DecimalFacts.
Import GoStrings Utils.

Lemma parseDigits_revapp (d a : Decimal.uint) :
  parseDigits (NilEmpty.string_of_uint d)
              (Z.of_N (DecimalPos.Unsigned.of_lu a))
  = Some (Z.of_N (DecimalPos.Unsigned.of_lu (Decimal.revapp d a))).
Proof.
  revert a; induction d; intros a; simpl; try reflexivity;
    rewrite <- IHd; f_equal; cbn [DecimalPos.Unsigned.of_lu];
    match goal with
    | |- context [Z.of_nat (nat_of_ascii ?c) - 48] =>
        let v := eval vm_compute in (Z.of_nat (nat_of_ascii c) - 48) in
        change (Z.of_nat (nat_of_ascii c) - 48) with v
    end; lia.
Qed.

Lemma parseDigits_string_of_uint (d : Decimal.uint) :
  parseDigits (NilEmpty.string_of_uint d) 0 = Some (Z.of_uint d).
Proof.
  unfold Z.of_uint. rewrite DecimalPos.Unsigned.of_uint_alt.
  exact (parseDigits_revapp d Decimal.Nil).
Qed.

Lemma string_of_uint_no_underscore (d : Decimal.uint) :
  Contains (NilEmpty.string_of_uint d) "_" = false.
Proof. induction d; simpl; auto. Qed.

Lemma string_of_uint_nonempty (d : Decimal.uint) :
  d <> Decimal.Nil -> NilEmpty.string_of_uint d <> EmptyString.
Proof. destruct d; simpl; congruence. Qed.

Lemma Atoi_string_of_uint (d : Decimal.uint) :
  d <> Decimal.Nil ->
  minInt <= Z.of_uint d <= maxInt ->
  Atoi (NilEmpty.string_of_uint d) = Some (Z.of_uint d).
Proof.
  intros Hd Hrange.
  assert (Hin : (minInt <=? Z.of_uint d) && (Z.of_uint d <=? maxInt) = true)
    by (apply andb_true_iff; split; apply Z.leb_le; lia).
  pose proof (parseDigits_string_of_uint d) as H.
  unfold Atoi.
  destruct d; [congruence | ..];
    cbn [NilEmpty.string_of_uint] in *; cbv iota; unfold parseUnsigned;
    rewrite H, Hin; reflexivity.
Qed.

(** The digits [%d] prints for a number that is not negative. *)
Lemma Itoa_nonneg (n : Z) :
  0 <= n ->
  exists d, d <> Decimal.Nil /\ Itoa n = NilEmpty.string_of_uint d
            /\ Z.of_uint d = n.
Proof.
  intros Hn. unfold Itoa. pose proof (DecimalZ.of_to n) as Hof.
  destruct n as [|p|p]; [| |lia]; simpl in *.
  - exists (Decimal.D0 Decimal.Nil). now repeat split.
  - exists (Pos.to_uint p).
    pose proof (DecimalPos.Unsigned.to_uint_nonnil p) as Hnil.
    split; [exact Hnil|]. split; [|exact Hof].
    destruct (Pos.to_uint p); [congruence | reflexivity ..].
Qed.

Lemma Itoa_neg (n : Z) :
  n < 0 ->
  exists d, d <> Decimal.Nil
            /\ Itoa n = String "-" (NilEmpty.string_of_uint d)
            /\ Z.of_uint d = - n.
Proof.
  intros Hn. unfold Itoa. pose proof (DecimalZ.of_to n) as Hof.
  destruct n as [|p|p]; [lia|lia|]; simpl in *.
  exists (Pos.to_uint p).
  pose proof (DecimalPos.Unsigned.to_uint_nonnil p) as Hnil.
  split; [exact Hnil|]. split; [|lia].
  destruct (Pos.to_uint p); [congruence | reflexivity ..].
Qed.

Lemma Itoa_no_underscore (n : Z) : Contains (Itoa n) "_" = false.
Proof.
  destruct (Z.le_gt_cases 0 n) as [Hn|Hn].
  - destruct (Itoa_nonneg n Hn) as (d & _ & -> & _).
    apply string_of_uint_no_underscore.
  - destruct (Itoa_neg n ltac:(lia)) as (d & _ & -> & _).
    simpl. apply string_of_uint_no_underscore.
Qed.

Lemma Itoa_nonempty (n : Z) : Itoa n <> EmptyString.
Proof.
  destruct (Z.le_gt_cases 0 n) as [Hn|Hn].
  - destruct (Itoa_nonneg n Hn) as (d & Hd & -> & _).
    now apply string_of_uint_nonempty.
  - destruct (Itoa_neg n ltac:(lia)) as (d & _ & -> & _). discriminate.
Qed.

(** [strconv.Atoi] reads back what [%d] prints. *)
Lemma Atoi_Itoa (n : Z) :
  minInt <= n <= maxInt -> Atoi (Itoa n) = Some n.
Proof.
  intros Hrange. unfold Atoi.
  assert (Hin : (minInt <=? n) && (n <=? maxInt) = true)
    by (apply andb_true_iff; split; apply Z.leb_le; lia).
  destruct (Z.le_gt_cases 0 n) as [Hn|Hn].
  - destruct (Itoa_nonneg n Hn) as (d & Hd & -> & Hv).
    fold (Atoi (NilEmpty.string_of_uint d)).
    rewrite Atoi_string_of_uint; [congruence | assumption | lia].
  - destruct (Itoa_neg n ltac:(lia)) as (d & Hd & -> & Hv).
    unfold parseUnsigned.
    pose proof (string_of_uint_nonempty d Hd) as Hne.
    destruct (NilEmpty.string_of_uint d) eqn:E; [congruence|].
    rewrite <- E, parseDigits_string_of_uint, Hv.
    simpl option_map. replace (- - n) with n by lia. now rewrite Hin.
Qed.

End DecimalFacts.

(** ** File names *)

Section FileNameFacts.
Import GoStrings Utils Resolver FileNames.

Lemma append_assoc (a b c : string) : (a +:+ b) +:+ c = a +:+ (b +:+ c).
Proof.
  induction a as [|x a IH]; [now rewrite !append_nil|].
  now rewrite !append_cons, IH.
Qed.

Lemma prefix_cons (x y : ascii) (p s : string) :
  String.prefix (String x p) (String y s)
  = if Ascii.ascii_dec x y then String.prefix p s else false.
Proof. reflexivity. Qed.

Lemma prefix_append (p s : string) : String.prefix p (p +:+ s) = true.
Proof.
  induction p as [|x p IH]; [rewrite append_nil; apply prefix_nil|].
  rewrite append_cons, prefix_cons, IH.
  now destruct (Ascii.ascii_dec x x).
Qed.

Lemma Contains_underscore_append (a b : string) :
  Contains a "_" = false -> Contains b "_" = false ->
  Contains (a +:+ b) "_" = false.
Proof.
  intros Ha Hb. induction a as [|x a IH]; [now rewrite append_nil|].
  apply Contains_cons_false in Ha as [Hp Ha].
  rewrite append_cons.
  change (Contains (String x (a +:+ b)) "_")
    with (if String.prefix "_" (String x (a +:+ b)) then true
          else Contains (a +:+ b) "_").
  rewrite (IH Ha).
  rewrite prefix_cons in Hp |- *.
  destruct (Ascii.ascii_dec "_" x); [|reflexivity].
  now rewrite prefix_nil in Hp |- *.
Qed.

Lemma last_char_inj (p q : string) (c d : ascii) :
  p +:+ String c EmptyString = q +:+ String d EmptyString -> c = d.
Proof.
  revert q; induction p as [|x p IH]; intros [|y q];
    rewrite ?append_nil, ?append_cons; intros H.
  - now injection H.
  - injection H as _ H. destruct q; rewrite ?append_nil, ?append_cons in H;
      discriminate.
  - injection H as _ H. destruct p; rewrite ?append_nil, ?append_cons in H;
      discriminate.
  - injection H as _ H. now apply IH in H.
Qed.

Lemma take_drop (n : nat) (s : string) : take n s +:+ drop n s = s.
Proof.
  unfold take. revert s; induction n as [|n IH]; intros [|x s];
    simpl; rewrite ?append_nil, ?append_cons; try reflexivity.
  f_equal. apply IH.
Qed.

Lemma HasSuffix_inv (s suf : string) :
  HasSuffix s suf = true -> exists p, s = p +:+ suf.
Proof.
  unfold HasSuffix. intros H. apply andb_true_iff in H as [_ H].
  apply String.eqb_eq in H.
  exists (take (String.length s - String.length suf) s).
  transitivity (take (String.length s - String.length suf) s
                +:+ drop (String.length s - String.length suf) s);
    [symmetry; apply take_drop | now rewrite H].
Qed.

(** Two strings with different last bytes: the one is no suffix of a
    string that ends in the other. *)
Lemma HasSuffix_last (s suf : string) (c d : ascii) :
  c <> d ->
  HasSuffix (s +:+ String c EmptyString) (suf +:+ String d EmptyString) = false.
Proof.
  intros Hcd. destruct (HasSuffix _ _) eqn:H; [|reflexivity].
  apply HasSuffix_inv in H as [p H]. rewrite <- append_assoc in H.
  now apply last_char_inj in H.
Qed.

Lemma HasSuffix_snap_other (r : string) :
  HasSuffix (r +:+ ".snap") ".partial" = false
  /\ HasSuffix (r +:+ ".snap") ".delta" = false
  /\ HasSuffix (r +:+ ".snap") ".assert" = false.
Proof.
  change ".snap" with (".sna" +:+ String "p" EmptyString).
  rewrite <- append_assoc.
  split; [|split].
  - apply (HasSuffix_last _ ".partia" "p" "l"). discriminate.
  - apply (HasSuffix_last _ ".delt" "p" "a"). discriminate.
  - apply (HasSuffix_last _ ".asser" "p" "t"). discriminate.
Qed.

Lemma HasSuffix_assert_other (r : string) :
  HasSuffix (r +:+ ".assert") ".partial" = false
  /\ HasSuffix (r +:+ ".assert") ".delta" = false
  /\ HasSuffix (r +:+ ".assert") ".snap" = false.
Proof.
  change ".assert" with (".asser" +:+ String "t" EmptyString).
  rewrite <- append_assoc.
  split; [|split].
  - apply (HasSuffix_last _ ".partia" "t" "l"). discriminate.
  - apply (HasSuffix_last _ ".delt" "t" "a"). discriminate.
  - apply (HasSuffix_last _ ".sna" "t" "p"). discriminate.
Qed.

Lemma extractRevisionFromFile_snapFileName (name : string) (revision : Z) :
  extractRevisionFromFile (snapFileName name revision) = Itoa revision.
Proof.
  unfold snapFileName. rewrite extractRevisionFromFile_split.
  - now rewrite HasSuffix_append, TrimSuffix_append.
  - apply Contains_underscore_append; [apply Itoa_no_underscore | reflexivity].
Qed.

Lemma extractRevisionFromFile_assertFileName (name : string) (revision : Z) :
  extractRevisionFromFile (assertFileName name revision) = Itoa revision.
Proof.
  unfold assertFileName. rewrite extractRevisionFromFile_split.
  - now rewrite HasSuffix_assert_not_snap, HasSuffix_append, TrimSuffix_append.
  - apply Contains_underscore_append; [apply Itoa_no_underscore | reflexivity].
Qed.

Lemma HasSuffix_snapFileName (name : string) (revision : Z) :
  HasSuffix (snapFileName name revision) ".snap" = true.
Proof.
  unfold snapFileName.
  replace (name +:+ "_" +:+ Itoa revision +:+ ".snap")
    with ((name +:+ "_" +:+ Itoa revision) +:+ ".snap")
    by now rewrite !append_assoc.
  apply HasSuffix_append.
Qed.

Lemma candidateRevision_snapFileName (name other : string) (revision : Z) :
  0 < revision <= maxInt ->
  HasPrefix (snapFileName other revision) (name +:+ "_") = true ->
  candidateRevision name (snapFileName other revision) = Some revision.
Proof.
  intros Hrev Hpre. unfold candidateRevision.
  rewrite Hpre, HasSuffix_snapFileName, extractRevisionFromFile_snapFileName.
  rewrite Atoi_Itoa by (unfold minInt; lia).
  destruct (String.eqb_spec (Itoa revision) EmptyString) as [E|_];
    [now apply Itoa_nonempty in E|].
  simpl. now rewrite (proj2 (Z.ltb_lt 0 revision)) by lia.
Qed.

(** X4: the names the tool gives its files are read back by the code
    that scans the seed directory.  For any snap name (underscores and all)
    and any revision, [extractRevisionFromFile] returns the digits of the
    revision from the name of the snap file and from the name of its
    assertion file.  For a revision from 1 to the greatest [int],
    [strconv.Atoi] reads the number back, the scan of [findPreviousSnap]
    takes the snap file for a file of the snap at that revision, and it
    takes the file of any snap whose name goes on after an underscore
    ([name_key]) for a file of [name] as well. *)
Theorem snapFileName_round_trip (name : string) (revision : Z) :
  extractRevisionFromFile (snapFileName name revision) = Itoa revision
  /\ extractRevisionFromFile (assertFileName name revision) = Itoa revision
  /\ (0 < revision <= maxInt ->
      Atoi (Itoa revision) = Some revision
      /\ candidateRevision name (snapFileName name revision) = Some revision
      /\ forall key,
           candidateRevision name
                             (snapFileName (name +:+ "_" +:+ key) revision)
           = Some revision).
Proof.
  split; [apply extractRevisionFromFile_snapFileName|].
  split; [apply extractRevisionFromFile_assertFileName|].
  intros Hrevision.
  split; [apply Atoi_Itoa; unfold minInt; lia|].
  split; [|intros key]; apply candidateRevision_snapFileName;
    try assumption; unfold snapFileName, HasPrefix.
  - rewrite <- append_assoc. apply prefix_append.
  - rewrite <- (append_assoc name "_" key), append_assoc.
    apply prefix_append.
Qed.

End FileNameFacts.

(** ** The snap already in the seed directory *)

Section PreviousSnap.
Import GoStrings Utils Resolver FileNames.

Variable readDir : string -> result (list string).
Variable scanLines : string -> result (list string).

#[local] Abbreviation parseSnapInfo := (parseSnapInfo scanLines).
#[local] Abbreviation scanFile := (scanFile scanLines).
#[local] Abbreviation findPreviousSnap := (findPreviousSnap readDir scanLines).

Lemma parseLine_fields (cs : CurrentSnap) (text : string) :
  InstanceName (parseLine cs text) = InstanceName cs
  /\ TrackingChannel (parseLine cs text) = TrackingChannel cs.
Proof.
  unfold parseLine.
  destruct (HasPrefix (TrimSpace text) "snap-id:");
    destruct (HasPrefix (TrimSpace text) "snap-revision:");
    try destruct (Atoi _); simpl; auto.
Qed.

(** [parseSnapInfo] fills in the snap id and the revision only. *)
Lemma parseSnapInfo_fields (assertFilePath snapName : string) :
  InstanceName (parseSnapInfo assertFilePath snapName) = snapName
  /\ TrackingChannel (parseSnapInfo assertFilePath snapName) = EmptyString.
Proof.
  unfold Resolver.parseSnapInfo.
  destruct (scanLines assertFilePath) as [lines|err]; [|now split].
  set (start := mkCurrentSnap snapName _ _ _).
  assert (H : InstanceName start = snapName
              /\ TrackingChannel start = EmptyString) by now split.
  clearbody start. revert start H.
  induction lines as [|line lines IH]; intros start H; [exact H|].
  simpl. apply IH.
  destruct (parseLine_fields start line) as [-> ->]. exact H.
Qed.

Lemma scanFile_step (downloadDir assertDir snapName : string)
      (latest : Z) (path : string) (cs : CurrentSnap) (file : string) :
  0 <= latest ->
  scanFile downloadDir assertDir snapName (latest, path, cs) file
  = match candidateRevision snapName file with
    | Some revision =>
        if latest <? revision then
          let parsed :=
            parseSnapInfo
              (filepath_Join assertDir (ReplaceFirst file ".snap" ".assert"))
              snapName in
          (revision, filepath_Join downloadDir file,
           mkCurrentSnap (InstanceName parsed) (SnapID parsed)
                         (mkRevision revision) (TrackingChannel parsed))
        else (latest, path, cs)
    | None => (latest, path, cs)
    end.
Proof.
  intros Hlatest. unfold Resolver.scanFile, candidateRevision.
  destruct (HasPrefix file (snapName +:+ "_") && HasSuffix file ".snap");
    [|reflexivity].
  destruct (String.eqb (extractRevisionFromFile file) EmptyString);
    [reflexivity|].
  destruct (Atoi (extractRevisionFromFile file)) as [revision|];
    [|reflexivity].
  destruct (Z.ltb_spec 0 revision) as [Hpos|Hneg]; [reflexivity|].
  now rewrite (proj2 (Z.ltb_ge latest revision)) by lia.
Qed.

(** What the scan of [findPreviousSnap] holds after the entries [seen]. *)
Lemma scanFile_latest (downloadDir assertDir snapName : string)
      (files seen : list string) (acc : Z * string * CurrentSnap) :
  let holds (seen : list string) (acc : Z * string * CurrentSnap) :=
    let '(latest, path, cs) := acc in
    (latest = 0 /\ path = EmptyString
     /\ forall f, In f seen -> candidateRevision snapName f = None)
    \/ (exists f,
          In f seen
          /\ candidateRevision snapName f = Some latest
          /\ 0 < latest
          /\ path = filepath_Join downloadDir f
          /\ InstanceName cs = snapName
          /\ SnapID cs
             = SnapID (parseSnapInfo
                         (filepath_Join assertDir
                            (ReplaceFirst f ".snap" ".assert")) snapName)
          /\ N (Rev cs) = latest
          /\ TrackingChannel cs = EmptyString
          /\ forall f' r, In f' seen ->
                          candidateRevision snapName f' = Some r ->
                          r <= latest) in
  holds seen acc ->
  holds (seen ++ files)
        (fold_left (scanFile downloadDir assertDir snapName) files acc).
Proof.
  intros holds. revert seen acc.
  induction files as [|file files IH]; intros seen acc Hacc.
  - now rewrite app_nil_r.
  - replace (seen ++ file :: files) with ((seen ++ [file]) ++ files)
      by now rewrite <- app_assoc.
    simpl fold_left. apply IH. clear IH.
    destruct acc as [[latest path] cs]. unfold holds in *.
    assert (Hlatest : 0 <= latest)
      by (destruct Hacc as [(-> & _)|(f & _ & _ & H & _)]; lia).
    rewrite scanFile_step by assumption.
    assert (Hpos : forall r, candidateRevision snapName file = Some r -> 0 < r).
    { unfold candidateRevision.
      destruct (_ && _); [|discriminate].
      destruct (String.eqb _ _); [discriminate|].
      destruct (Atoi _) as [r'|]; [|discriminate].
      destruct (Z.ltb_spec 0 r'); [|discriminate].
      now intros r [= <-]. }
    destruct (candidateRevision snapName file) as [revision|] eqn:Hcand.
    2:{ destruct Hacc as [(H1 & H2 & H3)|(f & Hf & Hc & H)].
        - left. repeat split; try assumption.
          intros f Hf. apply in_app_or in Hf as [Hf|[<-|[]]]; auto.
        - right. exists f. split; [apply in_or_app; now left|].
          split; [exact Hc|].
          destruct H as (H1 & H2 & H3 & H4 & H5 & H6 & H7).
          repeat split; try assumption.
          intros f' r Hf'. apply in_app_or in Hf' as [Hf'|[<-|[]]];
            [now apply H7 | congruence]. }
    specialize (Hpos revision eq_refl).
    destruct (Z.ltb_spec latest revision) as [Hlt|Hge].
    + right. exists file. cbv zeta.
      destruct (parseSnapInfo_fields
                  (filepath_Join assertDir
                     (ReplaceFirst file ".snap" ".assert")) snapName)
        as [Hname Hchannel].
      split; [apply in_or_app; right; now left|].
      repeat split; try assumption; try reflexivity.
      intros f' r Hf' Hr. apply in_app_or in Hf' as [Hf'|[<-|[]]].
      * destruct Hacc as [(_ & _ & H3)|(f & _ & _ & _ & _ & _ & _ & _ & _ & H7)].
        -- rewrite (H3 _ Hf') in Hr. discriminate.
        -- specialize (H7 _ _ Hf' Hr). lia.
      * rewrite Hr in Hcand. injection Hcand as ->. lia.
    + destruct Hacc as [(H1 & H2 & H3)|(f & Hf & Hc & H)]; [lia|].
      right. exists f. split; [apply in_or_app; now left|].
      split; [exact Hc|].
      destruct H as (H1 & H2 & H3 & H4 & H5 & H6 & H7).
      repeat split; try assumption.
      intros f' r Hf'. apply in_app_or in Hf' as [Hf'|[<-|[]]];
        [now apply H7 |].
      intros Hr. rewrite Hr in Hcand. injection Hcand as ->. lia.
Qed.

(** X5: [findPreviousSnap] on a directory it can read.  If no entry is a
    file of the snap (a name that starts with the snap's name and an
    underscore, ends in [.snap] and has a positive number after its last
    underscore), it returns no path and no snap.  Otherwise the path is
    that of an entry with the greatest such number, and the [CurrentSnap]
    holds the name asked for, that number as its revision (whatever
    revision the assertion file states), the snap id read from the
    assertion file of the same name, and no tracking channel.  If the
    directory cannot be read, it returns no path and no snap. *)
Theorem findPreviousSnap_latest
        (downloadDir assertDir snapName : string) :
  (forall err, readDir downloadDir = Err err ->
               findPreviousSnap downloadDir assertDir snapName
               = (EmptyString, None))
  /\ forall files, readDir downloadDir = Ok files ->
      match findPreviousSnap downloadDir assertDir snapName with
      | (path, None) =>
          path = EmptyString
          /\ forall f, In f files -> candidateRevision snapName f = None
      | (path, Some old) =>
          exists f,
            In f files
            /\ path = filepath_Join downloadDir f
            /\ candidateRevision snapName f = Some (N (Rev old))
            /\ (forall f' r, In f' files ->
                             candidateRevision snapName f' = Some r ->
                             r <= N (Rev old))
            /\ InstanceName old = snapName
            /\ SnapID old
               = SnapID (parseSnapInfo
                           (filepath_Join assertDir
                              (ReplaceFirst f ".snap" ".assert")) snapName)
            /\ TrackingChannel old = EmptyString
      end.
Proof.
  unfold Resolver.findPreviousSnap. split.
  - intros err ->. reflexivity.
  - intros files ->.
    pose proof (scanFile_latest downloadDir assertDir snapName files []
                  (0, EmptyString, mkCurrentSnap EmptyString EmptyString
                                                 (mkRevision 0) EmptyString))
      as Hinv.
    cbv zeta in Hinv. simpl app in Hinv.
    destruct (fold_left _ files _) as [[latest path] cs].
    specialize (Hinv ltac:(left; repeat split; intros ? [])).
    destruct Hinv as [(H1 & -> & H3)|(f & Hf & Hc & H1 & H2 & H3 & H4 & H5 & H6 & H7)].
    + simpl. now split.
    + destruct (String.eqb_spec path EmptyString) as [E|Hne].
      { rewrite E in H2. symmetry in H2.
        now apply filepath_Join_nonempty in H2. }
      simpl. exists f. subst latest. repeat split; assumption.
Qed.

End PreviousSnap.

(** ** cleanup.go *)

Section CleanupFacts.
Import GoStrings Utils SeedYaml FileNames Cleanup.

Variable removeFails : string -> bool.

#[local] Abbreviation removeLogged := (removeLogged removeFails).
#[local] Abbreviation cleanUpFiles := (cleanUpFiles removeFails).
#[local] Abbreviation removeOrphanedFiles := (removeOrphanedFiles removeFails).
#[local] Abbreviation cleanUpCurrentSnaps := (cleanUpCurrentSnaps removeFails).

Lemma In_withoutName (m n : string) (l : list string) :
  In m (withoutName n l) <-> In m l /\ m <> n.
Proof.
  unfold withoutName. rewrite List.filter_In, negb_true_iff.
  now rewrite String.eqb_neq.
Qed.

Lemma hasName_In (n : string) (l : list string) :
  hasName n l = true <-> In n l.
Proof.
  unfold hasName. rewrite existsb_exists. split.
  - intros (m & Hm & E). apply String.eqb_eq in E. now subst.
  - intros H. exists n. split; [exact H | apply String.eqb_refl].
Qed.

Lemma entries_insert (fs : FS) (d d' : string) (l : list string) :
  entries (<[d := l]> fs) d' = if decide (d = d') then l else entries fs d'.
Proof.
  unfold entries. destruct (decide (d = d')) as [->|Hne].
  - now rewrite lookup_insert_eq.
  - now rewrite lookup_insert_ne.
Qed.

Lemma removeLogged_cases (fs : FS) (d n : string) :
  removeLogged fs d n = fs
  \/ (In n (entries fs d) /\ removeFails (filepath_Join d n) = false
      /\ removeLogged fs d n = <[d := withoutName n (entries fs d)]> fs).
Proof.
  unfold Cleanup.removeLogged, osRemove, fileExists.
  destruct (hasName n (entries fs d)) eqn:Hex; simpl; [|now left].
  destruct (removeFails _); [now left|].
  right. split; [now apply hasName_In | now split].
Qed.

Lemma removeLogged_subset (fs : FS) (d n d' m : string) :
  In m (entries (removeLogged fs d n) d') -> In m (entries fs d').
Proof.
  destruct (removeLogged_cases fs d n) as [->|(_ & _ & ->)]; [auto|].
  rewrite entries_insert. destruct (decide (d = d')) as [->|_]; [|auto].
  intros H. now apply In_withoutName in H.
Qed.

Lemma removeLogged_keeps (fs : FS) (d n d' m : string) :
  In m (entries fs d') -> d' <> d \/ m <> n ->
  In m (entries (removeLogged fs d n) d').
Proof.
  intros Hin Hne.
  destruct (removeLogged_cases fs d n) as [->|(_ & _ & ->)]; [auto|].
  rewrite entries_insert. destruct (decide (d = d')) as [<-|_]; [|auto].
  apply In_withoutName. split; [exact Hin|]. now destruct Hne.
Qed.

Lemma removeLogged_removes (fs : FS) (d n : string) :
  removeFails (filepath_Join d n) = false ->
  ~ In n (entries (removeLogged fs d n) d).
Proof.
  intros Hok.
  unfold Cleanup.removeLogged, osRemove, fileExists.
  destruct (hasName n (entries fs d)) eqn:Hex; simpl.
  - rewrite Hok, entries_insert.
    destruct (decide (d = d)); [|congruence].
    intros H. apply In_withoutName in H. now destruct H.
  - intros H. apply hasName_In in H. congruence.
Qed.

(** A loop that removes the entries of [dir] a test takes for stale. *)
Lemma sweep_subset (stale : string -> bool) (dir : string)
      (files : list string) (fs : FS) (d' m : string) :
  In m (entries
          (fold_left (fun fs name =>
                        if stale name then removeLogged fs dir name else fs)
                     files fs) d') ->
  In m (entries fs d').
Proof.
  revert fs; induction files as [|file files IH]; intros fs; [auto|].
  simpl. intros H. apply IH in H.
  destruct (stale file); [now apply removeLogged_subset in H | exact H].
Qed.

Lemma sweep_keeps (stale : string -> bool) (dir : string)
      (files : list string) (fs : FS) (d' m : string) :
  In m (entries fs d') -> (d' = dir -> stale m = false) ->
  In m (entries
          (fold_left (fun fs name =>
                        if stale name then removeLogged fs dir name else fs)
                     files fs) d').
Proof.
  intros Hin Hfresh. revert fs Hin.
  induction files as [|file files IH]; intros fs Hin; [exact Hin|].
  simpl. apply IH.
  destruct (stale file) eqn:Hs; [|exact Hin].
  apply removeLogged_keeps; [exact Hin|].
  destruct (decide (d' = dir)) as [E|Hne]; [|now left].
  right. intros ->. rewrite (Hfresh E) in Hs. discriminate.
Qed.

Lemma sweep_removes (stale : string -> bool) (dir : string)
      (files : list string) (fs : FS) (m : string) :
  (forall n, removeFails (filepath_Join dir n) = false) ->
  In m files -> stale m = true ->
  ~ In m (entries
            (fold_left (fun fs name =>
                          if stale name then removeLogged fs dir name else fs)
                       files fs) dir).
Proof.
  intros Hok. revert fs.
  induction files as [|file files IH]; intros fs Hin Hs; [destruct Hin|].
  simpl. destruct Hin as [->|Hin]; [|now apply IH].
  rewrite Hs. intros H. apply sweep_subset in H.
  revert H. now apply removeLogged_removes.
Qed.

Lemma cleanSnapsEntry_stale (valid : gmap string bool) (snapsDir : string)
      (fs : FS) (name : string) :
  cleanSnapsEntry removeFails valid snapsDir fs name
  = if staleSnapsEntry valid name then removeLogged fs snapsDir name else fs.
Proof.
  unfold cleanSnapsEntry, staleSnapsEntry.
  destruct (HasSuffix name ".partial" || HasSuffix name ".delta");
    [reflexivity|].
  destruct (HasSuffix name ".snap"); [|reflexivity].
  now destruct (negb (mapBool valid name)).
Qed.

Lemma cleanAssertionsEntry_stale (valid : gmap string bool)
      (assertionsDir : string) (fs : FS) (name : string) :
  cleanAssertionsEntry removeFails valid assertionsDir fs name
  = if staleAssertionsEntry valid name
    then removeLogged fs assertionsDir name else fs.
Proof.
  unfold cleanAssertionsEntry, staleAssertionsEntry.
  destruct (HasSuffix name ".assert"); [|reflexivity].
  now destruct (negb (mapBool valid name)).
Qed.

Lemma fold_left_ext {A B : Type} (f g : A -> B -> A) (l : list B) (a : A) :
  (forall a b, f a b = g a b) -> fold_left f l a = fold_left g l a.
Proof.
  intros H. revert a; induction l as [|b l IH]; intros a; [reflexivity|].
  simpl. now rewrite H, IH.
Qed.

(** [cleanUpFiles] as two sweeps, the second over the entries the first
    has left. *)
Lemma cleanUpFiles_sweeps (seedSnaps : list SeedSnap)
      (snapsDir assertionsDir : string) (fs : FS) :
  cleanUpFiles seedSnaps snapsDir assertionsDir fs
  = let fs1 :=
      fold_left (fun fs name =>
                   if staleSnapsEntry (validSnaps seedSnaps) name
                   then removeLogged fs snapsDir name else fs)
                (entries fs snapsDir) fs in
    fold_left (fun fs name =>
                 if staleAssertionsEntry (validAssertions seedSnaps) name
                 then removeLogged fs assertionsDir name else fs)
              (entries fs1 assertionsDir) fs1.
Proof.
  unfold Cleanup.cleanUpFiles, validSnaps, validAssertions, entries.
  destruct (fold_left addValid seedSnaps (∅, ∅)) as [vs va]. simpl.
  rewrite <- (fold_left_ext _ _ _ _ (cleanSnapsEntry_stale vs snapsDir)).
  set (fs1 := match fs !! snapsDir with
              | Some files => fold_left _ files fs
              | None => fs
              end).
  replace (fold_left _ (default [] (fs !! snapsDir)) fs) with fs1
    by (subst fs1; now destruct (fs !! snapsDir)).
  rewrite <- (fold_left_ext _ _ _ _ (cleanAssertionsEntry_stale va assertionsDir)).
  now destruct (fs1 !! assertionsDir).
Qed.

Lemma addValid_fold (seedSnaps : list SeedSnap)
      (acc : gmap string bool * gmap string bool) (name ext : string)
      (pick : gmap string bool * gmap string bool -> gmap string bool) :
  (pick = fst /\ ext = ".snap") \/ (pick = snd /\ ext = ".assert") ->
  mapBool (pick (fold_left addValid seedSnaps acc)) name = true
  <-> mapBool (pick acc) name = true
      \/ exists snap,
           In snap seedSnaps
           /\ extractRevisionFromFile (File snap) <> EmptyString
           /\ name = Name snap +:+ "_"
                     +:+ extractRevisionFromFile (File snap) +:+ ext.
Proof.
  intros Hpick. revert acc.
  induction seedSnaps as [|snap seedSnaps IH]; intros acc.
  - simpl. split; [now left | intros [H|(snap & [] & _)]; exact H].
  - simpl fold_left. rewrite IH. clear IH.
    assert (Hstep :
              mapBool (pick (addValid acc snap)) name = true
              <-> mapBool (pick acc) name = true
                  \/ (extractRevisionFromFile (File snap) <> EmptyString
                      /\ name = Name snap +:+ "_"
                                +:+ extractRevisionFromFile (File snap)
                                +:+ ext)).
    { unfold addValid. destruct acc as [vs va].
      destruct (String.eqb_spec (extractRevisionFromFile (File snap))
                                EmptyString) as [E|Hne].
      - split; [now left | intros [H|[H _]]; [exact H | congruence]].
      - destruct Hpick as [[-> ->]|[-> ->]]; simpl;
          rewrite mapBool_insert;
          (destruct (decide _) as [<-|Hd];
           [split; [now right | reflexivity]
           |split; [now left | intros [H|[_ H]]; [exact H | congruence]]]). }
    rewrite Hstep. split.
    + intros [[H|[H1 H2]]|(snap' & Hin & H)]; [now left | right | right].
      * exists snap. split; [now left | now split].
      * exists snap'. split; [now right | exact H].
    + intros [H|(snap' & [<-|Hin] & H)]; [now left; left | left; now right |].
      right. exists snap'. now split.
Qed.

(** The names [cleanUpFiles] keeps: those it builds from the name of an
    entry of seed.yaml and the revision in the entry's file name. *)
Lemma validSnaps_iff (seedSnaps : list SeedSnap) (name : string) :
  mapBool (validSnaps seedSnaps) name = true
  <-> exists snap,
        In snap seedSnaps
        /\ extractRevisionFromFile (File snap) <> EmptyString
        /\ name = Name snap +:+ "_"
                  +:+ extractRevisionFromFile (File snap) +:+ ".snap".
Proof.
  unfold validSnaps.
  rewrite (addValid_fold seedSnaps (∅, ∅) name ".snap" fst) by now left.
  split; [intros [H|H]; [discriminate | exact H] | now right].
Qed.

Lemma validAssertions_iff (seedSnaps : list SeedSnap) (name : string) :
  mapBool (validAssertions seedSnaps) name = true
  <-> exists snap,
        In snap seedSnaps
        /\ extractRevisionFromFile (File snap) <> EmptyString
        /\ name = Name snap +:+ "_"
                  +:+ extractRevisionFromFile (File snap) +:+ ".assert".
Proof.
  unfold validAssertions.
  rewrite (addValid_fold seedSnaps (∅, ∅) name ".assert" snd) by now right.
  split; [intros [H|H]; [discriminate | exact H] | now right].
Qed.

Lemma cleanUpFiles_keeps (seedSnaps : list SeedSnap)
      (snapsDir assertionsDir : string) (fs : FS) (dir name : string) :
  In name (entries fs dir) ->
  (dir = snapsDir -> staleSnapsEntry (validSnaps seedSnaps) name = false) ->
  (dir = assertionsDir ->
   staleAssertionsEntry (validAssertions seedSnaps) name = false) ->
  In name (entries (cleanUpFiles seedSnaps snapsDir assertionsDir fs) dir).
Proof.
  intros Hin Hs Ha. rewrite cleanUpFiles_sweeps. cbv zeta.
  now do 2 (apply sweep_keeps; [|assumption]).
Qed.

(** X6: [cleanUpFiles] creates no file, and a file it removes is one its
    loops test for: in the snaps directory a name that ends in [.partial]
    or [.delta], or ends in [.snap] and is not among the names built from
    seed.yaml; in the assertions directory a name that ends in [.assert]
    and is not among those names.  Every other file of every directory
    is still there afterwards, whether or not a removal fails. *)
Theorem cleanUpFiles_removes_only_stale
        (seedSnaps : list SeedSnap) (snapsDir assertionsDir : string)
        (fs : FS) :
  let fs' := cleanUpFiles seedSnaps snapsDir assertionsDir fs in
  (forall dir name, In name (entries fs' dir) -> In name (entries fs dir))
  /\ (forall dir name,
        In name (entries fs dir) -> ~ In name (entries fs' dir) ->
        (dir = snapsDir
         /\ staleSnapsEntry (validSnaps seedSnaps) name = true)
        \/ (dir = assertionsDir
            /\ staleAssertionsEntry (validAssertions seedSnaps) name = true)).
Proof.
  cbv zeta. rewrite cleanUpFiles_sweeps. cbv zeta. split.
  - intros dir name H. now do 2 apply sweep_subset in H.
  - intros dir name Hin Hgone.
    destruct (decide (dir = snapsDir)) as [Es|Hs];
      [destruct (staleSnapsEntry (validSnaps seedSnaps) name) eqn:Hstale;
       [left; now split|] |];
      (destruct (decide (dir = assertionsDir)) as [Ea|Ha];
       [destruct (staleAssertionsEntry (validAssertions seedSnaps) name)
          eqn:Hstale';
        [right; now split|] |]);
      exfalso; apply Hgone;
      apply sweep_keeps; try apply sweep_keeps; try assumption;
      intros; congruence.
Qed.


Lemma cleanUpFiles_fresh (seedSnaps : list SeedSnap)
      (snapsDir assertionsDir : string) (fs : FS) :
  (forall path, removeFails path = false) ->
  (forall name,
      In name (entries (cleanUpFiles seedSnaps snapsDir assertionsDir fs)
                       snapsDir) ->
      staleSnapsEntry (validSnaps seedSnaps) name = false)
  /\ (forall name,
         In name (entries (cleanUpFiles seedSnaps snapsDir assertionsDir fs)
                          assertionsDir) ->
         staleAssertionsEntry (validAssertions seedSnaps) name = false).
Proof.
  intros Hremove. rewrite cleanUpFiles_sweeps. cbv zeta.
  set (fs1 := fold_left _ (entries fs snapsDir) fs).
  split; intros name Hin.
  - apply sweep_subset in Hin.
    assert (Hin0 : In name (entries fs snapsDir))
      by (eapply sweep_subset; exact Hin).
    destruct (staleSnapsEntry _ name) eqn:Hs; [|reflexivity].
    exfalso. revert Hin. subst fs1. now apply sweep_removes.
  - assert (Hin1 : In name (entries fs1 assertionsDir))
      by (eapply sweep_subset; exact Hin).
    destruct (staleAssertionsEntry _ name) eqn:Hs; [|reflexivity].
    exfalso. revert Hin. now apply sweep_removes.
Qed.

(** X7: when no removal fails, [cleanUpFiles] leaves no file in the
    snaps directory whose name ends in [.partial] or [.delta]; a name
    that still ends in [.snap] there, and a name that still ends in
    [.assert] in the assertions directory, is [Name_revision] with that
    suffix for an entry of seed.yaml, the revision being what
    [extractRevisionFromFile] reads from the entry's [file]. *)
Theorem cleanUpFiles_leaves_no_stale
        (seedSnaps : list SeedSnap) (snapsDir assertionsDir : string)
        (fs : FS)
        (Hremove : forall path, removeFails path = false) :
  let fs' := cleanUpFiles seedSnaps snapsDir assertionsDir fs in
  (forall name,
      In name (entries fs' snapsDir) ->
      HasSuffix name ".partial" = false
      /\ HasSuffix name ".delta" = false
      /\ (HasSuffix name ".snap" = true ->
          exists snap,
            In snap seedSnaps
            /\ extractRevisionFromFile (File snap) <> EmptyString
            /\ name = Name snap +:+ "_"
                      +:+ extractRevisionFromFile (File snap) +:+ ".snap"))
  /\ (forall name,
        In name (entries fs' assertionsDir) ->
        HasSuffix name ".assert" = true ->
        exists snap,
          In snap seedSnaps
          /\ extractRevisionFromFile (File snap) <> EmptyString
          /\ name = Name snap +:+ "_"
                    +:+ extractRevisionFromFile (File snap) +:+ ".assert").
Proof.
  cbv zeta.
  destruct (cleanUpFiles_fresh seedSnaps snapsDir assertionsDir fs Hremove)
    as [Hsnaps Hassertions].
  split.
  - intros name Hin. specialize (Hsnaps name Hin).
    unfold staleSnapsEntry in Hsnaps.
    apply orb_false_iff in Hsnaps as [Hfresh Hsnap].
    apply orb_false_iff in Hfresh as [Hpartial Hdelta].
    split; [exact Hpartial|]. split; [exact Hdelta|].
    intros Hsuf. rewrite Hsuf in Hsnap. simpl in Hsnap.
    apply negb_false_iff in Hsnap. now apply validSnaps_iff.
  - intros name Hin Hsuf. specialize (Hassertions name Hin).
    unfold staleAssertionsEntry in Hassertions. rewrite Hsuf in Hassertions.
    simpl in Hassertions. apply negb_false_iff in Hassertions.
    now apply validAssertions_iff.
Qed.

Lemma removeOrphanedFiles_subset (snapName : string) (revision : Z)
      (assertionsDir snapsDir : string) (fs : FS) (d n : string) :
  In n (entries (removeOrphanedFiles snapName revision assertionsDir
                                     snapsDir fs) d) ->
  In n (entries fs d).
Proof.
  unfold Cleanup.removeOrphanedFiles.
  destruct (fileExists _ assertionsDir _); destruct (fileExists _ snapsDir _);
    intros H; repeat apply removeLogged_subset in H; exact H.
Qed.

Lemma removeOrphanedFiles_keeps (snapName : string) (revision : Z)
      (assertionsDir snapsDir : string) (fs : FS) (d n : string) :
  In n (entries fs d) ->
  ~ (d = assertionsDir /\ n = assertFileName snapName revision) ->
  ~ (d = snapsDir /\ n = snapFileName snapName revision) ->
  In n (entries (removeOrphanedFiles snapName revision assertionsDir
                                     snapsDir fs) d).
Proof.
  intros Hin Ha Hs. unfold Cleanup.removeOrphanedFiles.
  assert (Hne : forall dir file, ~ (d = dir /\ n = file) ->
                                 d <> dir \/ n <> file).
  { intros dir file H. destruct (decide (d = dir)); [|now left].
    right. intros E. now apply H. }
  destruct (fileExists _ assertionsDir _); destruct (fileExists _ snapsDir _);
    repeat apply removeLogged_keeps; auto.
Qed.

Lemma removeOrphanedFiles_removes (snapName : string) (revision : Z)
      (assertionsDir snapsDir : string) (fs : FS) :
  (forall path, removeFails path = false) ->
  ~ In (assertFileName snapName revision)
       (entries (removeOrphanedFiles snapName revision assertionsDir
                                     snapsDir fs) assertionsDir)
  /\ ~ In (snapFileName snapName revision)
          (entries (removeOrphanedFiles snapName revision assertionsDir
                                        snapsDir fs) snapsDir).
Proof.
  intros Hok. unfold Cleanup.removeOrphanedFiles.
  set (fs1 := if fileExists fs assertionsDir _ then _ else fs).
  assert (H1 : ~ In (assertFileName snapName revision)
                    (entries fs1 assertionsDir)).
  { subst fs1. destruct (fileExists fs assertionsDir _) eqn:Hex.
    - now apply removeLogged_removes.
    - intros H. apply hasName_In in H. unfold fileExists in Hex. congruence. }
  split.
  - destruct (fileExists fs1 snapsDir _); [|exact H1].
    intros H. now apply removeLogged_subset in H.
  - destruct (fileExists fs1 snapsDir _) eqn:Hex.
    + now apply removeLogged_removes.
    + intros H. apply hasName_In in H. unfold fileExists in Hex. congruence.
Qed.

(** The loop of [cleanUpCurrentSnaps] after the snaps [seen]. *)
Lemma cleanUpSnap_fold (required : gmap string bool)
      (assertionsDir snapsDir : string) (snaps : list CurrentSnap)
      (kept : list CurrentSnap) (fs : FS) :
  let '(kept', fs') :=
    fold_left (cleanUpSnap removeFails required assertionsDir snapsDir)
              snaps (kept, fs) in
  kept' = kept ++ List.filter (fun s => mapBool required (InstanceName s))
                              snaps
  /\ (forall d n, In n (entries fs' d) -> In n (entries fs d))
  /\ (forall d n,
        In n (entries fs d) -> ~ In n (entries fs' d) ->
        exists s,
          In s snaps /\ mapBool required (InstanceName s) = false
          /\ ((d = assertionsDir
               /\ n = assertFileName (InstanceName s) (N (Rev s)))
              \/ (d = snapsDir
                  /\ n = snapFileName (InstanceName s) (N (Rev s)))))
  /\ ((forall path, removeFails path = false) ->
      forall s, In s snaps -> mapBool required (InstanceName s) = false ->
                ~ In (assertFileName (InstanceName s) (N (Rev s)))
                     (entries fs' assertionsDir)
                /\ ~ In (snapFileName (InstanceName s) (N (Rev s)))
                        (entries fs' snapsDir)).
Proof.
  revert kept fs. induction snaps as [|snap snaps IH]; intros kept fs.
  - simpl. rewrite app_nil_r.
    split; [reflexivity|]. split; [auto|]. split.
    + intros d n Hin Hgone. now contradiction Hgone.
    + intros _ s [].
  - change (fold_left (cleanUpSnap removeFails required assertionsDir snapsDir)
                     (snap :: snaps) (kept, fs))
      with (fold_left (cleanUpSnap removeFails required assertionsDir snapsDir)
                      snaps
                      (if mapBool required (InstanceName snap)
                       then (kept ++ [snap], fs)
                       else (kept,
                             removeOrphanedFiles
                               (InstanceName snap) (N (Rev snap))
                               assertionsDir snapsDir fs))).
    destruct (mapBool required (InstanceName snap)) eqn:Hreq.
    + specialize (IH (kept ++ [snap]) fs).
      destruct (fold_left _ snaps _) as [kept' fs'].
      destruct IH as (Hk & Hsub & Hgone & Hrem).
      split; [|split; [exact Hsub|split]].
      * rewrite Hk. simpl. rewrite Hreq. now rewrite <- app_assoc.
      * intros d n Hin Hn. destruct (Hgone d n Hin Hn) as (s & Hs & H).
        exists s. split; [now right | exact H].
      * intros Hok s [<-|Hs] Hdrop; [congruence | now apply Hrem].
    + set (fs1 := removeOrphanedFiles _ _ _ _ fs).
      specialize (IH kept fs1).
      destruct (fold_left _ snaps _) as [kept' fs'].
      destruct IH as (Hk & Hsub & Hgone & Hrem).
      split; [|split; [|split]].
      * rewrite Hk. simpl. now rewrite Hreq.
      * intros d n H. apply Hsub in H.
        now apply removeOrphanedFiles_subset in H.
      * intros d n Hin Hn.
        destruct (List.in_dec string_dec n (entries fs1 d)) as [Hin1|Hout].
        -- destruct (Hgone d n Hin1 Hn) as (s & Hs & H).
           exists s. split; [now right | exact H].
        -- exists snap. split; [now left|]. split; [exact Hreq|].
           destruct (decide (d = assertionsDir
                             /\ n = assertFileName (InstanceName snap)
                                                   (N (Rev snap))))
             as [Ha|Ha]; [now left|].
           destruct (decide (d = snapsDir
                             /\ n = snapFileName (InstanceName snap)
                                                 (N (Rev snap))))
             as [Hs|Hs]; [now right|].
           exfalso. apply Hout. now apply removeOrphanedFiles_keeps.
      * intros Hok s [<-|Hs] Hdrop; [|now apply Hrem].
        destruct (removeOrphanedFiles_removes
                    (InstanceName snap) (N (Rev snap)) assertionsDir snapsDir
                    fs Hok) as [H1 H2].
        split; intros H; apply Hsub in H; [now apply H1 | now apply H2].
Qed.

(** X8: [cleanUpCurrentSnaps] keeps in [currentSnaps], in their order,
    exactly the snaps whose name is in [requiredSnaps], and leaves the two
    maps as they are.  It creates no file, and a file that is gone
    afterwards is the assertion file or the snap file, named by name and
    revision, of a snap it has dropped. *)
Theorem cleanUpCurrentSnaps_keeps_required
        (assertionsDir snapsDir : string) (g : Globals) (fs : FS) :
  let g' := fst (cleanUpCurrentSnaps assertionsDir snapsDir g fs) in
  let fs' := snd (cleanUpCurrentSnaps assertionsDir snapsDir g fs) in
  currentSnaps g'
  = List.filter (fun s => mapBool (requiredSnaps g) (InstanceName s))
                (currentSnaps g)
  /\ requiredSnaps g' = requiredSnaps g
  /\ processedSnaps g' = processedSnaps g
  /\ (forall d n, In n (entries fs' d) -> In n (entries fs d))
  /\ (forall d n,
        In n (entries fs d) -> ~ In n (entries fs' d) ->
        exists s,
          In s (currentSnaps g)
          /\ mapBool (requiredSnaps g) (InstanceName s) = false
          /\ ((d = assertionsDir
               /\ n = assertFileName (InstanceName s) (N (Rev s)))
              \/ (d = snapsDir
                  /\ n = snapFileName (InstanceName s) (N (Rev s))))).
Proof.
  cbv zeta. unfold Cleanup.cleanUpCurrentSnaps.
  pose proof (cleanUpSnap_fold (requiredSnaps g) assertionsDir snapsDir
                               (currentSnaps g) [] fs) as H.
  destruct (fold_left _ (currentSnaps g) _) as [kept' fs'].
  destruct H as (Hk & Hsub & Hgone & _). simpl.
  repeat split; assumption.
Qed.

(** X9: when no removal fails, [cleanUpCurrentSnaps] leaves neither the
    assertion file nor the snap file, named by name and revision, of a
    snap of [currentSnaps] whose name is not in [requiredSnaps]. *)
Theorem cleanUpCurrentSnaps_removes_dropped
        (assertionsDir snapsDir : string) (g : Globals) (fs : FS)
        (s : CurrentSnap)
        (Hremove : forall path, removeFails path = false)
        (Hin : In s (currentSnaps g))
        (Hdropped : mapBool (requiredSnaps g) (InstanceName s) = false) :
  let fs' := snd (cleanUpCurrentSnaps assertionsDir snapsDir g fs) in
  ~ In (assertFileName (InstanceName s) (N (Rev s)))
       (entries fs' assertionsDir)
  /\ ~ In (snapFileName (InstanceName s) (N (Rev s))) (entries fs' snapsDir).
Proof.
  cbv zeta. unfold Cleanup.cleanUpCurrentSnaps.
  pose proof (cleanUpSnap_fold (requiredSnaps g) assertionsDir snapsDir
                               (currentSnaps g) [] fs) as H.
  destruct (fold_left _ (currentSnaps g) _) as [kept' fs'].
  destruct H as (_ & _ & _ & Hrem). simpl. now apply Hrem.
Qed.

End CleanupFacts.

Section CleanupSeedFacts.
Import GoStrings Utils SeedYaml FileNames Cleanup.

Variable removeFails : string -> bool.
Variable readSeedYaml : result string.
Variable yamlUnmarshal : string -> result (list SeedSnap).
Variable yamlMarshal : list SeedSnap -> result string.
Variable writeSeedYaml : string -> result unit.

Lemma updateSeedYaml_snaps (currentSnaps : list CurrentSnap)
      (snaps : list SeedSnap) (text : string) :
  updateSeedYaml readSeedYaml yamlUnmarshal yamlMarshal writeSeedYaml
                 currentSnaps = Ok (snaps, text) ->
  snaps = map snapData currentSnaps.
Proof.
  unfold updateSeedYaml.
  destruct readSeedYaml as [file|]; [|discriminate].
  destruct (yamlUnmarshal file); [|discriminate].
  rewrite fold_left_snoc_map. simpl.
  destruct (yamlMarshal _) as [yaml|]; [|discriminate].
  destruct (writeSeedYaml yaml); [|discriminate].
  now intros [= <- _].
Qed.

(** X10: the files of the snaps that [updateSeedYaml] has written to
    seed.yaml survive [cleanUpFiles].  For every snap of the list given to
    [updateSeedYaml], whatever its name and revision, the snap file
    [name_revision.snap] of the snaps directory and the assertion file
    [name_revision.assert] of the assertions directory, if there before,
    are there after the cleanup on the entries that were written: the
    revision [cleanUpFiles] reads from the [file] of an entry is the one
    [updateSeedYaml] has put there. *)
Theorem cleanUpFiles_keeps_seeded
        (currentSnaps : list CurrentSnap) (snaps : list SeedSnap)
        (text : string) (snapsDir assertionsDir : string) (fs : FS)
        (cs : CurrentSnap)
        (Hseed : updateSeedYaml readSeedYaml yamlUnmarshal yamlMarshal
                                writeSeedYaml currentSnaps = Ok (snaps, text))
        (Hin : In cs currentSnaps) :
  let fs' := cleanUpFiles removeFails snaps snapsDir assertionsDir fs in
  let snapFile := snapFileName (InstanceName cs) (N (Rev cs)) in
  let assertFile := assertFileName (InstanceName cs) (N (Rev cs)) in
  mapBool (validSnaps snaps) snapFile = true
  /\ mapBool (validAssertions snaps) assertFile = true
  /\ (In snapFile (entries fs snapsDir) -> In snapFile (entries fs' snapsDir))
  /\ (In assertFile (entries fs assertionsDir) ->
      In assertFile (entries fs' assertionsDir)).
Proof.
  cbv zeta. apply updateSeedYaml_snaps in Hseed. subst snaps.
  assert (Hentry : In (snapData cs) (map snapData currentSnaps))
    by now apply in_map.
  assert (Hrev : extractRevisionFromFile (File (snapData cs))
                 = Itoa (N (Rev cs)))
    by apply extractRevisionFromFile_snapFileName.
  assert (Hvs : mapBool (validSnaps (map snapData currentSnaps))
                        (snapFileName (InstanceName cs) (N (Rev cs))) = true).
  { apply validSnaps_iff. exists (snapData cs).
    split; [exact Hentry|]. rewrite Hrev.
    split; [apply Itoa_nonempty | reflexivity]. }
  assert (Hva : mapBool (validAssertions (map snapData currentSnaps))
                        (assertFileName (InstanceName cs) (N (Rev cs)))
                = true).
  { apply validAssertions_iff. exists (snapData cs).
    split; [exact Hentry|]. rewrite Hrev.
    split; [apply Itoa_nonempty | reflexivity]. }
  assert (Hs : forall name revision,
             snapFileName name revision
             = (name +:+ "_" +:+ Itoa revision) +:+ ".snap")
    by (intros; unfold snapFileName; now rewrite !append_assoc).
  assert (Ha : forall name revision,
             assertFileName name revision
             = (name +:+ "_" +:+ Itoa revision) +:+ ".assert")
    by (intros; unfold assertFileName; now rewrite !append_assoc).
  split; [exact Hvs|]. split; [exact Hva|].
  split; intros Hfile; apply cleanUpFiles_keeps; try assumption; intros _.
  - unfold staleSnapsEntry. rewrite Hvs, andb_false_r, orb_false_r.
    rewrite Hs.
    destruct (HasSuffix_snap_other
                (InstanceName cs +:+ "_" +:+ Itoa (N (Rev cs))))
      as (-> & -> & _).
    reflexivity.
  - unfold staleAssertionsEntry. rewrite Hs.
    destruct (HasSuffix_snap_other
                (InstanceName cs +:+ "_" +:+ Itoa (N (Rev cs))))
      as (_ & _ & ->).
    reflexivity.
  - unfold staleSnapsEntry. rewrite Ha.
    destruct (HasSuffix_assert_other
                (InstanceName cs +:+ "_" +:+ Itoa (N (Rev cs))))
      as (-> & -> & ->).
    reflexivity.
  - unfold staleAssertionsEntry. rewrite Hva. apply andb_false_r.
Qed.

(** X22: when no removal fails, the only snap files and assertion files
    that [cleanUpFiles] leaves are those of the snaps [updateSeedYaml] has
    written: a name that still ends in [.snap] in the snaps directory is
    [name_revision.snap], and a name that still ends in [.assert] in the
    assertions directory is [name_revision.assert], for a snap of the list
    given to [updateSeedYaml]; the snap file is the [file] of its entry. *)
Theorem cleanUpFiles_only_seeded
        (currentSnaps : list CurrentSnap) (snaps : list SeedSnap)
        (text : string) (snapsDir assertionsDir : string) (fs : FS)
        (Hseed : updateSeedYaml readSeedYaml yamlUnmarshal yamlMarshal
                                writeSeedYaml currentSnaps = Ok (snaps, text))
        (Hremove : forall path, removeFails path = false) :
  let fs' := cleanUpFiles removeFails snaps snapsDir assertionsDir fs in
  (forall name,
      In name (entries fs' snapsDir) -> HasSuffix name ".snap" = true ->
      exists cs,
        In cs currentSnaps
        /\ name = snapFileName (InstanceName cs) (N (Rev cs))
        /\ In (mkSeedSnap (InstanceName cs)
                          (ReplaceAll (TrackingChannel cs) "latest/" EmptyString)
                          name) snaps)
  /\ (forall name,
         In name (entries fs' assertionsDir) ->
         HasSuffix name ".assert" = true ->
         exists cs,
           In cs currentSnaps
           /\ name = assertFileName (InstanceName cs) (N (Rev cs))).
Proof.
  cbv zeta. apply updateSeedYaml_snaps in Hseed. subst snaps.
  destruct (cleanUpFiles_fresh removeFails (map snapData currentSnaps)
                               snapsDir assertionsDir fs Hremove)
    as [Hsnaps Hassertions].
  assert (Hrev : forall cs,
             extractRevisionFromFile (File (snapData cs)) = Itoa (N (Rev cs)))
    by (intros cs; apply extractRevisionFromFile_snapFileName).
  split.
  - intros name Hin Hsuf. specialize (Hsnaps name Hin).
    unfold staleSnapsEntry in Hsnaps. rewrite Hsuf in Hsnaps.
    apply orb_false_iff in Hsnaps as [_ Hvalid]. simpl in Hvalid.
    apply negb_false_iff, validSnaps_iff in Hvalid
      as (e & He & _ & Hname).
    apply in_map_iff in He as (cs & <- & Hcs).
    rewrite Hrev in Hname. exists cs. split; [exact Hcs|].
    split; [exact Hname|]. subst name. now apply (in_map snapData).
  - intros name Hin Hsuf. specialize (Hassertions name Hin).
    unfold staleAssertionsEntry in Hassertions. rewrite Hsuf in Hassertions.
    simpl in Hassertions.
    apply negb_false_iff, validAssertions_iff in Hassertions
      as (e & He & _ & Hname).
    apply in_map_iff in He as (cs & <- & Hcs).
    rewrite Hrev in Hname. exists cs. now split.
Qed.

End CleanupSeedFacts.


(** ** The resolver: what it leaves in [currentSnaps] *)

Section LedgerFacts.
Import GoStrings Utils Resolver ResolverSpec ResolverLedger.

Variable storeSnapAction :
  list CurrentSnap -> list SnapAction -> result (list SnapActionResult).
Variable readDir : string -> result (list string).
Variable scanLines : string -> result (list string).
Variable missingProviders : Info -> list string.
Variables snapsDir assertionsDir : string.

#[local] Abbreviation fetchWithFallback := (fetchWithFallback storeSnapAction).
#[local] Abbreviation findPreviousSnap :=
  (findPreviousSnap readDir scanLines snapsDir assertionsDir).
#[local] Abbreviation collectSnapDependencies :=
  (collectSnapDependencies storeSnapAction readDir scanLines missingProviders
                           snapsDir assertionsDir).

Lemma isSnapInCurrentSnaps_found (l : list CurrentSnap) (name : string)
      (revision : Revision) :
  isSnapInCurrentSnaps l name = (true, revision) ->
  exists e, In e l /\ InstanceName e = name /\ Rev e = revision.
Proof.
  induction l as [|e l IH]; simpl; [discriminate|].
  destruct (String.eqb_spec (InstanceName e) name) as [E|_].
  - intros [= <-]. exists e. auto.
  - intros H. destruct (IH H) as (e' & He' & H'). exists e'. auto.
Qed.

Lemma isSnapInCurrentSnaps_app (old new : list CurrentSnap) (name : string) :
  (forall e, In e new -> InstanceName e <> name) ->
  isSnapInCurrentSnaps (old ++ new) name = isSnapInCurrentSnaps old name.
Proof.
  intros Hnew. induction old as [|e old IH]; simpl.
  - induction new as [|e new IH]; [reflexivity|]. simpl.
    destruct (String.eqb_spec (InstanceName e) name) as [E|_].
    + exfalso. apply (Hnew e); [now left | exact E].
    + apply IH. intros e' He'. apply Hnew. now right.
  - now destruct (String.eqb (InstanceName e) name).
Qed.

Lemma removeSnapFromCurrentSnaps_app (old new : list CurrentSnap)
      (name : string) (revision : Revision) :
  (exists e, In e old /\ Rev e = revision) ->
  removeSnapFromCurrentSnaps (old ++ new) name revision
  = removeSnapFromCurrentSnaps old name revision ++ new.
Proof.
  induction old as [|e old IH]; intros (e' & Hin & Hrev); [destruct Hin|].
  simpl. destruct (Revision_eqb (Rev e) revision) eqn:E; [reflexivity|].
  simpl. f_equal. apply IH. destruct Hin as [->|Hin]; [|eauto].
  unfold Revision_eqb in E. rewrite Hrev, Z.eqb_refl in E. discriminate.
Qed.

Lemma removeSnapFromCurrentSnaps_incl (l : list CurrentSnap)
      (name : string) (revision : Revision) :
  incl (removeSnapFromCurrentSnaps l name revision) l.
Proof.
  induction l as [|e l IH]; simpl; [apply incl_refl|].
  destruct (Revision_eqb (Rev e) revision).
  - apply incl_tl, incl_refl.
  - intros x [<-|Hx]; [now left | right; now apply IH].
Qed.

Lemma ledger_refl (g : Globals) : ledger g [] g.
Proof.
  intros old new Hsplit Hnew. exists old, [].
  rewrite app_nil_r. split; [exact Hsplit|]. split; [apply incl_refl|].
  split; [constructor|]. split; [intros e []|].
  split; [intros name H1 H2; congruence | intros d []].
Qed.

Lemma ledger_trans (g g1 g2 : Globals) (l1 l2 : list SnapDetails) :
  grows g g1 -> grows g1 g2 ->
  ledger g l1 g1 -> ledger g1 l2 g2 -> ledger g (l1 ++ l2) g2.
Proof.
  intros [Hp1 Hr1] [Hp2 Hr2] L1 L2 old new Hsplit Hnew.
  destruct (L1 old new Hsplit Hnew)
    as (old1 & new1 & Hc1 & Hi1 & Hn1 & He1 & Hc1' & Hd1).
  destruct (L2 old1 (new ++ new1)) as (old2 & new2 & Hc2 & Hi2 & Hn2 & He2 & Hc2' & Hd2).
  { exact Hc1. }
  { intros e He. apply in_app_or in He as [He|He];
      [apply Hp1; now apply Hnew | now apply He1]. }
  exists old2, (new1 ++ new2).
  split; [now rewrite Hc2, <- !app_assoc|].
  split; [intros x Hx; apply Hi1; now apply Hi2|].
  split.
  { rewrite map_app. apply List.NoDup_app; [exact Hn1 | exact Hn2 |].
    intros name H1 H2.
    apply in_map_iff in H1 as (e1 & <- & H1).
    apply in_map_iff in H2 as (e2 & E & H2).
    destruct (He1 e1 H1) as (_ & Ht & _).
    destruct (He2 e2 H2) as (Hf & _). congruence. }
  split.
  { intros e He. apply in_app_or in He as [He|He].
    - destruct (He1 e He) as (Ha & Hb & Hc & Hd & Hf & Hg).
      repeat split; try assumption; [now apply Hp2|].
      destruct Hg as [Hg|(d & Hd' & E)]; [left; now apply Hr2|].
      right. exists d. split; [apply in_or_app; now left | exact E].
    - destruct (He2 e He) as (Ha & Hb & Hc & Hd & Hf & Hg).
      repeat split; try assumption.
      + destruct (mapBool (processedSnaps g) (InstanceName e)) eqn:E;
          [|reflexivity].
        apply Hp1 in E. congruence.
      + destruct Hg as [Hg|(d & Hd' & E)]; [now left|].
        right. exists d. split; [apply in_or_app; now right | exact E]. }
  split.
  { intros name Hf Ht.
    destruct (mapBool (processedSnaps g1) name) eqn:E.
    - destruct (Hc1' name Hf E) as (e & He & Hname).
      exists e. split; [apply in_or_app; now left | exact Hname].
    - destruct (Hc2' name E Ht) as (e & He & Hname).
      exists e. split; [apply in_or_app; now right | exact Hname]. }
  intros d Hd. apply in_or_app. apply in_app_or in Hd as [Hd|Hd];
    [left; now apply Hd1 | right; now apply Hd2].
Qed.

Lemma storeEntry_resolved (answer : string -> result SnapActionResult)
      (channel : string) (g g' : Globals) (l : list SnapDetails)
      (e : CurrentSnap) :
  storeEntry answer channel g l g' e -> resolvedEntry g l g' e.
Proof.
  intros (Hf & Ht & r & info & _ & _ & Hid & Hrev & He & Hw).
  assert (Hfields : SnapID e = InfoSnapID info
                    /\ N (Rev e) = N (InfoRevision info)
                    /\ TrackingChannel e = EmptyString)
    by (rewrite He; repeat split).
  destruct Hfields as (Hi & Hr & Hc).
  split; [exact Hf|]. split; [exact Ht|].
  split; [now rewrite Hi|]. split; [now rewrite Hr|]. split; [exact Hc|].
  destruct Hw as [Hw|Hw]; [now left|].
  right. eexists. split; [exact Hw | reflexivity].
Qed.

Lemma storeLedger_ledger (answer : string -> result SnapActionResult)
      (channel : string) (g g' : Globals) (l : list SnapDetails) :
  storeLedger answer channel g l g' -> ledger g l g'.
Proof.
  intros L old new Hsplit Hnew.
  destruct (L old new Hsplit Hnew)
    as (old' & new' & Hc & Hi & Hn & He & Hcover & Hd).
  exists old', new'.
  split; [exact Hc|]. split; [exact Hi|]. split; [exact Hn|].
  split; [|split; [exact Hcover | exact Hd]].
  intros e Hin. eapply storeEntry_resolved. exact (He e Hin).
Qed.

Lemma storeLedger_refl (answer : string -> result SnapActionResult)
      (channel : string) (g : Globals) :
  storeLedger answer channel g [] g.
Proof.
  intros old new Hsplit Hnew. exists old, [].
  rewrite app_nil_r. split; [exact Hsplit|]. split; [apply incl_refl|].
  split; [constructor|]. split; [intros e []|].
  split; [intros name H1 H2; congruence | intros d []].
Qed.

Lemma storeLedger_trans (answer : string -> result SnapActionResult)
      (channel : string) (g g1 g2 : Globals) (l1 l2 : list SnapDetails) :
  grows g g1 -> grows g1 g2 ->
  storeLedger answer channel g l1 g1 -> storeLedger answer channel g1 l2 g2 ->
  storeLedger answer channel g (l1 ++ l2) g2.
Proof.
  intros [Hp1 Hr1] [Hp2 Hr2] L1 L2 old new Hsplit Hnew.
  destruct (L1 old new Hsplit Hnew)
    as (old1 & new1 & Hc1 & Hi1 & Hn1 & He1 & Hc1' & Hd1).
  destruct (L2 old1 (new ++ new1))
    as (old2 & new2 & Hc2 & Hi2 & Hn2 & He2 & Hc2' & Hd2).
  { exact Hc1. }
  { intros e He. apply in_app_or in He as [He|He];
      [apply Hp1; now apply Hnew | now apply He1]. }
  exists old2, (new1 ++ new2).
  split; [now rewrite Hc2, <- !app_assoc|].
  split; [intros x Hx; apply Hi1; now apply Hi2|].
  split.
  { rewrite map_app. apply List.NoDup_app; [exact Hn1 | exact Hn2 |].
    intros name H1 H2.
    apply in_map_iff in H1 as (e1 & <- & H1).
    apply in_map_iff in H2 as (e2 & E & H2).
    destruct (He1 e1 H1) as (_ & Ht & _).
    destruct (He2 e2 H2) as (Hf & _). congruence. }
  split.
  { intros e He. apply in_app_or in He as [He|He].
    - destruct (He1 e He)
        as (Ha & Hb & r & info & Hans & Hinfo & Hid & Hrev & Hshape & Hw).
      split; [exact Ha|]. split; [now apply Hp2|].
      exists r, info. repeat split; try assumption.
      destruct Hw as [Hw|Hw]; [left; now apply Hr2|].
      right. apply in_or_app. now left.
    - destruct (He2 e He)
        as (Ha & Hb & r & info & Hans & Hinfo & Hid & Hrev & Hshape & Hw).
      split.
      { destruct (mapBool (processedSnaps g) (InstanceName e)) eqn:E;
          [|reflexivity].
        apply Hp1 in E. congruence. }
      split; [exact Hb|].
      exists r, info. repeat split; try assumption.
      destruct Hw as [Hw|Hw]; [now left|].
      right. apply in_or_app. now right. }
  split.
  { intros name Hf Ht.
    destruct (mapBool (processedSnaps g1) name) eqn:E.
    - destruct (Hc1' name Hf E) as (e & He & Hname).
      exists e. split; [apply in_or_app; now left | exact Hname].
    - destruct (Hc2' name E Ht) as (e & He & Hname).
      exists e. split; [apply in_or_app; now right | exact Hname]. }
  intros d Hd. apply in_or_app. apply in_app_or in Hd as [Hd|Hd];
    [left; now apply Hd1 | right; now apply Hd2].
Qed.

Lemma collectPrereqs_storeLedger
      (answer : string -> result SnapActionResult) (channel : string)
      (recurse : string -> Globals -> run (list SnapDetails))
      (Hrec : forall name g l g',
          recurse name g = Done l g' ->
          grows g g' /\ storeLedger answer channel g l g')
      (snapName : string) (prereqs : list string) :
  forall g acc l g',
    collectPrereqs recurse snapName prereqs g acc = Done l g' ->
    exists extra,
      l = acc ++ extra /\ grows g g' /\ storeLedger answer channel g extra g'.
Proof.
  induction prereqs as [|p ps IH]; intros g acc l g' Hrun; simpl in Hrun.
  - injection Hrun as <- <-. exists []. rewrite app_nil_r.
    split; [reflexivity|].
    split; [apply grows_refl | apply storeLedger_refl].
  - destruct (negb (mapBool (processedSnaps g) p)).
    + destruct (recurse p g) as [l1 g1| |] eqn:Hp; try discriminate.
      apply Hrec in Hp as [Hg1 Hl1].
      apply IH in Hrun as (extra & -> & Hg2 & Hl2).
      exists (l1 ++ extra). rewrite app_assoc. split; [reflexivity|].
      split; [eapply grows_trans; eassumption|].
      eapply storeLedger_trans; eassumption.
    + now apply IH in Hrun.
Qed.

Lemma collectSnapDependencies_storeLedger (fuel : nat)
      (channel fallbackChannel : string) :
  forall snapName g l g',
    collectSnapDependencies fuel snapName channel fallbackChannel g
    = Done l g' ->
    grows g g'
    /\ storeLedger
         (fun name =>
            fetchWithFallback name (snd (findPreviousSnap name))
                              channel fallbackChannel)
         channel g l g'.
Proof.
  set (answer := fun name : string => fetchWithFallback name _ _ _).
  induction fuel as [|fuel IH];
    intros snapName g l g' Hrun; [discriminate|].
  cbn [Resolver.collectSnapDependencies] in Hrun.
  destruct (mapBool (processedSnaps g) snapName) eqn:Hnew.
  { injection Hrun as <- <-.
    split; [apply grows_refl | apply storeLedger_refl]. }
  assert (Hanswer : answer snapName
                    = fetchWithFallback snapName
                                        (snd (findPreviousSnap snapName))
                                        channel fallbackChannel)
    by reflexivity.
  destruct (findPreviousSnap snapName) as [oldSnapPath oldSnap].
  cbn [snd] in Hanswer.
  destruct (fetchWithFallback _ _ _ _) as [result|] eqn:Hfetch;
    [|discriminate].
  destruct (ResInfo result) as [info|] eqn:Hinfo; [|discriminate].
  destruct (String.eqb_spec (InfoSnapID info) EmptyString) as [|Hid];
    [discriminate|].
  destruct (Z.eqb_spec (N (InfoRevision info)) 0) as [|Hrev];
    [discriminate|].
  simpl orb in Hrun. cbv iota in Hrun.
  destruct (isSnapInCurrentSnaps _ _) as [inCurrent oldRevision] eqn:Hfound.
  set (newSnap := mkCurrentSnap snapName _ _ _) in Hrun.
  set (current := _ ++ [newSnap]) in Hrun.
  set (start :=
         if needsUpdate oldSnapPath oldSnap info
         then ([mkSnapDetails snapName channel newSnap result], requiredSnaps g)
         else ([], <[snapName := true]> (requiredSnaps g))) in Hrun.
  set (g0 := mkGlobals current (snd start)
                       (<[snapName := true]> (processedSnaps g))).
  assert (Hp0 : mapBool (processedSnaps g0) snapName = true).
  { simpl. rewrite mapBool_insert. now destruct (decide _). }
  assert (Hg0 : grows g g0).
  { split; simpl; [intros n; apply mapBool_insert_mono|].
    subst start. destruct (needsUpdate _ _ _); simpl; auto.
    intros n. apply mapBool_insert_mono. }
  assert (Hstart : storeLedger answer channel g (fst start) g0).
  { intros old new Hsplit Hold.
    assert (Hnames : forall e, In e new -> InstanceName e <> snapName).
    { intros e He E. specialize (Hold e He). congruence. }
    assert (Hcur : exists old',
               current = old' ++ new ++ [newSnap] /\ incl old' old).
    { subst current. rewrite Hsplit in Hfound |- *.
      rewrite isSnapInCurrentSnaps_app in Hfound by exact Hnames.
      destruct inCurrent.
      - apply isSnapInCurrentSnaps_found in Hfound as (e & He & _ & Hr).
        rewrite removeSnapFromCurrentSnaps_app by eauto.
        eexists. rewrite <- app_assoc. split; [reflexivity|].
        apply removeSnapFromCurrentSnaps_incl.
      - exists old. rewrite <- app_assoc. split; [reflexivity|].
        apply incl_refl. }
    destruct Hcur as (old' & Hcur & Hincl).
    exists old', [newSnap]. split; [exact Hcur|]. split; [exact Hincl|].
    split; [constructor; [intros [] | constructor]|].
    split.
    { intros e [<-|[]]. split; [exact Hnew|]. split; [exact Hp0|].
      exists result, info.
      split; [exact Hanswer|]. split; [exact Hinfo|].
      split; [exact Hid|]. split; [exact Hrev|].
      split; [reflexivity|].
      subst start. destruct (needsUpdate _ _ _); simpl.
      - right. now left.
      - left. rewrite mapBool_insert. now destruct (decide _). }
    split.
    { intros name Hf Ht. simpl in Ht. rewrite mapBool_insert in Ht.
      destruct (decide (snapName = name)) as [<-|_]; [|congruence].
      exists newSnap. split; [now left | reflexivity]. }
    subst start. destruct (needsUpdate _ _ _); simpl;
      [intros d [<-|[]]; now left | intros d []]. }
  destruct start as [snapDetailsList required]. simpl in Hstart, g0, Hg0.
  fold g0 in Hrun.
  destruct (collectPrereqs _ _ _ _ _) as [l1 g1| |] eqn:Hpre;
    try discriminate.
  apply (collectPrereqs_storeLedger answer channel) in Hpre
    as (extra & -> & Hg1 & Hl1);
    [|intros; eapply IH; eassumption].
  assert (Hall : grows g g1
                 /\ storeLedger answer channel g (snapDetailsList ++ extra) g1).
  { split; [eapply grows_trans; eassumption|].
    eapply storeLedger_trans; eassumption. }
  destruct (_ && _).
  - destruct (collectSnapDependencies fuel (Base info) _ _ g1)
      as [baseDetails g2| |] eqn:Hbase; try discriminate.
    injection Hrun as <- <-.
    apply IH in Hbase as [Hg2 Hl2]. destruct Hall as [Hga Hla].
    split; [eapply grows_trans; eassumption|].
    eapply storeLedger_trans; eassumption.
  - injection Hrun as <- <-. exact Hall.
Qed.

Lemma collectSnapDependencies_ledger (fuel : nat) :
  forall snapName channel fallbackChannel g l g',
    collectSnapDependencies fuel snapName channel fallbackChannel g
    = Done l g' ->
    grows g g' /\ ledger g l g'.
Proof.
  intros snapName channel fallbackChannel g l g' Hrun.
  apply collectSnapDependencies_storeLedger in Hrun as [Hg Hl].
  split; [exact Hg | eapply storeLedger_ledger; exact Hl].
Qed.

(** X18: the resolver removes an entry of [currentSnaps] by its revision
    alone, and still never loses the entry of a snap it has resolved.  Let
    [currentSnaps] be [old ++ new] before a run, the entries [new] being
    of snaps already processed.  After the run it is [old' ++ new ++ new']:
    the entries [new] are all there, [old'] holds only entries of [old],
    and [new'] holds one entry, no name twice, for each snap the run has
    processed.  Each of these entries is built from the answer the store
    gave for its snap (the result of the fetch with its recovery, on the
    channels of the run, from the previous snap found in the seed): it
    holds the name, the snap id and the revision of that answer, both
    valid, and no tracking channel; its snap is in [requiredSnaps], or the
    list returned holds the work item made of the name, the channel, this
    entry and that answer; and the [CurrentSnap] of every work item is
    among these entries. *)
Theorem collectSnapDependencies_keeps_resolved
        (fuel : nat) (snapName channel fallbackChannel : string)
        (g : Globals) (l : list SnapDetails) (g' : Globals)
        (old new : list CurrentSnap)
        (Hrun : collectSnapDependencies fuel snapName channel fallbackChannel g
                = Done l g')
        (Hsplit : currentSnaps g = old ++ new)
        (Hnew : forall e, In e new ->
                          mapBool (processedSnaps g) (InstanceName e) = true) :
  exists old' new',
    currentSnaps g' = old' ++ new ++ new'
    /\ incl old' old
    /\ List.NoDup (map InstanceName new')
    /\ (forall e,
          In e new' ->
          mapBool (processedSnaps g) (InstanceName e) = false
          /\ mapBool (processedSnaps g') (InstanceName e) = true
          /\ exists actionResult info,
               fetchWithFallback (InstanceName e)
                                 (snd (findPreviousSnap (InstanceName e)))
                                 channel fallbackChannel = Ok actionResult
               /\ ResInfo actionResult = Some info
               /\ InfoSnapID info <> EmptyString
               /\ N (InfoRevision info) <> 0
               /\ e = mkCurrentSnap (InstanceName e) (InfoSnapID info)
                                    (mkRevision (N (InfoRevision info)))
                                    EmptyString
               /\ (mapBool (requiredSnaps g') (InstanceName e) = true
                   \/ In (mkSnapDetails (InstanceName e) channel e
                                        actionResult) l))
    /\ (forall name,
          mapBool (processedSnaps g) name = false ->
          mapBool (processedSnaps g') name = true ->
          exists e, In e new' /\ InstanceName e = name)
    /\ (forall d, In d l -> In (DetCurrentSnap d) new').
Proof.
  destruct (collectSnapDependencies_storeLedger _ _ _ _ _ _ _ Hrun)
    as [_ Hl].
  destruct (Hl old new Hsplit Hnew)
    as (old' & new' & Hc & Hi & Hn & He & Hcover & Hd).
  exists old', new'.
  split; [exact Hc|]. split; [exact Hi|]. split; [exact Hn|].
  split; [|split; [exact Hcover | exact Hd]].
  intros e Hin. exact (He e Hin).
Qed.

End LedgerFacts.

(** ** The download file *)

Section DownloadFileFacts.
Import GoStrings FileNames Download.

Variable verbose : bool.
Variable storeDownload : list event -> string -> string -> bool -> option string.
Variable fileExists : list event -> string -> bool.
Variable xdelta3 :
  list event -> string -> string -> string -> option (string * string).
Variable downloadAssertions : list event -> Info -> string -> option string.

#[local] Abbreviation downloadSnap := (downloadSnap verbose storeDownload).
#[local] Abbreviation downloadSnapLoop :=
  (downloadSnapLoop verbose storeDownload).
#[local] Abbreviation downloadSnapDelta := (downloadSnapDelta storeDownload).
#[local] Abbreviation deltaRetryLoop := (deltaRetryLoop storeDownload).
#[local] Abbreviation downloadSnapDeltaWithRetries :=
  (downloadSnapDeltaWithRetries storeDownload).

Lemma downloadSnapLoop_cons (attempts : Z) (rest : list Z)
      (snapInfo : Info) (downloadPath : string) (t : list event) :
  downloadSnapLoop (attempts :: rest) snapInfo downloadPath t
  = match storeDownload t (InfoSnapID snapInfo) downloadPath false with
    | None =>
        (None,
         t ++ [Download (InfoSnapID snapInfo) downloadPath false None;
               Finished false])
    | Some err =>
        let t' :=
          t ++ failedAttempt verbose (InfoSnapID snapInfo) downloadPath err in
        if attempts =? 5
        then (Some ("snap download failed after 5 attempts: " +:+ err), t')
        else downloadSnapLoop rest snapInfo downloadPath t'
    end.
Proof.
  cbn [Download.downloadSnapLoop].
  unfold bind, log, ret, callDownload, failedAttempt.
  destruct (storeDownload t _ _ _) as [err|];
    [|now rewrite <- app_assoc].
  destruct verbose; cbv zeta; destruct (attempts =? 5);
    rewrite <- ?app_assoc; reflexivity.
Qed.

(** The calls of [downloadSnap]. *)
Lemma downloadSnap_shape
        (snapInfo : Info) (downloadPath : string) (t : list event) :
  let snapID := InfoSnapID snapInfo in
  exists errs : list string,
    ((length errs < 5)%nat
     /\ downloadSnap snapInfo downloadPath t
        = (None,
           t ++ UpdateStepProgress 0
             :: concat (map (failedAttempt verbose snapID downloadPath) errs)
             ++ [Download snapID downloadPath false None; Finished false]))
    \/ (exists err,
           length errs = 4%nat
           /\ downloadSnap snapInfo downloadPath t
              = (Some ("snap download failed after 5 attempts: " +:+ err),
                 t ++ UpdateStepProgress 0
                   :: concat (map (failedAttempt verbose snapID downloadPath)
                                  (errs ++ [err])))).
Proof.
  cbv zeta.
  assert (Hrun : downloadSnap snapInfo downloadPath t
                 = downloadSnapLoop [1; 2; 3; 4; 5] snapInfo downloadPath
                                    (t ++ [UpdateStepProgress 0]))
    by reflexivity.
  rewrite Hrun. clear Hrun.
  set (fa := failedAttempt verbose (InfoSnapID snapInfo) downloadPath).
  assert (Hshape : forall (done : list string) (evs : list event),
             t ++ UpdateStepProgress 0 :: concat (map fa done) ++ evs
             = (t ++ [UpdateStepProgress 0]) ++ concat (map fa done) ++ evs)
    by (intros; now rewrite <- app_assoc).
  assert (Hnext : forall (done : list string) (err : string),
             ((t ++ [UpdateStepProgress 0]) ++ concat (map fa done)) ++ fa err
             = (t ++ [UpdateStepProgress 0]) ++ concat (map fa (done ++ [err])))
    by (intros; rewrite map_app, concat_app; simpl;
        now rewrite app_nil_r, <- !app_assoc).
  set (t0 := t ++ [UpdateStepProgress 0]) in *.
  pose proof (app_nil_r t0) as H0.
  change (@nil event) with (concat (map fa [])) in H0.
  rewrite <- H0. clear H0.
  rewrite downloadSnapLoop_cons. fold fa.
  destruct (storeDownload _ _ _ _) as [e1|].
  2:{ exists []. left. split; [simpl; lia|].
      now rewrite Hshape, <- app_assoc. }
  cbv zeta. simpl Z.eqb. cbv iota. rewrite Hnext.
  rewrite downloadSnapLoop_cons. fold fa.
  destruct (storeDownload _ _ _ _) as [e2|].
  2:{ eexists. left. split; [|now rewrite Hshape, <- app_assoc].
      simpl; lia. }
  cbv zeta. simpl Z.eqb. cbv iota. rewrite Hnext.
  rewrite downloadSnapLoop_cons. fold fa.
  destruct (storeDownload _ _ _ _) as [e3|].
  2:{ eexists. left. split; [|now rewrite Hshape, <- app_assoc].
      simpl; lia. }
  cbv zeta. simpl Z.eqb. cbv iota. rewrite Hnext.
  rewrite downloadSnapLoop_cons. fold fa.
  destruct (storeDownload _ _ _ _) as [e4|].
  2:{ eexists. left. split; [|now rewrite Hshape, <- app_assoc].
      simpl; lia. }
  cbv zeta. simpl Z.eqb. cbv iota. rewrite Hnext.
  rewrite downloadSnapLoop_cons. fold fa.
  destruct (storeDownload _ _ _ _) as [e5|].
  2:{ eexists. left. split; [|now rewrite Hshape, <- app_assoc].
      simpl; lia. }
  cbv zeta. simpl Z.eqb. cbv iota. rewrite Hnext.
  exists [e1; e2; e3; e4]. right. exists e5.
  split; [reflexivity|]. subst t0. now rewrite <- app_assoc.
Qed.

(** X11: [downloadSnap] asks the store for the snap at most five times
    and stops at the first answer without error, calling [Finished] on
    the meter then and only then.  It returns an error exactly when five
    attempts in a row have failed, and the error wraps that of the fifth;
    the [return] after the loop is never reached.  After an attempt that
    fails it resets the step progress unless the run is verbose. *)
Theorem downloadSnap_attempts
        (snapInfo : Info) (downloadPath : string) (t : list event) :
  let snapID := InfoSnapID snapInfo in
  let run := downloadSnap snapInfo downloadPath t in
  fst run <> Some "snap download failed after 5 attempts"
  /\ exists (errs : list string) (evs : list event),
       snd run
       = t ++ UpdateStepProgress 0
           :: concat (map (failedAttempt verbose snapID downloadPath) errs)
           ++ evs
       /\ (((length errs < 5)%nat
            /\ fst run = None
            /\ evs = [Download snapID downloadPath false None; Finished false])
           \/ (length errs = 5%nat
               /\ fst run
                  = Some ("snap download failed after 5 attempts: "
                          +:+ List.last errs EmptyString)
               /\ evs = [])).
Proof.
  cbv zeta.
  destruct (downloadSnap_shape snapInfo downloadPath t)
    as (errs & [[Hlen Hrun]|(err & Hlen & Hrun)]); rewrite Hrun; simpl.
  - split; [discriminate|].
    exists errs. eexists. split; [reflexivity|]. left. now repeat split.
  - split; [intros H; vm_compute in H; discriminate H|].
    exists (errs ++ [err]), []. rewrite app_nil_r.
    split; [reflexivity|]. right.
    split; [rewrite length_app; simpl; lia|].
    split; [|reflexivity].
    destruct errs as [|e1 [|e2 [|e3 [|e4 [|e5 errs]]]]]; try discriminate.
    reflexivity.
Qed.

Lemma downloadSnapDelta_run (delta : DeltaInfo) (snapInfo : Info)
      (deltaPath : string) (t : list event) :
  downloadSnapDelta delta snapInfo deltaPath t
  = match storeDownload (t ++ [UpdateStepProgress 0])
                        (InfoSnapID snapInfo) deltaPath true with
    | None =>
        (None,
         t ++ [UpdateStepProgress 0;
               Download (InfoSnapID snapInfo) deltaPath true None;
               Finished true])
    | Some err =>
        (Some ("delta download failed: " +:+ err),
         t ++ [UpdateStepProgress 0;
               Download (InfoSnapID snapInfo) deltaPath true (Some err);
               UpdateStepProgress 0])
    end.
Proof.
  unfold Download.downloadSnapDelta, bind, log, ret, callDownload.
  destruct (storeDownload _ _ _ _); now rewrite <- !app_assoc.
Qed.

Lemma wrap64_small (n : Z) : 0 <= n < 2 ^ 63 -> wrap64 n = n.
Proof.
  intros H. unfold wrap64. rewrite Z.mod_small; lia.
Qed.

Lemma backoff_doubles (i : nat) :
  (i < 33)%nat ->
  wrap64 (2 ^ Z.of_nat i * second * 2) = 2 ^ Z.of_nat (S i) * second.
Proof.
  intros Hi.
  replace (2 ^ Z.of_nat i * second * 2) with (2 ^ Z.of_nat (S i) * second)
    by (rewrite Nat2Z.inj_succ, Z.pow_succ_r; lia).
  apply wrap64_small. unfold second.
  assert (0 < 2 ^ Z.of_nat (S i) <= 2 ^ 33)
    by (split; [apply Z.pow_pos_nonneg; lia
               | apply Z.pow_le_mono_r; lia]).
  lia.
Qed.

Lemma last_cons {A : Type} (a d : A) (l : list A) :
  List.last (a :: l) d = List.last l a.
Proof.
  revert a d; induction l as [|b l IH]; intros a d; [reflexivity|].
  change (List.last (a :: b :: l) d) with (List.last (b :: l) d).
  now rewrite (IH b d), (IH b a).
Qed.

Lemma deltaRetryLoop_cons (n : Z) (nums : list Z) (lastErr : option string)
      (backoff : Z) (delta : DeltaInfo) (snapInfo : Info)
      (deltaPath : string) (maxRetries : Z) (t : list event) :
  deltaRetryLoop (n :: nums) lastErr backoff delta snapInfo deltaPath
                 maxRetries t
  = match storeDownload (t ++ [UpdateStepProgress 0])
                        (InfoSnapID snapInfo) deltaPath true with
    | None =>
        (None,
         t ++ [UpdateStepProgress 0;
               Download (InfoSnapID snapInfo) deltaPath true None;
               Finished true])
    | Some err =>
        deltaRetryLoop nums (Some ("delta download failed: " +:+ err))
                       (wrap64 (backoff * 2)) delta snapInfo deltaPath
                       maxRetries
                       (t ++ [UpdateStepProgress 0;
                              Download (InfoSnapID snapInfo) deltaPath true
                                       (Some err);
                              UpdateStepProgress 0; Sleep backoff])
    end.
Proof.
  cbn [Download.deltaRetryLoop]. unfold bind at 1.
  rewrite downloadSnapDelta_run.
  destruct (storeDownload _ _ _ _) as [err|]; [|reflexivity].
  unfold bind, log. now rewrite <- app_assoc.
Qed.

(** The loop of [downloadSnapDeltaWithRetries] from its [i]-th round. *)
Lemma deltaRetryLoop_shape (delta : DeltaInfo) (snapInfo : Info)
      (deltaPath : string) (maxRetries : Z) (nums : list Z) :
  forall (i : nat) (lastErr : option string) (t : list event),
    (i + length nums <= 33)%nat ->
    exists errs,
      ((length errs < length nums)%nat
       /\ deltaRetryLoop nums lastErr (2 ^ Z.of_nat i * second) delta snapInfo
                         deltaPath maxRetries t
          = (None,
             t ++ failedRounds (InfoSnapID snapInfo) deltaPath i errs
               ++ [UpdateStepProgress 0;
                   Download (InfoSnapID snapInfo) deltaPath true None;
                   Finished true]))
      \/ (length errs = length nums
          /\ deltaRetryLoop nums lastErr (2 ^ Z.of_nat i * second) delta
                            snapInfo deltaPath maxRetries t
             = (Some ("delta download failed after " +:+ Itoa maxRetries
                      +:+ " attempts: "
                      +:+ fmtError
                            (List.last (map (fun e =>
                                          Some ("delta download failed: "
                                                +:+ e)) errs) lastErr)),
                t ++ failedRounds (InfoSnapID snapInfo) deltaPath i errs)).
Proof.
  induction nums as [|n nums IH]; intros i lastErr t Hi.
  - exists []. right. split; [reflexivity|]. simpl. now rewrite app_nil_r.
  - rewrite deltaRetryLoop_cons.
    destruct (storeDownload _ _ _ _) as [err|].
    2:{ exists []. left. split; [simpl; lia | reflexivity]. }
    rewrite backoff_doubles by (simpl in Hi; lia).
    change [UpdateStepProgress 0;
            Download (InfoSnapID snapInfo) deltaPath true (Some err);
            UpdateStepProgress 0; Sleep (2 ^ Z.of_nat i * second)]
      with (failedRound (InfoSnapID snapInfo) deltaPath i err).
    destruct (IH (S i) (Some ("delta download failed: " +:+ err))
                 (t ++ failedRound (InfoSnapID snapInfo) deltaPath i err))
      as (errs & [[Hlen Hrun]|[Hlen Hrun]]); [simpl in Hi; lia | |].
    + exists (err :: errs). left. split; [simpl; lia|].
      rewrite Hrun. cbn [failedRounds]. now rewrite <- !app_assoc.
    + exists (err :: errs). right. split; [simpl; lia|].
      rewrite Hrun. cbn [failedRounds map]. rewrite last_cons.
      now rewrite <- !app_assoc.
Qed.

Lemma slept_app (a b : list event) : slept (a ++ b) = slept a + slept b.
Proof.
  unfold slept. induction a as [|e a IH]; [reflexivity|].
  simpl. rewrite IH. destruct e; lia.
Qed.

Lemma slept_failedRounds (snapID path : string) (errs : list string) :
  forall i,
    slept (failedRounds snapID path i errs)
    = (2 ^ Z.of_nat (i + length errs) - 2 ^ Z.of_nat i) * second.
Proof.
  induction errs as [|err errs IH]; intros i.
  - simpl. rewrite Nat.add_0_r. lia.
  - cbn [failedRounds]. rewrite slept_app, IH.
    replace (i + length (err :: errs))%nat with (S i + length errs)%nat
      by (simpl; lia).
    unfold failedRound, slept at 1. simpl fold_right.
    rewrite (Nat2Z.inj_succ i), Z.pow_succ_r by lia. lia.
Qed.

Lemma length_attemptNumbers (maxRetries : Z) :
  Z.of_nat (length (attemptNumbers maxRetries)) = Z.max 0 maxRetries.
Proof.
  unfold attemptNumbers. rewrite length_map, length_seq. lia.
Qed.

(** X12: [downloadSnapDeltaWithRetries] with a bound of at most 33 (the
    code calls it with 5).  It downloads the delta until an attempt
    succeeds, at most [maxRetries] times, and sleeps after every attempt
    that fails, also after the last one, for 1, 2, 4, ... seconds: after
    [k] failures it has slept [2^k - 1] seconds (31 seconds when all five
    attempts fail).  It returns nil at the first success; after
    [maxRetries] failures it returns an error that gives [maxRetries] and
    the error of the last attempt.  With a bound that is zero or negative
    it makes no call and the error reads [<nil>]. *)
Theorem downloadSnapDeltaWithRetries_backoff
        (delta : DeltaInfo) (snapInfo : Info) (deltaPath : string)
        (maxRetries : Z) (t : list event)
        (Hmax : maxRetries <= 33) :
  let snapID := InfoSnapID snapInfo in
  let run := downloadSnapDeltaWithRetries delta snapInfo deltaPath
                                          maxRetries t in
  exists (errs : list string) (evs : list event),
    snd run = t ++ evs
    /\ slept evs = (2 ^ Z.of_nat (length errs) - 1) * second
    /\ ((Z.of_nat (length errs) < maxRetries
         /\ fst run = None
         /\ evs = failedRounds snapID deltaPath 0 errs
                  ++ [UpdateStepProgress 0;
                      Download snapID deltaPath true None; Finished true])
        \/ (Z.of_nat (length errs) = Z.max 0 maxRetries
            /\ fst run
               = Some ("delta download failed after " +:+ Itoa maxRetries
                       +:+ " attempts: "
                       +:+ fmtError
                             (List.last (map (fun e =>
                                           Some ("delta download failed: "
                                                 +:+ e)) errs) None))
            /\ evs = failedRounds snapID deltaPath 0 errs)).
Proof.
  cbv zeta. unfold Download.downloadSnapDeltaWithRetries.
  pose proof (length_attemptNumbers maxRetries) as Hlen.
  destruct (deltaRetryLoop_shape delta snapInfo deltaPath maxRetries
              (attemptNumbers maxRetries) 0 None t)
    as (errs & [[Hlt Hrun]|[Heq Hrun]]); [simpl; lia | |].
  - change (2 ^ Z.of_nat 0 * second) with second in Hrun. rewrite Hrun.
    exists errs. eexists. split; [reflexivity|]. split.
    + rewrite slept_app, slept_failedRounds. simpl (0 + _)%nat.
      change (slept [UpdateStepProgress 0;
                     Download (InfoSnapID snapInfo) deltaPath true None;
                     Finished true]) with 0.
      change (2 ^ Z.of_nat 0) with 1. lia.
    + left. split; [lia|]. now split.
  - change (2 ^ Z.of_nat 0 * second) with second in Hrun. rewrite Hrun.
    exists errs. eexists. split; [reflexivity|]. split.
    + rewrite slept_failedRounds. simpl (0 + _)%nat.
      change (2 ^ Z.of_nat 0) with 1. lia.
    + right. split; [lia|]. now split.
Qed.

Lemma quiet_ret {A : Type} (a : A) : quiet (ret a).
Proof. intros t. exists []. simpl. now rewrite app_nil_r. Qed.

Lemma quiet_bind {A B : Type} (m : M A) (k : A -> M B) :
  quiet m -> (forall a, quiet (k a)) -> quiet (bind m k).
Proof.
  intros Hm Hk t. unfold bind.
  destruct (Hm t) as (evs1 & H1 & F1).
  destruct (m t) as [a t1]. simpl in H1. subst t1.
  destruct (Hk a (t ++ evs1)) as (evs2 & H2 & F2).
  exists (evs1 ++ evs2). rewrite H2, app_assoc.
  split; [reflexivity | now apply Forall_app].
Qed.

Lemma quiet_log (e : event) : isDownloadAssertions e = false -> quiet (log e).
Proof.
  intros He t. exists [e]. split; [reflexivity | now constructor].
Qed.

Lemma quiet_callDownload (snapID path : string) (isDelta : bool) :
  quiet (callDownload storeDownload snapID path isDelta).
Proof.
  intros t. eexists. split; [reflexivity | now constructor].
Qed.

Lemma quiet_callFileExists (path : string) :
  quiet (callFileExists fileExists path).
Proof.
  intros t. eexists. split; [reflexivity | now constructor].
Qed.

Lemma quiet_applyDelta (oldSnapPath deltaPath newSnapPath : string) :
  quiet (applyDelta xdelta3 oldSnapPath deltaPath newSnapPath).
Proof.
  apply quiet_bind.
  - intros t. eexists. split; [reflexivity | now constructor].
  - intros [[err output]|]; apply quiet_ret.
Qed.

Lemma quiet_downloadSnap (snapInfo : Info) (downloadPath : string) :
  quiet (downloadSnap snapInfo downloadPath).
Proof.
  apply quiet_bind; [now apply quiet_log|]. intros _.
  generalize [1; 2; 3; 4; 5]. intros nums.
  induction nums as [|n nums IH]; [apply quiet_ret|].
  cbn [Download.downloadSnapLoop].
  apply quiet_bind; [apply quiet_callDownload|].
  intros [err|].
  - apply quiet_bind;
      [destruct verbose; [apply quiet_ret | now apply quiet_log]|].
    intros _. destruct (n =? 5); [apply quiet_ret | exact IH].
  - apply quiet_bind; [now apply quiet_log | intros _; apply quiet_ret].
Qed.

Lemma quiet_downloadSnapDeltaWithRetries (delta : DeltaInfo)
      (snapInfo : Info) (deltaPath : string) (maxRetries : Z) :
  quiet (downloadSnapDeltaWithRetries delta snapInfo deltaPath maxRetries).
Proof.
  unfold Download.downloadSnapDeltaWithRetries.
  generalize (attemptNumbers maxRetries) (@None string) second.
  intros nums. induction nums as [|n nums IH]; intros lastErr backoff;
    [apply quiet_ret|].
  cbn [Download.deltaRetryLoop]. apply quiet_bind.
  - apply quiet_bind; [now apply quiet_log|]. intros _.
    apply quiet_bind; [apply quiet_callDownload|].
    intros [err|]; (apply quiet_bind; [now apply quiet_log|]);
      intros _; apply quiet_ret.
  - intros [err|]; [|apply quiet_ret].
    apply quiet_bind; [now apply quiet_log|]. intros _. apply IH.
Qed.

(** The loop over the deltas: either it ends without a call of
    [downloadAssertions], or it returns right after that call, which
    comes right after [xdelta3] has made the snap file. *)
Lemma tryDeltas_result (snapInfo : Info)
      (snapsDir assertionsDir downloadPath : string)
      (deltas : list DeltaInfo) :
  forall t returned t',
    tryDeltas storeDownload fileExists xdelta3 downloadAssertions
              deltas snapInfo snapsDir assertionsDir downloadPath t
    = (returned, t') ->
    exists evs,
      t' = t ++ evs
      /\ match returned with
         | None => Forall (fun e => isDownloadAssertions e = false) evs
         | Some r =>
             exists before oldSnapPath deltaPath err,
               evs = before
                     ++ [Xdelta3 oldSnapPath deltaPath downloadPath None;
                         DownloadAssertions snapInfo assertionsDir err]
               /\ Forall (fun e => isDownloadAssertions e = false) before
               /\ r = afterAssertions snapInfo err
         end.
Proof.
  induction deltas as [|delta rest IH]; intros t returned t' Hrun.
  - injection Hrun as <- <-. exists []. rewrite app_nil_r.
    split; [reflexivity | constructor].
  - assert (Hnext : forall pre,
               Forall (fun e => isDownloadAssertions e = false) pre ->
               tryDeltas storeDownload fileExists xdelta3 downloadAssertions
                         rest snapInfo snapsDir assertionsDir downloadPath
                         (t ++ pre) = (returned, t') ->
               exists evs,
                 t' = t ++ evs
                 /\ match returned with
                    | None => Forall (fun e => isDownloadAssertions e = false)
                                     evs
                    | Some r =>
                        exists before oldSnapPath deltaPath err,
                          evs = before
                                ++ [Xdelta3 oldSnapPath deltaPath
                                            downloadPath None;
                                    DownloadAssertions snapInfo assertionsDir
                                                       err]
                          /\ Forall (fun e => isDownloadAssertions e = false)
                                    before
                          /\ r = afterAssertions snapInfo err
                    end).
    { intros pre Hpre Hrest.
      destruct (IH _ _ _ Hrest) as (evs & -> & Hfst).
      exists (pre ++ evs). rewrite app_assoc. split; [reflexivity|].
      destruct returned as [r|].
      - destruct Hfst as (before & o & d & err & -> & Hb & Hr).
        exists (pre ++ before), o, d, err. rewrite app_assoc.
        split; [reflexivity|]. split; [now apply Forall_app | exact Hr].
      - now apply Forall_app. }
    cbn [Download.tryDeltas] in Hrun. unfold bind at 1 in Hrun.
    destruct (quiet_downloadSnapDeltaWithRetries
                delta snapInfo
                (filepath_Join snapsDir
                   (deltaFileName (SuggestedName snapInfo)
                                  (FromRevision delta) (ToRevision delta)))
                5 t) as (evs1 & H1 & F1).
    destruct (downloadSnapDeltaWithRetries _ _ _ _ t) as [err1 t1].
    simpl in H1. subst t1.
    destruct err1 as [err1|]; [now apply (Hnext evs1)|].
    unfold bind at 1, callFileExists in Hrun.
    destruct (fileExists _ _) eqn:Hex.
    2:{ rewrite <- app_assoc in Hrun. revert Hrun. apply Hnext.
        apply Forall_app; split; [exact F1 | now constructor]. }
    unfold bind at 1, applyDelta, bind at 1, callXdelta3 in Hrun.
    destruct (xdelta3 _ _ _ _) as [[err output]|] eqn:Hx.
    { unfold ret at 1 in Hrun. rewrite <- !app_assoc in Hrun.
      revert Hrun. apply Hnext.
      apply Forall_app; split; [exact F1|].
      apply Forall_app; split; now constructor. }
    unfold ret at 1, bind, callDownloadAssertions in Hrun.
    set (err := downloadAssertions _ _ _) in Hrun.
    rewrite <- !app_assoc in Hrun. simpl app in Hrun.
    assert (Hres : returned = Some (afterAssertions snapInfo err)
                   /\ t' = t ++ evs1
                             ++ [FileExists
                                   (filepath_Join snapsDir
                                      (snapFileName (SuggestedName snapInfo)
                                                    (FromRevision delta)))
                                   true;
                                 Xdelta3
                                   (filepath_Join snapsDir
                                      (snapFileName (SuggestedName snapInfo)
                                                    (FromRevision delta)))
                                   (filepath_Join snapsDir
                                      (deltaFileName (SuggestedName snapInfo)
                                                     (FromRevision delta)
                                                     (ToRevision delta)))
                                   downloadPath None;
                                 DownloadAssertions snapInfo assertionsDir err])
      by (destruct err; injection Hrun as <- <-; now split).
    destruct Hres as [-> ->].
    eexists. split; [reflexivity|].
    exists (evs1 ++ [FileExists
                       (filepath_Join snapsDir
                          (snapFileName (SuggestedName snapInfo)
                                        (FromRevision delta))) true]).
    do 3 eexists. rewrite <- app_assoc. simpl app.
    split; [reflexivity|]. split; [|reflexivity].
    apply Forall_app; split; [exact F1 | now constructor].
Qed.

(** What [downloadAndApplySnap] returns and calls. *)
Lemma downloadAndApplySnap_result
        (actionResult : SnapActionResult) (snapsDir assertionsDir : string)
        (currentSnap : option CurrentSnap)
        (t : list event) (r : result (option Info)) (t' : list event)
        (Hrun : downloadAndApplySnap verbose storeDownload fileExists xdelta3
                                     downloadAssertions (Some actionResult)
                                     snapsDir assertionsDir currentSnap t
                = (r, t')) :
  match ResInfo actionResult with
  | None => r = Ok None /\ t' = t
  | Some snapInfo =>
      let downloadPath :=
        filepath_Join snapsDir
          (snapFileName (SuggestedName snapInfo) (N (InfoRevision snapInfo))) in
      r <> Ok None
      /\ exists evs,
           t' = t ++ evs
           /\ ((exists before err,
                   evs = before
                         ++ [DownloadAssertions snapInfo assertionsDir err]
                   /\ Forall (fun e => isDownloadAssertions e = false) before
                   /\ produced (InfoSnapID snapInfo) downloadPath before
                   /\ r = match afterAssertions snapInfo err with
                          | Ok info => Ok (Some info)
                          | Err err => Err err
                          end)
               \/ (Forall (fun e => isDownloadAssertions e = false) evs
                   /\ exists err,
                        r = Err ("failed to download snap "
                                 +:+ SuggestedName snapInfo +:+ ": "
                                 +:+ "snap download failed after 5 attempts: "
                                 +:+ err)))
  end.
Proof.
  unfold Download.downloadAndApplySnap in Hrun.
  destruct (ResInfo actionResult) as [snapInfo|];
    [|injection Hrun as <- <-; now split].
  cbv zeta in Hrun |- *.
  set (downloadPath := filepath_Join snapsDir _) in *.
  unfold bind at 1 in Hrun.
  set (loop := match currentSnap with Some _ => _ | None => _ end) in Hrun.
  assert (Hloop : forall returned t1,
             loop t = (returned, t1) ->
             exists evs,
               t1 = t ++ evs
               /\ match returned with
                  | None => Forall (fun e => isDownloadAssertions e = false) evs
                  | Some r =>
                      exists before oldSnapPath deltaPath err,
                        evs = before
                              ++ [Xdelta3 oldSnapPath deltaPath downloadPath
                                          None;
                                  DownloadAssertions snapInfo assertionsDir
                                                     err]
                        /\ Forall (fun e => isDownloadAssertions e = false)
                                  before
                        /\ r = afterAssertions snapInfo err
                  end).
  { assert (Hnone : forall returned t1,
               ret None t = (returned, t1) ->
               exists evs,
                 t1 = t ++ evs
                 /\ match returned with
                    | None => Forall (fun e => isDownloadAssertions e = false)
                                     evs
                    | Some r =>
                        exists before oldSnapPath deltaPath err,
                          evs = before
                                ++ [Xdelta3 oldSnapPath deltaPath downloadPath
                                            None;
                                    DownloadAssertions snapInfo assertionsDir
                                                       err]
                          /\ Forall (fun e => isDownloadAssertions e = false)
                                    before
                          /\ r = afterAssertions snapInfo err
                    end).
    { intros returned t1 [= <- <-]. exists []. rewrite app_nil_r.
      split; [reflexivity | constructor]. }
    subst loop. destruct currentSnap; [|exact Hnone].
    destruct (0 <? length (Deltas actionResult))%nat; [|exact Hnone].
    intros returned t1. apply tryDeltas_result. }
  destruct (loop t) as [returned t1].
  destruct (Hloop _ _ eq_refl) as (evs1 & -> & Hret). clear Hloop.
  destruct returned as [[info|msg]|].
  - injection Hrun as <- <-.
    destruct Hret as (before & o & d & err & -> & Hb & Hr).
    split; [discriminate|]. eexists. split; [reflexivity|]. left.
    exists (before ++ [Xdelta3 o d downloadPath None]), err.
    rewrite <- app_assoc. split; [reflexivity|].
    split; [apply Forall_app; split; [exact Hb | now constructor]|].
    split; [exists before; left; now exists o, d|].
    now rewrite <- Hr.
  - injection Hrun as <- <-.
    destruct Hret as (before & o & d & err & -> & Hb & Hr).
    split; [discriminate|]. eexists. split; [reflexivity|]. left.
    exists (before ++ [Xdelta3 o d downloadPath None]), err.
    rewrite <- app_assoc. split; [reflexivity|].
    split; [apply Forall_app; split; [exact Hb | now constructor]|].
    split; [exists before; left; now exists o, d|].
    now rewrite <- Hr.
  - unfold bind at 1 in Hrun.
    destruct (quiet_downloadSnap snapInfo downloadPath (t ++ evs1))
      as (evs2 & H2 & F2).
    destruct (downloadSnap_shape snapInfo downloadPath (t ++ evs1))
      as (errs & [[Hlen Hshape]|(err & Hlen & Hshape)]);
      rewrite Hshape in Hrun, H2; simpl in H2.
    + unfold bind, callDownloadAssertions, ret in Hrun.
      set (err := downloadAssertions _ _ _) in Hrun.
      assert (Hres : r = match afterAssertions snapInfo err with
                         | Ok info => Ok (Some info)
                         | Err err => Err err
                         end
                     /\ t' = ((t ++ evs1) ++ evs2)
                             ++ [DownloadAssertions snapInfo assertionsDir err])
        by (rewrite <- H2; destruct err; injection Hrun as <- <-; now split).
      destruct Hres as [Hr ->].
      split; [rewrite Hr; destruct err; discriminate|].
      exists ((evs1 ++ evs2)
              ++ [DownloadAssertions snapInfo assertionsDir err]).
      split; [now rewrite <- !app_assoc|]. left.
      exists (evs1 ++ evs2), err. split; [reflexivity|].
      split; [now apply Forall_app|]. split; [|exact Hr].
      apply app_inv_head in H2. subst evs2.
      exists (evs1 ++ UpdateStepProgress 0
                :: concat (map (failedAttempt verbose (InfoSnapID snapInfo)
                                              downloadPath) errs)).
      right. rewrite <- app_assoc. simpl. reflexivity.
    + injection Hrun as <- <-. split; [discriminate|].
      exists (evs1 ++ evs2). rewrite H2, app_assoc.
      split; [reflexivity|]. right.
      split; [now apply Forall_app | now exists err].
Qed.

Lemma filter_quiet (evs : list event) :
  Forall (fun e => isDownloadAssertions e = false) evs ->
  List.filter isDownloadAssertions evs = [].
Proof.
  induction 1 as [|e evs He _ IH]; [reflexivity|].
  simpl. now rewrite He.
Qed.

(** X13: [downloadAndApplySnap] on a result with a [snap.Info] never
    returns [nil, nil], and calls [downloadAssertions] at most once, as its
    very last call and only once the snap file is made at its path
    [name_revision.snap]: right after [xdelta3] has written it from a
    delta, or right after a download of the whole snap has succeeded and
    its meter was finished.  The outcome is then that of
    [downloadAssertions]: the [snap.Info] of the result, or an error that
    wraps its error.  The only other way out is an error after five failed
    downloads of the whole snap, with no assertion fetched.  On a result
    without [snap.Info] it makes no call and returns [nil, nil]. *)
Theorem downloadAndApplySnap_assertions_last
        (actionResult : SnapActionResult) (snapsDir assertionsDir : string)
        (currentSnap : option CurrentSnap)
        (t : list event) (r : result (option Info)) (t' : list event)
        (Hrun : downloadAndApplySnap verbose storeDownload fileExists xdelta3
                                     downloadAssertions (Some actionResult)
                                     snapsDir assertionsDir currentSnap t
                = (r, t')) :
  match ResInfo actionResult with
  | None => r = Ok None /\ t' = t
  | Some snapInfo =>
      let downloadPath :=
        filepath_Join snapsDir
          (snapFileName (SuggestedName snapInfo) (N (InfoRevision snapInfo))) in
      r <> Ok None
      /\ exists evs,
           t' = t ++ evs
           /\ (length (List.filter isDownloadAssertions evs) <= 1)%nat
           /\ ((exists before err,
                   evs = before
                         ++ [DownloadAssertions snapInfo assertionsDir err]
                   /\ List.filter isDownloadAssertions before = []
                   /\ produced (InfoSnapID snapInfo) downloadPath before
                   /\ r = match afterAssertions snapInfo err with
                          | Ok info => Ok (Some info)
                          | Err err => Err err
                          end)
               \/ (List.filter isDownloadAssertions evs = []
                   /\ exists err,
                        r = Err ("failed to download snap "
                                 +:+ SuggestedName snapInfo +:+ ": "
                                 +:+ "snap download failed after 5 attempts: "
                                 +:+ err)))
  end.
Proof.
  apply downloadAndApplySnap_result in Hrun.
  destruct (ResInfo actionResult) as [snapInfo|]; [|exact Hrun].
  cbv zeta in Hrun |- *.
  destruct Hrun as (Hnil & evs & -> & Hshape).
  split; [exact Hnil|]. exists evs. split; [reflexivity|].
  destruct Hshape as [(before & err & -> & Hq & Hprod & Hr)|(Hq & err & Hr)].
  - apply filter_quiet in Hq. split.
    + rewrite List.filter_app, Hq. simpl. lia.
    + left. exists before, err. now repeat split.
  - apply filter_quiet in Hq. split; [rewrite Hq; simpl; lia|].
    right. split; [exact Hq | now exists err].
Qed.

End DownloadFileFacts.





(** ** The main file *)

Section MainFacts.
Import GoStrings Utils Resolver ResolverSpec ResolverLedger FileNames.
Import Download Main MainSpec.

Variable storeSnapAction :
  list CurrentSnap -> list SnapAction -> result (list SnapActionResult).
Variable readDir : string -> result (list string).
Variable scanLines : string -> result (list string).
Variable missingProviders : Info -> list string.
Variables snapsDir assertionsDir : string.
Variable glob : string -> result (list string).
Variable osRelease : result (list string * option string).

#[local] Abbreviation collectSnapDependencies :=
  (collectSnapDependencies storeSnapAction readDir scanLines missingProviders
                           snapsDir assertionsDir).
#[local] Abbreviation getCurrentSnapInfo :=
  (getCurrentSnapInfo scanLines assertionsDir glob).
#[local] Abbreviation loadCurrentSnaps :=
  (loadCurrentSnaps scanLines assertionsDir glob).
#[local] Abbreviation collectEntries :=
  (collectEntries storeSnapAction readDir scanLines missingProviders
                  snapsDir assertionsDir).
#[local] Abbreviation collectSnapsToProcess :=
  (collectSnapsToProcess storeSnapAction readDir scanLines missingProviders
                         snapsDir assertionsDir osRelease).

Lemma getCurrentSnapInfo_fields (snapName : string) (cs : CurrentSnap) :
  getCurrentSnapInfo snapName = Ok cs ->
  InstanceName cs = snapName /\ SnapID cs <> EmptyString
  /\ N (Rev cs) <> 0 /\ TrackingChannel cs = EmptyString.
Proof.
  unfold Main.getCurrentSnapInfo.
  destruct (glob _) as [[|assertionFile files]|]; try discriminate.
  cbv zeta.
  destruct (parseSnapInfo_fields scanLines assertionFile snapName)
    as [Hname Hchannel].
  destruct (String.eqb_spec
              (SnapID (parseSnapInfo scanLines assertionFile snapName))
              EmptyString) as [|Hid]; [discriminate|].
  destruct (Z.eqb_spec
              (N (Rev (parseSnapInfo scanLines assertionFile snapName))) 0)
    as [|Hrev]; [discriminate|].
  simpl. intros [= <-]. auto.
Qed.

(** The loop of [main] that loads the snaps: where an element comes
    from. *)
Lemma loadCurrentSnaps_from (existing : list string) :
  forall acc cs,
    In cs (loadCurrentSnaps existing acc) ->
    In cs acc
    \/ (In (InstanceName cs) existing
        /\ getCurrentSnapInfo (InstanceName cs) = Ok cs).
Proof.
  unfold Main.loadCurrentSnaps.
  induction existing as [|name existing IH]; intros acc cs Hin; [now left|].
  simpl in Hin. apply IH in Hin as [Hin|[Hin Hget]].
  - destruct (getCurrentSnapInfo name) as [info|] eqn:Hget; [|now left].
    apply in_app_or in Hin as [Hin|[<-|[]]]; [now left|].
    right. destruct (getCurrentSnapInfo_fields _ _ Hget) as [-> _].
    split; [now left | exact Hget].
  - right. split; [now right | exact Hget].
Qed.

(** X14: a [CurrentSnap] that [getCurrentSnapInfo] returns holds the name
    asked for, a snap id that is not empty, a revision that is not zero
    and no tracking channel; so does every element of [currentSnaps] after
    the loop of [main] that loads the snaps of seed.yaml, which leaves out
    the snaps [getCurrentSnapInfo] fails on. *)
Theorem loadCurrentSnaps_valid (existing : list string) :
  (forall snapName cs,
      getCurrentSnapInfo snapName = Ok cs ->
      InstanceName cs = snapName /\ SnapID cs <> EmptyString
      /\ N (Rev cs) <> 0 /\ TrackingChannel cs = EmptyString)
  /\ forall cs,
       In cs (loadCurrentSnaps existing []) ->
       In (InstanceName cs) existing
       /\ getCurrentSnapInfo (InstanceName cs) = Ok cs
       /\ SnapID cs <> EmptyString /\ N (Rev cs) <> 0
       /\ TrackingChannel cs = EmptyString.
Proof.
  split; [apply getCurrentSnapInfo_fields|].
  intros cs Hin.
  apply loadCurrentSnaps_from in Hin as [[]|[Hin Hget]].
  destruct (getCurrentSnapInfo_fields _ _ Hget) as (_ & Hid & Hrev & Hch).
  repeat split; assumption.
Qed.

Lemma resolved_refl (g : Globals) : resolved g [] g.
Proof.
  split; [apply grows_refl|]. split; [intros d []|].
  split; [intros d []|]. split; [constructor|].
  split; [constructor | apply ledger_refl].
Qed.

Lemma resolved_trans (g g1 g2 : Globals) (l1 l2 : list SnapDetails) :
  resolved g l1 g1 -> resolved g1 l2 g2 -> resolved g (l1 ++ l2) g2.
Proof.
  intros (Hg1 & Hf1 & Hd1 & Hn1 & Hw1 & Hl1) (Hg2 & Hf2 & Hd2 & Hn2 & Hw2 & Hl2).
  split; [eapply grows_trans; eassumption|].
  split; [apply freshItems_app;
          [assumption | eapply freshItems_earlier; eassumption]|].
  split.
  { intros d Hd. apply in_app_or in Hd as [Hd|Hd];
      [eapply itemsProcessed_later; eauto | auto]. }
  split; [eapply names_disjoint; eassumption|].
  split; [apply Forall_app; now split|].
  eapply ledger_trans; eassumption.
Qed.

Lemma collectSnapDependencies_resolved (fuel : nat)
      (snapName channel fallbackChannel : string) (g : Globals)
      (l : list SnapDetails) (g' : Globals) :
  collectSnapDependencies fuel snapName channel fallbackChannel g = Done l g' ->
  resolved g l g'.
Proof.
  intros Hrun.
  pose proof (collectSnapDependencies_walked
                storeSnapAction readDir scanLines missingProviders
                snapsDir assertionsDir _ _ _ _ _ _ _ Hrun)
    as (Hg & Hf & Hd & Hn & Hw).
  pose proof (collectSnapDependencies_ledger
                storeSnapAction readDir scanLines missingProviders
                snapsDir assertionsDir _ _ _ _ _ _ _ Hrun) as [_ Hl].
  repeat split; try assumption; try apply Hg.
  eapply List.Forall_impl; [|exact Hw]. intros d Hd'. now exists channel.
Qed.

Lemma appendWithSizes_items (snapList : list SnapDetails) :
  Forall workItem snapList ->
  forall pg acc, exists pg',
    appendWithSizes snapList pg acc = Some (pg', acc ++ snapList).
Proof.
  induction 1 as [|d snapList (channel & info & Hinfo & _) _ IH];
    intros pg acc.
  - exists pg. simpl. now rewrite app_nil_r.
  - simpl. unfold addSizes. rewrite Hinfo.
    destruct (Deltas (DetResult d));
      match goal with
      | |- context [appendWithSizes snapList ?p ?a] =>
          destruct (IH p a) as (pg' & ->)
      end; exists pg'; now rewrite <- app_assoc.
Qed.

Lemma collectEntries_resolved (fuel : nat) (defaultChannel : string)
      (visited : list string) :
  forall g pg acc,
    collectEntries fuel visited defaultChannel g pg acc <> CollectNilInfo
    /\ forall l g' pg',
         collectEntries fuel visited defaultChannel g pg acc
         = Collected l g' pg' ->
         exists extra, l = acc ++ extra /\ resolved g extra g'.
Proof.
  induction visited as [|snapEntry rest IH]; intros g pg acc.
  - simpl. split; [discriminate|].
    intros l g' pg' [= <- <- <-]. exists []. rewrite app_nil_r.
    split; [reflexivity | apply resolved_refl].
  - cbn [Main.collectEntries]. cbv zeta.
    destruct (collectSnapDependencies fuel _ _ _ g) as [snapList g1| |] eqn:Hrun;
      [|split; discriminate|split; discriminate].
    apply collectSnapDependencies_resolved in Hrun.
    destruct (appendWithSizes_items snapList
                ltac:(apply Hrun) pg acc) as (pg1 & ->).
    destruct (IH g1 pg1 (acc ++ snapList)) as [Hnil Hdone].
    split; [exact Hnil|].
    intros l g' pg' Hrest.
    destruct (Hdone _ _ _ Hrest) as (extra & -> & Hres).
    exists (snapList ++ extra). rewrite app_assoc.
    split; [reflexivity|]. eapply resolved_trans; eassumption.
Qed.


(** X23: [collectSnapsToProcess] terminates.  When every snap the store
    answers with has its base and its content providers among the
    finitely many names of [universe], and the entries visited name snaps
    of [universe], a bound on the recursion depth of the resolver greater
    than the number of those names is never reached. *)
Theorem collectSnapsToProcess_terminates
        (universe : list string)
        (Hclosed : forall include actions result rest info,
            storeSnapAction include actions = Ok (result :: rest) ->
            ResInfo result = Some info ->
            (Base info = EmptyString \/ In (Base info) universe)
            /\ forall p, In p (missingProviders info) -> In p universe)
        (fuel : nat) (visited : list string) (g : Globals)
        (pg : Progress.Globals)
        (Hvisited : forall snapEntry,
            In snapEntry visited -> In (entryName snapEntry) universe)
        (Hfuel : (length universe < fuel)%nat) :
  collectSnapsToProcess fuel visited g pg <> CollectOutOfFuel.
Proof.
  unfold Main.collectSnapsToProcess.
  destruct (getVersionID osRelease) as [versionID|]; [|discriminate].
  generalize ("latest/stable/ubuntu-" +:+ versionID) (@nil SnapDetails).
  intros defaultChannel acc. revert g pg acc.
  induction visited as [|snapEntry rest IH]; intros g pg acc; [discriminate|].
  cbn [Main.collectEntries]. cbv zeta.
  pose proof (collectSnapDependencies_returns
                storeSnapAction readDir scanLines missingProviders
                snapsDir assertionsDir universe Hclosed
                fuel (entryName snapEntry)
                (entryChannel defaultChannel snapEntry) "latest/stable" g
                (Hvisited snapEntry ltac:(now left))) as Hret.
  destruct (collectSnapDependencies fuel _ _ _ g) as [snapList g1| |] eqn:Hrun;
    [|discriminate|].
  - destruct (appendWithSizes snapList pg acc) as [[pg1 acc1]|];
      [|discriminate].
    apply IH. intros e He. apply Hvisited. now right.
  - exfalso. apply Hret; [|reflexivity].
    pose proof (List.filter_length_le
                  (fun name => negb (mapBool (processedSnaps g) name))
                  universe) as Hle.
    unfold unprocessed. lia.
Qed.

Lemma Cut_absent (s : string) :
  Contains s "=" = false -> Cut s "=" = (s, EmptyString, false).
Proof.
  induction s as [|c s IH]; intros H; [reflexivity|].
  apply Contains_cons_false in H as [Hp Hs].
  change (Cut (String c s) "=")
    with (if String.prefix "=" (String c s)
          then (EmptyString, drop 1 (String c s), true)
          else let '(b, a, f) := Cut s "=" in (String c b, a, f)).
  now rewrite Hp, (IH Hs).
Qed.

Lemma Cut_first (a b : string) :
  Contains a "=" = false -> Cut (a +:+ "=" +:+ b) "=" = (a, b, true).
Proof.
  induction a as [|c a IH]; intros H.
  - rewrite append_nil, append_cons, append_nil.
    change (Cut (String "=" b) "=")
      with (if String.prefix "=" (String "=" b)
            then (EmptyString, drop 1 (String "=" b), true)
            else let '(b', a', f) := Cut b "=" in (String "=" b', a', f)).
    now rewrite prefix_cons, prefix_nil.
  - apply Contains_cons_false in H as [Hp Ha]. rewrite append_cons.
    change (Cut (String c (a +:+ "=" +:+ b)) "=")
      with (if String.prefix "=" (String c (a +:+ "=" +:+ b))
            then (EmptyString, drop 1 (String c (a +:+ "=" +:+ b)), true)
            else let '(b', a', f) := Cut (a +:+ "=" +:+ b) "=" in
                 (String c b', a', f)).
    rewrite prefix_cons in Hp |- *.
    destruct (Ascii.ascii_dec "=" c); [now rewrite prefix_nil in Hp|].
    now rewrite (IH Ha).
Qed.

(** X19: how [collectSnapsToProcess] reads an entry of [requiredSnaps].
    An entry without [=] is the name of the snap, to be resolved on the
    default channel; an entry [name=channel] is split at its first [=]:
    the snap [name] is resolved on [channel], which may hold further [=]
    signs. *)
Theorem entry_name_and_channel
        (defaultChannel name channel : string)
        (Hname : Contains name "=" = false) :
  entryName name = name
  /\ entryChannel defaultChannel name = defaultChannel
  /\ entryName (name +:+ "=" +:+ channel) = name
  /\ entryChannel defaultChannel (name +:+ "=" +:+ channel) = channel.
Proof.
  unfold entryName, entryChannel, SplitN2.
  rewrite (Cut_absent _ Hname), (Cut_first _ channel Hname). now repeat split.
Qed.




End MainFacts.


(** ** A whole run: from the resolver to seed.yaml *)

Section RunFacts.
Import GoStrings Utils Resolver ResolverSpec ResolverLedger FileNames.
Import SeedYaml Cleanup Download Main MainSpec.

Variable storeSnapAction :
  list CurrentSnap -> list SnapAction -> result (list SnapActionResult).
Variable readDir : string -> result (list string).
Variable scanLines : string -> result (list string).
Variable missingProviders : Info -> list string.
Variables snapsDir assertionsDir : string.
Variable glob : string -> result (list string).
Variable osRelease : result (list string * option string).
Variable verbose : bool.
Variable storeDownload : list event -> string -> string -> bool -> option string.
Variable fileExists : list event -> string -> bool.
Variable xdelta3 :
  list event -> string -> string -> string -> option (string * string).
Variable downloadAssertions : list event -> Info -> string -> option string.
Variable removeFails : string -> bool.
Variable readSeedYaml : result string.
Variable yamlUnmarshal : string -> result (list SeedSnap).
Variable yamlMarshal : list SeedSnap -> result string.
Variable writeSeedYaml : string -> result unit.

#[local] Abbreviation collectSnapDependencies :=
  (collectSnapDependencies storeSnapAction readDir scanLines missingProviders
                           snapsDir assertionsDir).
#[local] Abbreviation loadCurrentSnaps :=
  (loadCurrentSnaps scanLines assertionsDir glob).
#[local] Abbreviation collectSnapsToProcess :=
  (collectSnapsToProcess storeSnapAction readDir scanLines missingProviders
                         snapsDir assertionsDir osRelease).
#[local] Abbreviation processSnap :=
  (processSnap verbose storeDownload fileExists xdelta3 downloadAssertions).
#[local] Abbreviation processAll :=
  (processAll snapsDir assertionsDir verbose storeDownload fileExists xdelta3
              downloadAssertions).

Lemma processSnap_run (d : SnapDetails) (sDir aDir : string)
      (required : gmap string bool) (t : list event)
      (p : processed) (t' : list event) (info : Info) :
  ResInfo (DetResult d) = Some info ->
  processSnap d sDir aDir required t = (p, t') ->
  p <> NilInfo
  /\ forall required',
       p = Required required' ->
       required' = <[DetInstanceName d := true]> required
       /\ exists before,
            t' = t ++ before ++ [DownloadAssertions info aDir None]
            /\ Forall (fun e => isDownloadAssertions e = false) before
            /\ produced (InfoSnapID info)
                        (filepath_Join sDir
                           (snapFileName (SuggestedName info)
                                         (N (InfoRevision info))))
                        before.
Proof.
  intros Hinfo Hrun. unfold Download.processSnap, bind in Hrun.
  destruct (downloadAndApplySnap _ _ _ _ _ _ _ _ _ t) as [r t1] eqn:Hdl.
  apply downloadAndApplySnap_result in Hdl. rewrite Hinfo in Hdl.
  cbv zeta in Hdl. destruct Hdl as (Hnil & evs & -> & Hshape).
  destruct r as [[info'|]|err]; [| now contradiction Hnil |];
    injection Hrun as <- <-; (split; [discriminate|]);
    intros required' [= <-].
  split; [reflexivity|].
  destruct Hshape as [(before & err & -> & Hq & Hprod & Hr)|(_ & err & Hr)];
    [|discriminate].
  destruct err as [err|]; [discriminate|].
  exists before. now repeat split.
Qed.

(** X16: [processSnap] on a work item of the resolver.  The item holds a
    [snap.Info], so the call never stops on a nil [snapInfo]; when it
    returns without error it has set [requiredSnaps] for the snap of the
    item and for nothing else, and its last call was a
    [downloadAssertions] that succeeded, made once the snap file was
    there. *)
Theorem processSnap_of_work_item
        (fuel : nat) (snapName channel fallbackChannel : string)
        (g : Globals) (l : list SnapDetails) (g' : Globals)
        (d : SnapDetails) (required : gmap string bool)
        (t : list event) (p : processed) (t' : list event)
        (Hrun : collectSnapDependencies fuel snapName channel fallbackChannel g
                = Done l g')
        (Hin : In d l)
        (Hprocess : processSnap d snapsDir assertionsDir required t = (p, t')) :
  exists info,
    ResInfo (DetResult d) = Some info
    /\ p <> NilInfo
    /\ forall required',
         p = Required required' ->
         required' = <[DetInstanceName d := true]> required
         /\ exists before,
              t' = t ++ before ++ [DownloadAssertions info assertionsDir None]
              /\ Forall (fun e => isDownloadAssertions e = false) before
              /\ produced (InfoSnapID info)
                          (filepath_Join snapsDir
                             (snapFileName (SuggestedName info)
                                           (N (InfoRevision info))))
                          before.
Proof.
  pose proof (collectSnapDependencies_walked
                storeSnapAction readDir scanLines missingProviders
                snapsDir assertionsDir _ _ _ _ _ _ _ Hrun)
    as (_ & _ & _ & _ & Hw).
  destruct (proj1 (List.Forall_forall _ _) Hw d Hin) as (info & Hinfo & _).
  exists info. split; [exact Hinfo|].
  eapply processSnap_run; eassumption.
Qed.

Lemma processAll_required (items : list SnapDetails) :
  forall required t required' t',
    processAll items required t = (Required required', t') ->
    forall name,
      mapBool required' name = true
      <-> mapBool required name = true
          \/ In name (map DetInstanceName items).
Proof.
  induction items as [|d items IH]; intros required t required' t' Hrun name.
  - injection Hrun as <- <-. simpl. tauto.
  - cbn [Main.processAll] in Hrun. unfold bind at 1 in Hrun.
    destruct (processSnap d snapsDir assertionsDir required t) as [p t1]
      eqn:Hp.
    assert (Hreq : forall r, p = Required r ->
                             r = <[DetInstanceName d := true]> required).
    { unfold Download.processSnap, bind in Hp.
      destruct (downloadAndApplySnap _ _ _ _ _ _ _ _ _ t) as [[[i|]|e] t0];
        injection Hp as <- <-; intros r; try discriminate.
      now intros [= <-]. }
    destruct p as [r| |]; try discriminate.
    rewrite (Hreq r eq_refl) in Hrun. unfold bind, log in Hrun.
    rewrite (IH _ _ _ _ Hrun name), mapBool_insert. simpl.
    destruct (decide (DetInstanceName d = name)); intuition congruence.
Qed.

(** X17: what a run of [main] writes to seed.yaml.  [currentSnaps] is
    loaded from the assertions directory, [requiredSnaps] set from the
    arguments, [collectSnapsToProcess] returns the work items, the loop
    over them ends without error, [cleanUpCurrentSnaps] drops the snaps that
    are not required and [updateSeedYaml] writes the rest.  Then every
    entry written has an empty channel (no [CurrentSnap] of the run ever
    gets a tracking channel), a name that is in [requiredSnaps] and the
    file [name_revision.snap] of a revision that is not zero; every snap
    the resolver has processed has an entry; and every work item has the
    entry of its name with the file of the revision the store has
    answered. *)
Theorem main_seed_entries
        (existing args visited : list string) (fuel : nat)
        (pg : Progress.Globals)
        (items : list SnapDetails) (g1 : Globals) (pg1 : Progress.Globals)
        (t : list event) (required2 : gmap string bool) (t2 : list event)
        (fs : FS) (snaps : list SeedSnap) (text : string)
        (Hcollect :
           collectSnapsToProcess
             fuel visited
             (mkGlobals (loadCurrentSnaps existing []) (initialRequired args) ∅)
             pg
           = Collected items g1 pg1)
        (Hprocess : processAll items (requiredSnaps g1) t
                    = (Required required2, t2))
        (Hseed :
           updateSeedYaml
             readSeedYaml yamlUnmarshal yamlMarshal writeSeedYaml
             (currentSnaps
                (fst (cleanUpCurrentSnaps
                        removeFails assertionsDir snapsDir
                        (mkGlobals (currentSnaps g1) required2
                                   (processedSnaps g1)) fs)))
           = Ok (snaps, text)) :
  (forall e,
      In e snaps ->
      SeedChannel e = EmptyString
      /\ mapBool required2 (Name e) = true
      /\ exists revision,
           revision <> 0 /\ File e = snapFileName (Name e) revision)
  /\ (forall name,
         mapBool (processedSnaps g1) name = true ->
         exists e, In e snaps /\ Name e = name)
  /\ (forall d,
         In d items ->
         exists info,
           ResInfo (DetResult d) = Some info
           /\ In (mkSeedSnap (DetInstanceName d) EmptyString
                             (snapFileName (DetInstanceName d)
                                           (N (InfoRevision info))))
                 snaps).
Proof.
  set (g0 := mkGlobals (loadCurrentSnaps existing []) (initialRequired args) ∅)
    in Hcollect.
  (* the resolver *)
  unfold Main.collectSnapsToProcess in Hcollect.
  destruct (getVersionID osRelease) as [versionID|]; [|discriminate].
  destruct (collectEntries_resolved
              storeSnapAction readDir scanLines missingProviders
              snapsDir assertionsDir fuel
              ("latest/stable/ubuntu-" +:+ versionID) visited g0 pg [])
    as [_ Hdone].
  destruct (Hdone _ _ _ Hcollect) as (extra & E & Hg & Hf & Hd & Hn & Hw & Hl).
  simpl app in E. subst extra.
  destruct (Hl (loadCurrentSnaps existing []) [])
    as (old' & new' & Hc & Hincl & _ & Hnew & Hcover & Hitems).
  { subst g0. simpl. now rewrite app_nil_r. }
  { intros e []. }
  simpl app in Hc.
  (* the entries of [currentSnaps] *)
  assert (Hentry : forall cs,
             In cs (currentSnaps g1) ->
             TrackingChannel cs = EmptyString /\ N (Rev cs) <> 0).
  { intros cs Hin. rewrite Hc in Hin. apply in_app_or in Hin as [Hin|Hin].
    - apply Hincl in Hin.
      apply loadCurrentSnaps_from in Hin as [[]|[_ Hget]].
      destruct (getCurrentSnapInfo_fields _ _ _ _ _ Hget)
        as (_ & _ & Hrev & Hch).
      now split.
    - destruct (Hnew cs Hin) as (_ & _ & _ & Hrev & Hch & _). now split. }
  (* the cleanup and the manifest *)
  pose proof (processAll_required _ _ _ _ _ Hprocess) as Hreq.
  apply updateSeedYaml_snaps in Hseed.
  unfold Cleanup.cleanUpCurrentSnaps in Hseed.
  pose proof (cleanUpSnap_fold
                removeFails required2 assertionsDir snapsDir
                (currentSnaps g1) [] fs) as Hfold.
  cbn [currentSnaps requiredSnaps processedSnaps] in Hseed.
  destruct (fold_left _ (currentSnaps g1) _) as [kept fs'].
  destruct Hfold as (Hkept & _). simpl in Hkept, Hseed. subst kept snaps.
  assert (Hkeep : forall cs,
             In cs (currentSnaps g1) ->
             mapBool required2 (InstanceName cs) = true ->
             In (snapData cs)
                (map snapData
                     (List.filter
                        (fun s => mapBool required2 (InstanceName s))
                        (currentSnaps g1)))).
  { intros cs Hin Hr. apply in_map. apply List.filter_In. now split. }
  split; [|split].
  - intros e He. apply in_map_iff in He as (cs & <- & Hcs).
    apply List.filter_In in Hcs as [Hcs Hr].
    destruct (Hentry cs Hcs) as [Hch Hrev].
    unfold snapData. simpl. rewrite Hch.
    split; [reflexivity|]. split; [exact Hr|].
    exists (N (Rev cs)). now split.
  - intros name Hp.
    destruct (Hcover name eq_refl Hp) as (cs & Hcs & <-).
    exists (snapData cs). split; [|reflexivity].
    apply Hkeep; [rewrite Hc; apply in_or_app; now right|].
    apply Hreq.
    destruct (Hnew cs Hcs) as (_ & _ & _ & _ & _ & [Hr|(d & Hdin & Hdc)]);
      [now left | right].
    apply in_map_iff. exists d. split; [|exact Hdin].
    destruct (proj1 (List.Forall_forall _ _) Hw d Hdin)
      as (channel & info & _ & _ & _ & _ & Hcur).
    rewrite <- Hdc, Hcur. reflexivity.
  - intros d Hdin.
    destruct (proj1 (List.Forall_forall _ _) Hw d Hdin)
      as (channel & info & Hinfo & _ & _ & _ & Hcur).
    exists info. split; [exact Hinfo|].
    specialize (Hitems d Hdin).
    assert (Hdata : snapData (DetCurrentSnap d)
                    = mkSeedSnap (DetInstanceName d) EmptyString
                                 (snapFileName (DetInstanceName d)
                                               (N (InfoRevision info))))
      by (rewrite Hcur; reflexivity).
    rewrite <- Hdata. apply Hkeep.
    + rewrite Hc. apply in_or_app. now right.
    + apply Hreq. right. rewrite Hcur. simpl.
      apply in_map_iff. now exists d.
Qed.

End RunFacts.

(** ** progress.go: the lines of the tracker *)

Section TrackerFacts.
Import Progress.

Lemma reportProgress_lines (g g' : Globals) :
  reportProgress g = Some g' ->
  exists lines,
    printed g' = printed g ++ lines
    /\ (length lines <= 1)%nat
    /\ (lines = [] -> lastReported g' = lastReported g)
    /\ forall percentage status,
         In (percentage, status) lines ->
         percentage <= 99 /\ percentage <> lastReported g
         /\ lastReported g' = percentage.
Proof.
  unfold reportProgress.
  destruct (steps (progressTracker g) !! _) as [step|]; [|discriminate].
  destruct (0 <=? currentStep (progressTracker g)); [|discriminate].
  destruct (Z.eqb_spec (calculatePercentage (progressTracker g))
                       (lastReported g)) as [E|Hne]; simpl.
  - intros [= <-]. exists []. rewrite app_nil_r.
    split; [reflexivity|]. split; [simpl; lia|].
    split; [reflexivity | intros p s0 []].
  - intros [= <-]. eexists. split; [reflexivity|].
    split; [simpl; lia|]. split; [discriminate|].
    intros p s0 [[= <- <-]|[]].
    split; [apply calculatePercentage_le_99 | now split].
Qed.

Lemma advance_lines (g g' : Globals) :
  advance g = Some g' ->
  exists lines,
    printed g' = printed g ++ lines
    /\ (length lines <= 1)%nat
    /\ (lines = [] -> lastReported g' = lastReported g)
    /\ forall percentage status,
         In (percentage, status) lines ->
         percentage <= 99 /\ percentage <> lastReported g
         /\ lastReported g' = percentage.
Proof.
  unfold advance.
  destruct (_ <? _).
  - intros H. now apply reportProgress_lines in H.
  - intros [= <-]. exists []. rewrite app_nil_r.
    split; [reflexivity|]. split; [simpl; lia|].
    split; [reflexivity | intros p s0 []].
Qed.

Lemma reportProgress_returns (g : Globals) :
  0 <= currentStep (progressTracker g)
  < Z.of_nat (length (steps (progressTracker g))) ->
  reportProgress g <> None.
Proof.
  intros [H0 Hlt]. unfold reportProgress.
  assert (Hi : (Z.to_nat (currentStep (progressTracker g))
                < length (steps (progressTracker g)))%nat) by lia.
  apply lookup_lt_is_Some_2 in Hi as [step ->].
  destruct (Z.leb_spec 0 (currentStep (progressTracker g))); [|lia].
  destruct (negb _); discriminate.
Qed.

Lemma advance_returns (g : Globals) :
  -1 <= currentStep (progressTracker g) -> advance g <> None.
Proof.
  intros H. unfold advance.
  destruct (Z.ltb_spec (currentStep (progressTracker g))
                       (Z.of_nat (length (steps (progressTracker g))) - 1));
    [|discriminate].
  apply reportProgress_returns. simpl. rewrite length_alter. lia.
Qed.

(** X21: the lines the progress tracker prints never show more than 99.
    [Start] and [NextStep] print at most one line, and print it only when
    its percentage differs from the last one reported, which it then
    becomes; when they print nothing the last percentage reported is
    left as it was.  [Finish] on a tracker without a current step does
    nothing.  On a tracker with a current step it always prints a line
    with its own status first, whether or not the percentage has changed
    and without recording it as the last one reported, and then at most
    one line for the next step, only when that percentage differs from
    the last one reported before the call.  [Start] always returns, and
    so do [NextStep] and [Finish] when [currentStep] is not negative. *)
Theorem tracker_lines_at_most_99 (g g' : Globals) (status : string) :
  (TrackerStart g = Some g' \/ NextStep g = Some g' ->
   exists lines,
     printed g' = printed g ++ lines
     /\ (length lines <= 1)%nat
     /\ (lines = [] -> lastReported g' = lastReported g)
     /\ forall percentage status',
          In (percentage, status') lines ->
          percentage <= 99 /\ percentage <> lastReported g
          /\ lastReported g' = percentage)
  /\ (Finish g status = Some g' ->
      (steps (progressTracker g) = []
       \/ Z.of_nat (length (steps (progressTracker g)))
          <= currentStep (progressTracker g) ->
       g' = g)
      /\ (0 <= currentStep (progressTracker g)
          < Z.of_nat (length (steps (progressTracker g))) ->
          exists percentage rest,
            printed g' = printed g ++ (percentage, status) :: rest
            /\ percentage <= 99
            /\ (length rest <= 1)%nat
            /\ (rest = [] -> lastReported g' = lastReported g)
            /\ forall percentage' status',
                 In (percentage', status') rest ->
                 percentage' <= 99 /\ percentage' <> lastReported g
                 /\ lastReported g' = percentage'))
  /\ TrackerStart g <> None
  /\ (0 <= currentStep (progressTracker g) ->
      NextStep g <> None /\ Finish g status <> None).
Proof.
  split; [|split; [|split]].
  - intros [H|H]; [|now apply advance_lines].
    unfold TrackerStart in H. destruct (0 <? _).
    + now apply reportProgress_lines in H.
    + injection H as <-. exists []. rewrite app_nil_r.
      split; [reflexivity|]. split; [simpl; lia|].
      split; [reflexivity | intros p s0 []].
  - unfold Finish.
    destruct (Z.eqb_spec (Z.of_nat (length (steps (progressTracker g)))) 0)
      as [Hzero|Hsome]; simpl orb.
    { intros [= <-]. split; [reflexivity | lia]. }
    destruct (Z.leb_spec (Z.of_nat (length (steps (progressTracker g))))
                         (currentStep (progressTracker g))) as [Hout|Hin].
    { intros [= <-]. split; [reflexivity | lia]. }
    destruct (steps (progressTracker g) !! _) as [step|]; [|discriminate].
    cbv zeta. set (pt := if PrimFloat.ltb _ _ then _ else _).
    intros H. split.
    { intros [Hnil|Hle]; [rewrite Hnil in Hsome; now contradiction Hsome|lia]. }
    intros _.
    apply advance_lines in H as (lines & Hp & Hlen & Hkeep & Hle).
    exists (calculatePercentage pt), lines.
    split; [rewrite Hp; simpl; now rewrite <- app_assoc|].
    split; [apply calculatePercentage_le_99|].
    split; [exact Hlen|]. split; [exact Hkeep | exact Hle].
  - unfold TrackerStart.
    destruct (Z.ltb_spec 0 (Z.of_nat (length (steps (progressTracker g)))));
      [|discriminate].
    apply reportProgress_returns. simpl. rewrite length_alter. lia.
  - intros Hcur. split; [apply advance_returns; lia|].
    unfold Finish.
    destruct (Z.eqb_spec (Z.of_nat (length (steps (progressTracker g)))) 0);
      simpl orb; [discriminate|].
    destruct (Z.leb_spec (Z.of_nat (length (steps (progressTracker g))))
                         (currentStep (progressTracker g))) as [|Hin];
      [discriminate|].
    assert (Hi : (Z.to_nat (currentStep (progressTracker g))
                  < length (steps (progressTracker g)))%nat) by lia.
    apply lookup_lt_is_Some_2 in Hi as [step ->].
    cbv zeta. apply advance_returns.
    destruct (PrimFloat.ltb _ _); simpl; lia.
Qed.

End TrackerFacts.

(** ** The properties above on the sample worlds *)

Section RunSamplesFacts.
Import GoStrings Utils Resolver ResolverSpec ResolverLedger FileNames.
Import SeedYaml Cleanup Download Main MainSpec Samples RunSamples.

Lemma snapFileName_round_trip_witness :
  extractRevisionFromFile (snapFileName "hello" 42) = "42"
  /\ candidateRevision "hello" (snapFileName "hello" 42) = Some 42
  /\ candidateRevision "hello" (snapFileName "hello_world" 42) = Some 42.
Proof.
  destruct (snapFileName_round_trip "hello" 42) as (H1 & _ & Hread).
  destruct (Hread ltac:(unfold maxInt; lia)) as (_ & H2 & H3).
  split; [exact H1|]. split; [exact H2 | exact (H3 "world")].
Defined.

Lemma cleanUpFiles_leaves_no_stale_witness :
  let fs' := cleanUpFiles neverFails (snapsOf seedOfRun)
                          "/seed/snaps" "/seed/assertions" seedFiles in
  entries fs' "/seed/snaps"
  = ["bare_5.snap"; "core22_100.snap"; "hello_42.snap"; "notes.txt";
     "snapd_200.snap"]
  /\ entries fs' "/seed/assertions"
     = ["bare_5.assert"; "core22_100.assert"; "hello_42.assert"; "model";
        "snapd_200.assert"]
  /\ forall name,
       In name (entries fs' "/seed/snaps") ->
       HasSuffix name ".partial" = false /\ HasSuffix name ".delta" = false.
Proof.
  cbv zeta. split; [vm_compute; reflexivity|].
  split; [vm_compute; reflexivity|].
  intros name Hin.
  destruct (proj1 (cleanUpFiles_leaves_no_stale
                     neverFails (snapsOf seedOfRun)
                     "/seed/snaps" "/seed/assertions" seedFiles
                     (fun _ => eq_refl)) name Hin) as (H1 & H2 & _).
  now split.
Defined.

Lemma cleanUpCurrentSnaps_removes_dropped_witness :
  let fs' := snd (cleanUpCurrentSnaps neverFails "/seed/assertions"
                                      "/seed/snaps" staleGlobals seedFiles) in
  ~ In (assertFileName "old" 7) (entries fs' "/seed/assertions")
  /\ ~ In (snapFileName "old" 7) (entries fs' "/seed/snaps").
Proof.
  exact (cleanUpCurrentSnaps_removes_dropped
           neverFails "/seed/assertions" "/seed/snaps" staleGlobals seedFiles
           (mkCurrentSnap "old" "idO" (mkRevision 7) EmptyString)
           (fun _ => eq_refl)
           ltac:(left; reflexivity)
           ltac:(vm_compute; reflexivity)).
Defined.

Lemma cleanUpFiles_keeps_seeded_witness :
  let fs' := cleanUpFiles neverFails (snapsOf seedOfRun)
                          "/seed/snaps" "/seed/assertions" seedFiles in
  In (snapFileName "hello" 42) (entries fs' "/seed/snaps")
  /\ In (assertFileName "hello" 42) (entries fs' "/seed/assertions").
Proof.
  destruct (cleanUpFiles_keeps_seeded
              neverFails seedRead seedUnmarshal seedMarshal seedWrite
              (currentSnaps (fst cleanedRun))
              (snapsOf seedOfRun) (textOf seedOfRun)
              "/seed/snaps" "/seed/assertions" seedFiles
              (mkCurrentSnap "hello" "idH" (mkRevision 42) EmptyString)
              ltac:(vm_compute; reflexivity)
              ltac:(vm_compute; tauto))
    as (_ & _ & Hs & Ha).
  split; [apply Hs | apply Ha]; vm_compute; tauto.
Defined.

Lemma downloadSnapDeltaWithRetries_backoff_witness :
  slept (snd (downloadSnapDeltaWithRetries
                storeDown helloDelta helloInfo
                "/seed/snaps/hello_41_to_42.delta" 5 []))
  = 31 * second.
Proof.
  destruct (downloadSnapDeltaWithRetries_backoff
              storeDown helloDelta helloInfo
              "/seed/snaps/hello_41_to_42.delta" 5 [] ltac:(lia))
    as (errs & evs & Hsnd & Hslept & [(_ & Hnone & _)|(Hk & _)]).
  - vm_compute in Hnone. discriminate.
  - rewrite Hsnd. simpl app. rewrite Hslept.
    replace (Z.of_nat (length errs)) with 5 by (rewrite Hk; reflexivity).
    reflexivity.
Defined.

Lemma downloadAndApplySnap_assertions_last_witness :
  let run := downloadAndApplySnap
               false storeDownload fileExists xdelta3 downloadAssertions
               (Some helloDeltaResult) "/seed/snaps" "/seed/assertions"
               (Some oldHello) [] in
  fst run = Ok (Some helloInfo)
  /\ fst run <> Ok None
  /\ exists evs, snd run = [] ++ evs.
Proof.
  cbv zeta. split; [vm_compute; reflexivity|].
  destruct (downloadAndApplySnap_assertions_last
              false storeDownload fileExists xdelta3 downloadAssertions
              helloDeltaResult "/seed/snaps" "/seed/assertions"
              (Some oldHello) []
              (fst (downloadAndApplySnap
                      false storeDownload fileExists xdelta3
                      downloadAssertions (Some helloDeltaResult)
                      "/seed/snaps" "/seed/assertions" (Some oldHello) []))
              (snd (downloadAndApplySnap
                      false storeDownload fileExists xdelta3
                      downloadAssertions (Some helloDeltaResult)
                      "/seed/snaps" "/seed/assertions" (Some oldHello) []))
              ltac:(vm_compute; reflexivity))
    as (Hnil & evs & Hevs & _).
  split; [exact Hnil | now exists evs].
Defined.

Lemma processSnap_of_work_item_witness :
  exists info,
    ResInfo (DetResult helloItem) = Some info
    /\ fst (processSnap false storeDownload fileExists xdelta3
                        downloadAssertions helloItem
                        "/seed/snaps" "/seed/assertions" ∅ [])
       <> NilInfo.
Proof.
  destruct (processSnap_of_work_item
              Samples.storeSnapAction readDir scanLines missingProviders
              "/seed/snaps" "/seed/assertions"
              false storeDownload fileExists xdelta3 downloadAssertions
              3 "hello" defaultChannel fallbackChannel emptyGlobals
              (itemsOf resolveHello) (globalsOf resolveHello)
              helloItem ∅ []
              (fst (processSnap false storeDownload fileExists xdelta3
                                downloadAssertions helloItem
                                "/seed/snaps" "/seed/assertions" ∅ []))
              (snd (processSnap false storeDownload fileExists xdelta3
                                downloadAssertions helloItem
                                "/seed/snaps" "/seed/assertions" ∅ []))
              ltac:(vm_compute; reflexivity)
              ltac:(vm_compute; tauto)
              ltac:(vm_compute; reflexivity))
    as (info & Hinfo & Hnil & _).
  exists info. now split.
Defined.

Lemma main_seed_entries_witness :
  snapsOf seedOfRun
  = [mkSeedSnap "snapd" EmptyString "snapd_200.snap";
     mkSeedSnap "bare" EmptyString "bare_5.snap";
     mkSeedSnap "hello" EmptyString "hello_42.snap";
     mkSeedSnap "core22" EmptyString "core22_100.snap"]
  /\ (forall e, In e (snapsOf seedOfRun) -> SeedChannel e = EmptyString)
  /\ (forall name,
         mapBool (processedSnaps (globalsOfRun collectedRun)) name = true ->
         exists e, In e (snapsOf seedOfRun) /\ Name e = name).
Proof.
  split; [vm_compute; reflexivity|].
  destruct (main_seed_entries
              RunSamples.storeSnapAction readDir scanLines missingProviders
              "/seed/snaps" "/seed/assertions" glob osRelease
              false storeDownload fileExists xdelta3 downloadAssertions
              neverFails seedRead seedUnmarshal seedMarshal seedWrite
              ["hello"; "core22"] ["hello"] ["snapd"; "bare"; "hello"]
              3%nat startProgress
              (itemsOfRun collectedRun) (globalsOfRun collectedRun)
              (progressOfRun collectedRun)
              [] (requiredOfRun (fst processedRun)) (snd processedRun)
              seedFiles (snapsOf seedOfRun) (textOf seedOfRun)
              ltac:(vm_compute; reflexivity)
              ltac:(vm_compute; reflexivity)
              ltac:(vm_compute; reflexivity))
    as (Hentries & Hprocessed & _).
  split; [|exact Hprocessed].
  intros e He. now destruct (Hentries e He).
Defined.

Lemma collectSnapDependencies_keeps_resolved_witness :
  In (mkCurrentSnap "hello" "idH" (mkRevision 42) EmptyString)
     (currentSnaps (globalsOf resolveHello))
  /\ length (currentSnaps (globalsOf resolveHello)) = 2%nat.
Proof.
  split; [|vm_compute; reflexivity].
  destruct (collectSnapDependencies_keeps_resolved
              Samples.storeSnapAction readDir scanLines missingProviders
              "/seed/snaps" "/seed/assertions"
              3 "hello" defaultChannel fallbackChannel emptyGlobals
              (itemsOf resolveHello) (globalsOf resolveHello) [] []
              ltac:(vm_compute; reflexivity)
              ltac:(reflexivity)
              ltac:(intros e []))
    as (old' & new' & Hc & _ & _ & Hnew & Hcover & _).
  destruct (Hcover "hello" ltac:(reflexivity) ltac:(vm_compute; reflexivity))
    as (e & He & Hname).
  destruct (Hnew e He)
    as (_ & _ & r & info & Hans & Hinfo & _ & _ & Hshape & _).
  rewrite Hname in Hans, Hshape.
  vm_compute in Hans. injection Hans as <-.
  vm_compute in Hinfo. injection Hinfo as <-.
  rewrite Hc. apply in_or_app. right. simpl app.
  rewrite Hshape in He. exact He.
Defined.

Lemma entry_name_and_channel_witness :
  entryName "hello=latest/edge" = "hello"
  /\ entryChannel defaultChannel "hello=latest/edge" = "latest/edge"
  /\ entryChannel defaultChannel "hello" = defaultChannel.
Proof.
  destruct (entry_name_and_channel defaultChannel "hello" "latest/edge"
                                   ltac:(reflexivity))
    as (_ & H2 & H3 & H4).
  split; [exact H3|]. split; [exact H4 | exact H2].
Defined.


Lemma cleanUpFiles_only_seeded_witness :
  let fs' := cleanUpFiles neverFails (snapsOf seedOfRun)
                          "/seed/snaps" "/seed/assertions" seedFiles in
  In "hello_42.snap" (entries fs' "/seed/snaps")
  /\ exists cs,
      In cs (currentSnaps (fst cleanedRun))
      /\ "hello_42.snap" = snapFileName (InstanceName cs) (N (Rev cs)).
Proof.
  split; [vm_compute; tauto|].
  destruct (cleanUpFiles_only_seeded
              neverFails seedRead seedUnmarshal seedMarshal seedWrite
              (currentSnaps (fst cleanedRun))
              (snapsOf seedOfRun) (textOf seedOfRun)
              "/seed/snaps" "/seed/assertions" seedFiles
              ltac:(vm_compute; reflexivity)
              ltac:(reflexivity))
    as (Hs & _).
  destruct (Hs "hello_42.snap" ltac:(vm_compute; tauto)
               ltac:(vm_compute; reflexivity))
    as (cs & Hcs & Hname & _).
  exists cs. now split.
Defined.

Lemma run_store_closed include actions result rest info :
  RunSamples.storeSnapAction include actions = Ok (result :: rest) ->
  ResInfo result = Some info ->
  (Base info = EmptyString
   \/ In (Base info) ["snapd"; "bare"; "hello"; "core22"])
  /\ forall p, In p (missingProviders info) ->
               In p ["snapd"; "bare"; "hello"; "core22"].
Proof.
  unfold RunSamples.storeSnapAction, Samples.storeSnapAction.
  destruct actions as [|a [|]]; try discriminate.
  destruct (String.eqb _ "snapd"); [|destruct (String.eqb _ "bare");
    [|destruct (String.eqb _ "hello");
      [destruct (String.eqb _ fallbackChannel); [|discriminate]
      |destruct (String.eqb _ "core22"); [|discriminate];
       destruct (String.eqb _ "refresh"); [discriminate|]]]].
  all: intros [= <- <-] [= <-]; vm_compute; intuition.
Qed.

Lemma collectSnapsToProcess_terminates_witness :
  itemsOfRun collectedRun <> []
  /\ collectSnapsToProcess
       RunSamples.storeSnapAction readDir scanLines missingProviders
       "/seed/snaps" "/seed/assertions" osRelease
       5 ["snapd"; "bare"; "hello"] startGlobals startProgress
     <> CollectOutOfFuel.
Proof.
  split; [vm_compute; discriminate|].
  apply (collectSnapsToProcess_terminates
           RunSamples.storeSnapAction readDir scanLines missingProviders
           "/seed/snaps" "/seed/assertions" osRelease
           ["snapd"; "bare"; "hello"; "core22"] run_store_closed).
  - intros snapEntry [<-|[<-|[<-|[]]]]; vm_compute; tauto.
  - vm_compute; lia.
Defined.

End RunSamplesFacts.

Section TrackerSamplesFacts.
Import Progress RunSamples.

Lemma tracker_lines_at_most_99_witness :
  (exists lines,
      printed initialProgress = [] ++ lines /\ (length lines <= 1)%nat)
  /\ exists percentage rest,
       printed collectedProgress
       = printed initialProgress
           ++ (percentage, "Finished collecting snap info") :: rest
       /\ percentage <= 99
       /\ (length rest <= 1)%nat.
Proof.
  split.
  - destruct (proj1 (tracker_lines_at_most_99
                       trackerOfMain initialProgress EmptyString)
                    ltac:(left; vm_compute; reflexivity))
      as (lines & Hp & Hlen & _).
    exists lines. now split.
  - destruct (proj2 (proj1 (proj2 (tracker_lines_at_most_99
                                     initialProgress collectedProgress
                                     "Finished collecting snap info"))
                           ltac:(vm_compute; reflexivity))
                    ltac:(vm_compute; split; [discriminate | reflexivity]))
      as (percentage & rest & Hp & Hle & Hlen & _).
    exists percentage, rest. split; [exact Hp|]. now split.
Defined.

End TrackerSamplesFacts.
